(** * mindtest-backend: event ingestion, session identity and aggregation

    A shallow embedding of the Express servers of the repository
    (src/server.js, src/server-render.js and the two unnamed server
    files), and the properties of their request handlers.

    The repository holds several near-duplicate servers.  They are kept
    apart here, one module each:
    - [ServerA]  : src/server.js, first program (SQLite, full routes);
    - [ServerB]  : src/server.js, second program (SQLite, no alias fields);
    - [ServerC]  : src/server.js, third program (session cookie without
                   max-age, client time stamps);
    - [Render]   : src/server-render.js (Supabase only);
    - [Tracker]  : src/unnamed/part_001, first program (tracker.db).
    The second program of src/unnamed/part_001 is [ServerA] plus a
    fire-and-forget copy of each written row to Supabase; its routes on
    the SQLite store are those of [ServerA].  Its writes with their
    copies, and its route /api/user-results, are in [Mirror]. *)

From Stdlib Require Import ZArith List String Ascii Bool Lia DecimalString Sorted.
From stdpp Require Import base option list gmap strings.

Open Scope string_scope.
Open Scope Z_scope.

(* ================================================================== *)
(** * JavaScript values *)
(* ================================================================== *)

Module JS.

(** The values a parsed JSON body, a cookie or a query parameter can hold.
    Numbers of the embedding are the integers (a JSON number with a
    fraction or an exponent has no counterpart here).  An object is the
    list of its own properties in enumeration order, keys distinct; a
    property read takes the first binding of the key. *)
#[warnings="-register-all"]
Inductive jsval : Type :=
| JUndefined
| JNull
| JBool (b : bool)
| JNum (n : Z)
| JStr (s : string)
| JArr (l : list jsval)
| JObj (props : list (string * jsval)).

(** Result of [Number(v)] and of arithmetic on it. *)
Inductive jsnum : Type :=
| NaN
| Num (n : Z).

(** JavaScript exceptions the handlers can meet. *)
Inductive exn : Type :=
| TypeError      (* property read on null/undefined, non-iterable, bad bind *)
| RangeError     (* Invalid time value *)
| SqliteError    (* constraint violation or any storage failure *)
| SyntaxError    (* JSON.parse of a malformed text *)
| PostgrestError (* error object returned by the Supabase client, thrown *).

(** [ToBoolean]: what [!v], [v ? a : b] and [v || w] test. *)
Definition truthy (v : jsval) : bool :=
  match v with
  | JUndefined | JNull => false
  | JBool b => b
  | JNum n => negb (n =? 0)
  | JStr s => negb (String.eqb s "")
  | JArr _ | JObj _ => true
  end.

(** [a || b] *)
Definition js_or (a b : jsval) : jsval := if truthy a then a else b.
Infix "|||" := js_or (at level 50, left associativity).

Fixpoint assoc (k : string) (props : list (string * jsval)) : jsval :=
  match props with
  | [] => JUndefined
  | (k', v) :: rest => if String.eqb k k' then v else assoc k rest
  end.

(** [v.k]: throws on null and undefined; on a primitive, or on an array,
    none of the names read by the servers (page, type, event, payload,
    properties, batch, ts, sessionId, result_name, scores) is a property
    of the prototype, so the read gives undefined. *)
Definition get (v : jsval) (k : string) : exn + jsval :=
  match v with
  | JUndefined | JNull => inl TypeError
  | JObj props => inr (assoc k props)
  | _ => inr JUndefined
  end.

(** [v?.k] *)
Definition get_opt (v : jsval) (k : string) : jsval :=
  match v with
  | JObj props => assoc k props
  | _ => JUndefined
  end.

Definition isArray (v : jsval) : bool :=
  match v with JArr _ => true | _ => false end.

Definition Z_to_string (n : Z) : string := NilZero.string_of_int (Z.to_int n).

Fixpoint join (sep : string) (l : list string) : string :=
  match l with
  | [] => ""
  | [s] => s
  | s :: rest => s +:+ sep +:+ join sep rest
  end.

(** [String(v)] *)
Fixpoint js_String (v : jsval) : string :=
  match v with
  | JUndefined => "undefined"
  | JNull => "null"
  | JBool true => "true"
  | JBool false => "false"
  | JNum n => Z_to_string n
  | JStr s => s
  | JArr l =>
      join "," (List.map (fun x => match x with
                                   | JUndefined | JNull => ""
                                   | _ => js_String x
                                   end) l)
  | JObj _ => "[object Object]"
  end.

(** ** JSON.stringify *)

Definition hex_digit (n : N) : ascii :=
  ascii_of_N (if (n <? 10)%N then 48 + n else 87 + n).

Definition dquote : string := String (ascii_of_N 34) "".

Definition escape_char (c : ascii) : string :=
  let n := N_of_ascii c in
  if (n =? 34)%N then "\" +:+ dquote
  else if (n =? 92)%N then "\\"
  else if (n =? 8)%N then "\b"
  else if (n =? 9)%N then "\t"
  else if (n =? 10)%N then "\n"
  else if (n =? 12)%N then "\f"
  else if (n =? 13)%N then "\r"
  else if (n <? 32)%N then
    "\u00" +:+ String (hex_digit (n / 16)) (String (hex_digit (n mod 16)) "")
  else String c "".

Fixpoint escape (s : string) : string :=
  match s with
  | EmptyString => ""
  | String c rest => escape_char c +:+ escape rest
  end.

Definition quote (s : string) : string := dquote +:+ escape s +:+ dquote.

(** [JSON.stringify(v)] for a defined [v] (every call of the servers that
    is modelled passes one: the argument ends in [|| {}] or has the
    default [{}]).  Inside an array undefined reads as null; inside an
    object a property holding undefined is skipped. *)
Fixpoint stringify (v : jsval) : string :=
  match v with
  | JUndefined | JNull => "null"
  | JBool true => "true"
  | JBool false => "false"
  | JNum n => Z_to_string n
  | JStr s => quote s
  | JArr l => "[" +:+ join "," (List.map stringify l) +:+ "]"
  | JObj props =>
      "{" +:+
      join "," ((fix members (ps : list (string * jsval)) : list string :=
                   match ps with
                   | [] => []
                   | (k, JUndefined) :: rest => members rest
                   | (k, x) :: rest => (quote k +:+ ":" +:+ stringify x) :: members rest
                   end) props)
      +:+ "}"
  end.

(** ** Number *)

Definition digit_of (c : ascii) : option Z :=
  let n := Z.of_N (N_of_ascii c) in
  if (48 <=? n) && (n <=? 57) then Some (n - 48) else None.

Fixpoint digits_value (acc : Z) (s : string) : option Z :=
  match s with
  | EmptyString => Some acc
  | String c rest =>
      match digit_of c with
      | Some d => digits_value (10 * acc + d) rest
      | None => None
      end
  end.

(** [Number(s)] on a string: the empty string is 0, an optionally signed
    run of decimal digits is that integer.  The other numeric literals of
    JavaScript denote numbers outside [jsnum] or are written with white
    space, a radix prefix or an exponent; they read as NaN here, as every
    text that is not a number does. *)
Definition string_to_number (s : string) : jsnum :=
  match s with
  | EmptyString => Num 0
  | String c rest =>
      if Ascii.eqb c "-" then
        match rest with
        | EmptyString => NaN
        | _ => match digits_value 0 rest with Some n => Num (- n) | None => NaN end
        end
      else if Ascii.eqb c "+" then
        match rest with
        | EmptyString => NaN
        | _ => match digits_value 0 rest with Some n => Num n | None => NaN end
        end
      else match digits_value 0 s with Some n => Num n | None => NaN end
  end.

(** [Number(v)] for the values a query parameter takes: a string, or the
    numeric default of the destructuring pattern. *)
Definition Number (v : jsval) : jsnum :=
  match v with
  | JUndefined => NaN
  | JNull => Num 0
  | JBool b => Num (if b then 1 else 0)
  | JNum n => Num n
  | JStr s => string_to_number s
  | JArr [] => Num 0
  | JArr _ | JObj _ => NaN
  end.

(** [n || d] on numbers: NaN and 0 are falsy. *)
Definition num_or (n : jsnum) (d : Z) : Z :=
  match n with
  | NaN => d
  | Num k => if k =? 0 then d else k
  end.

Definition num_sub (a : jsnum) (b : Z) : jsnum :=
  match a with NaN => NaN | Num k => Num (k - b) end.

Definition num_mul (a : jsnum) (b : Z) : jsnum :=
  match a with NaN => NaN | Num k => Num (k * b) end.

End JS.

(* ================================================================== *)
(** * Time: instants, the calendar and [Date.prototype.toISOString] *)
(* ================================================================== *)

Module Time.

(** An instant is a number of milliseconds since 1970-01-01T00:00:00Z. *)

Record date : Type := mkDate { year : Z; month : Z; day : Z }.

Definition is_leap (y : Z) : bool :=
  ((y mod 4 =? 0) && negb (y mod 100 =? 0)) || (y mod 400 =? 0).

Definition days_in_month (y m : Z) : Z :=
  if m =? 2 then (if is_leap y then 29 else 28)
  else if (m =? 4) || (m =? 6) || (m =? 9) || (m =? 11) then 30
  else 31.

(** The Gregorian calendar, one day after the other. *)
Definition next_day (d : date) : date :=
  if day d <? days_in_month (year d) (month d)
  then mkDate (year d) (month d) (day d + 1)
  else if month d <? 12 then mkDate (year d) (month d + 1) 1
  else mkDate (year d + 1) 1 1.

Definition epoch : date := mkDate 1970 1 1.

(** The date of day number [n] (day 0 is the epoch). *)
Definition civil_from_days (n : Z) : date := Z.iter n next_day epoch.

Definition ms_per_day : Z := 86400000.

Definition digit (n : Z) : ascii := ascii_of_N (Z.to_N (48 + n)).

(** [n] written with [w] decimal digits, zero padded. *)
Fixpoint pad (w : nat) (n : Z) : string :=
  match w with
  | O => ""
  | S w' => pad w' (n / 10) +:+ String (digit (n mod 10)) ""
  end.

(** The fields of YYYY-MM-DDTHH:mm:ss.sssZ: width, value, separator. *)
Definition fields (t : Z) : list (nat * Z * string) :=
  let d := civil_from_days (t / ms_per_day) in
  let r := t mod ms_per_day in
  [ (4%nat, year d, "-"); (2%nat, month d, "-"); (2%nat, day d, "T");
    (2%nat, r / 3600000, ":"); (2%nat, r / 60000 mod 60, ":");
    (2%nat, r / 1000 mod 60, "."); (3%nat, r mod 1000, "Z") ].

Fixpoint fmt (fs : list (nat * Z * string)) : string :=
  match fs with
  | [] => ""
  | (w, v, sep) :: rest => pad w v +:+ sep +:+ fmt rest
  end.

(** [new Date(t).toISOString()], for the instants of the years 1970 to
    9999 ([iso_range] below); JavaScript writes the other years with a
    sign and six digits, which this definition does not. *)
Definition toISOString (t : Z) : string := fmt (fields t).

Definition iso_range (t : Z) : Prop :=
  0 <= t /\ year (civil_from_days (t / ms_per_day)) <= 9999.

(** Day number of a date of the calendar. *)
Definition days_from_civil (y m d : Z) : Z :=
  let y' := if m <=? 2 then y - 1 else y in
  let era := y' / 400 in
  let yoe := y' - era * 400 in
  let mp := (m + 9) mod 12 in
  let doy := (153 * mp + 2) / 5 + d - 1 in
  let doe := yoe * 365 + yoe / 4 - yoe / 100 + doy in
  era * 146097 + doe - 719468.

(** Lexicographic comparison of field values. *)
Fixpoint lex (l1 l2 : list Z) : comparison :=
  match l1, l2 with
  | [], [] => Eq
  | [], _ => Lt
  | _, [] => Gt
  | a :: r1, b :: r2 => match a ?= b with Eq => lex r1 r2 | c => c end
  end.

Definition field_ok (f : nat * Z * string) : Prop :=
  0 <= f.1.2 < 10 ^ Z.of_nat f.1.1.

Definition same_shape (f g : nat * Z * string) : Prop :=
  f.1.1 = g.1.1 /\ f.2 = g.2.

Definition date_valid (d : date) : Prop :=
  1970 <= year d /\ 1 <= month d <= 12 /\
  1 <= day d <= days_in_month (year d) (month d).

Definition date_lt (d e : date) : Prop :=
  lex [year d; month d; day d] [year e; month e; day e] = Lt.

End Time.

(* ================================================================== *)
(** * What the servers take from their host *)
(* ================================================================== *)

Module Host.

(** Library code that depends on the time zone of the process, on
    SQLite's date functions or on a parser; the handlers are stated for
    every host. *)
Record t : Type := mk {
  (** [dayjs(v).valueOf()]: the instant a text denotes, read in local
      time when it carries no zone; [None] for an invalid date. *)
  dayjs : JS.jsval -> option Z;
  (** [.startOf('day')] and [.endOf('day')]: local midnight and the last
      millisecond of the local day of an instant. *)
  startOf_day : Z -> Z;
  endOf_day : Z -> Z;
  (** [dayjs().format("YYYY-MM-DD")]: the local date of an instant. *)
  format_date : Z -> string;
  (** [JSON.parse]; [None] when it throws. *)
  JSON_parse : string -> option JS.jsval;
  (** SQLite's [strftime('%H', ts)]; [None] is NULL. *)
  strftime_H : string -> option string
}.

End Host.

(* ================================================================== *)
(** * Requests, responses and the effects of a handler *)
(* ================================================================== *)

Module Http.
Import JS.

Record request : Type := mkRequest {
  cookies : list (string * jsval);   (* req.cookies, from cookie-parser *)
  query : list (string * jsval);     (* req.query *)
  headers : list (string * jsval);   (* req.headers *)
  remoteAddress : jsval;             (* req.socket.remoteAddress *)
  body : jsval                       (* req.body, from express.json *)
}.

(** A cookie set with [res.cookie(name, value, options)]; an option left
    out of the call is [None]. *)
Record cookie : Type := mkCookie {
  name : string;
  value : string;
  maxAge : option Z;                 (* milliseconds *)
  httpOnly : option bool;
  sameSite : option string;
  secure : option bool
}.

(** What a route hands to [res.status(..).json(..)]. *)
Record reply : Type := mkReply { status : Z; json : jsval }.

Record response : Type := mkResponse {
  set_cookie : list cookie;
  sent : reply
}.

Definition ok (v : jsval) : reply := mkReply 200 v.

Definition error (code : Z) (msg : string) : reply :=
  mkReply code (JObj [("error", JStr msg)]).

End Http.

Module Eff.
Import JS.

Section WithStore.
Context {D : Type}.

(** The state a request runs in: the store, and the random source that
    [nanoid()] draws from ([drawn] ids were taken so far). *)
Record world : Type := mkWorld {
  store : D;
  nanoid_source : nat -> string;
  drawn : nat
}.

Definition set_store (d : D) (w : world) : world :=
  mkWorld d (nanoid_source w) (drawn w).

(** A computation that may throw; the world it leaves holds whatever was
    done before the throw. *)
Definition M (A : Type) : Type := world -> (exn + A) * world.

Definition ret {A} (a : A) : M A := fun w => (inr a, w).

Definition throw {A} (e : exn) : M A := fun w => (inl e, w).

Definition bind {A B} (m : M A) (k : A -> M B) : M B :=
  fun w => match m w with
           | (inr a, w') => k a w'
           | (inl e, w') => (inl e, w')
           end.

Definition lift {A} (r : exn + A) : M A :=
  match r with inl e => throw e | inr a => ret a end.

(** [try { m } catch (e) { h e }] *)
Definition try_catch {A} (m : M A) (h : exn -> M A) : M A :=
  fun w => match m w with
           | (inr a, w') => (inr a, w')
           | (inl e, w') => h e w'
           end.

Definition get_store : M D := fun w => (inr (store w), w).

Definition nanoid : M string :=
  fun w => (inr (nanoid_source w (drawn w)),
            mkWorld (store w) (nanoid_source w) (S (drawn w))).

(** [for (const x of l) body(x)] *)
Fixpoint for_of {A} (l : list A) (body : A -> M unit) : M unit :=
  match l with
  | [] => ret tt
  | x :: rest => bind (body x) (fun _ => for_of rest body)
  end.

End WithStore.

Arguments world : clear implicits.
Arguments M : clear implicits.

Declare Scope eff_scope.
Delimit Scope eff_scope with eff.
Notation "x <- m ;; k" := (bind m (fun x => k))
  (at level 100, m at next level, right associativity) : eff_scope.
Notation "m ;;; k" := (bind m (fun _ => k))
  (at level 100, right associativity) : eff_scope.

(** The same in the exception type alone, for code without effects. *)
Definition ebind {A B} (r : exn + A) (k : A -> exn + B) : exn + B :=
  match r with inl e => inl e | inr a => k a end.

Fixpoint emap {A B} (f : A -> exn + B) (l : list A) : exn + list B :=
  match l with
  | [] => inr []
  | x :: rest =>
      ebind (f x) (fun y => ebind (emap f rest) (fun ys => inr (y :: ys)))
  end.

End Eff.

(* ================================================================== *)
(** * The SQLite store of src/server.js *)
(* ================================================================== *)

(** Table [events]: id TEXT PRIMARY KEY, ts TEXT NOT NULL, session_id,
    ip, page, type, payload TEXT.  Every column but [session_id] is
    written from a string by every server. *)
Module Events.
Record row : Type := mk {
  id : string;
  ts : string;
  session_id : option string;        (* [None] is NULL *)
  ip : string;
  page : string;
  type : string;
  payload : string
}.
End Events.

(** Table [results]: id TEXT PRIMARY KEY, ts TEXT NOT NULL, session_id,
    result_name, score_json TEXT. *)
Module Results.
Record row : Type := mk {
  id : string;
  ts : string;
  session_id : option string;
  result_name : string;
  score_json : string
}.
End Results.

Module Sqlite.
Import JS Eff.

Record db : Type := mkDb {
  events : list Events.row;
  results : list Results.row
}.

(** A storage failure from outside the program (disk full, I/O error,
    lock): whether a statement fails in a given state of the store. *)
Record faults : Type := mkFaults {
  event_fails : db -> Events.row -> bool;
  result_fails : db -> Results.row -> bool
}.

Definition no_faults : faults := mkFaults (fun _ _ => false) (fun _ _ => false).

(** How better-sqlite3 binds a JavaScript value to a parameter of a TEXT
    column: null and undefined are NULL, a string is itself, a number is
    bound as a double and stored in its text form (integers below 10^15
    in magnitude), anything else is refused with a TypeError. *)
Definition bind_text (v : jsval) : exn + option string :=
  match v with
  | JUndefined | JNull => inr None
  | JStr s => inr (Some s)
  | JNum n => inr (Some (Z_to_string n +:+ ".0"))
  | JBool _ | JArr _ | JObj _ => inl TypeError
  end.

Section Statements.
Variable F : faults.

(** [stInsertEvent.run(row)] *)
Definition stInsertEvent_run (r : Events.row) : M db unit :=
  fun w =>
    let d := store w in
    if existsb (fun x => String.eqb (Events.id x) (Events.id r)) (events d)
       || event_fails F d r
    then (inl SqliteError, w)
    else (inr tt, set_store (mkDb (events d ++ [r]) (results d)) w).

(** [stInsertResult.run(row)] *)
Definition stInsertResult_run (r : Results.row) : M db unit :=
  fun w =>
    let d := store w in
    if existsb (fun x => String.eqb (Results.id x) (Results.id r)) (results d)
       || result_fails F d r
    then (inl SqliteError, w)
    else (inr tt, set_store (mkDb (events d) (results d ++ [r])) w).

End Statements.

(** [db.transaction(fn)(args)]: BEGIN, run, then COMMIT, or ROLLBACK and
    throw again. *)
Definition transaction {A} (f : M db A) : M db A :=
  fun w =>
    match f w with
    | (inr a, w') => (inr a, w')
    | (inl e, w') => (inl e, set_store (store w) w')
    end.

(** ** Queries *)

Section Select.
Context {R : Type}.
Variable ts : R -> string.

(** [(@start IS NULL OR ts >= @start) AND (@end IS NULL OR ts <= @end)]:
    TEXT values compare byte by byte. *)
Definition where_range (start end_ : option string) (r : R) : bool :=
  match start with None => true | Some s => String.leb s (ts r) end
  && match end_ with None => true | Some e => String.leb (ts r) e end.

Fixpoint insert_desc (le : R -> R -> bool) (x : R) (l : list R) : list R :=
  match l with
  | [] => [x]
  | y :: rest => if le y x then x :: l else y :: insert_desc le x rest
  end.

(** [ORDER BY .. DESC] for the order [le]; rows that compare equal stay
    in table order (SQLite leaves their order open). *)
Definition sort_desc (le : R -> R -> bool) (l : list R) : list R :=
  fold_right (insert_desc le) [] l.

(** [ORDER BY ts DESC] *)
Definition order_by_ts_desc (l : list R) : list R :=
  sort_desc (fun a b => String.leb (ts a) (ts b)) l.

(** [LIMIT l OFFSET o]: a negative limit is no limit, a negative offset
    is 0. *)
Definition limit_offset (l o : Z) (rows : list R) : list R :=
  let rest := drop (Z.to_nat o) rows in
  if l <? 0 then rest else take (Z.to_nat l) rest.

(** [stQueryEvents.all(params)] and [stQueryResults.all(params)].  A NaN
    offset is bound as NULL, which OFFSET refuses. *)
Definition stQuery_all (start end_ : option string) (limit : Z)
    (offset : jsnum) (rows : list R) : exn + list R :=
  match offset with
  | NaN => inl SqliteError
  | Num o =>
      inr (limit_offset limit o
             (order_by_ts_desc (List.filter (where_range start end_) rows)))
  end.

End Select.

(** [COUNT(DISTINCT c)]: NULL is not counted. *)
Definition count_distinct (l : list (option string)) : Z :=
  Z.of_nat (size (list_to_set (omap (fun x => x) l) : gset string)).

Section GroupBy.
Context {K : Type} `{EqDecision K}.

Fixpoint bump (k : K) (acc : list (K * Z)) : list (K * Z) :=
  match acc with
  | [] => [(k, 1)]
  | (k', n) :: rest =>
      if decide (k = k') then (k', n + 1) :: rest else (k', n) :: bump k rest
  end.

(** [SELECT c, COUNT( * ) ... GROUP BY c]: one pair for each value of the
    column (NULL is a value of its own), in order of first appearance. *)
Definition group_count (keys : list K) : list (K * Z) :=
  fold_left (fun acc k => bump k acc) keys [].

Fixpoint insert_count_desc (x : K * Z) (l : list (K * Z)) : list (K * Z) :=
  match l with
  | [] => [x]
  | y :: rest => if y.2 <=? x.2 then x :: l else y :: insert_count_desc x rest
  end.

(** [ORDER BY count DESC]; groups of equal count stay in group order. *)
Definition order_by_count_desc (l : list (K * Z)) : list (K * Z) :=
  fold_right insert_count_desc [] l.

End GroupBy.

(** NULL sorts before every text. *)
Definition null_first_leb (a b : option string) : bool :=
  match a, b with
  | None, _ => true
  | Some _, None => false
  | Some x, Some y => String.leb x y
  end.

Fixpoint insert_key_asc (x : option string * Z) (l : list (option string * Z)) :
    list (option string * Z) :=
  match l with
  | [] => [x]
  | y :: rest =>
      if null_first_leb x.1 y.1 then x :: l else y :: insert_key_asc x rest
  end.

(** [ORDER BY hour] *)
Definition order_by_key_asc (l : list (option string * Z)) :
    list (option string * Z) :=
  fold_right insert_key_asc [] l.

Definition null_or_text (o : option string) : jsval :=
  match o with None => JNull | Some s => JStr s end.

(** The row [{ count: n }] of a COUNT query. *)
Definition count_row (n : Z) : jsval := JObj [("count", JNum n)].

End Sqlite.

(* ================================================================== *)
(** * src/server.js, first program *)
(* ================================================================== *)

Module ServerA.
Import JS Http Eff Sqlite.
Local Open Scope eff_scope.

(** [const { k = d } = obj]: the default stands in for undefined only. *)
Definition default_to (v d : jsval) : jsval :=
  match v with JUndefined => d | _ => v end.

(** The session middleware: [res.cookie] when the request has no truthy
    session_id cookie, then [next()]. *)
Definition session_middleware (req : request) : M db (list cookie) :=
  if negb (truthy (assoc "session_id" (cookies req))) then
    token <- nanoid ;;
    ret [mkCookie "session_id" token (Some (10 * 24 * 3600 * 1000)) (Some true)
           None None]
  else ret [].

(** [limit] and [offset] of GET /api/events and GET /api/results. *)
Definition page_params (q : list (string * jsval)) : Z * jsnum :=
  let page := default_to (assoc "page" q) (JNum 1) in
  let pageSize := default_to (assoc "pageSize" q) (JNum 100) in
  let limit := Z.min (num_or (Number pageSize) 100) 500 in
  let offset := num_mul (num_sub (Number page) 1) limit in
  (limit, offset).

Section Routes.
Variable H : Host.t.
Variable F : faults.

(** [v ? dayjs(v).startOf('day').toISOString() : null], and the same
    with endOf; toISOString throws on an invalid date. *)
Definition day_bound (edge : Z -> Z) (v : jsval) : exn + option string :=
  if truthy v then
    match Host.dayjs H v with
    | Some t => inr (Some (Time.toISOString (edge t)))
    | None => inl RangeError
    end
  else inr None.

(** [r.payload ? JSON.parse(r.payload) : {}] *)
Definition parse_or_empty (text : string) : exn + jsval :=
  if String.eqb text "" then inr (JObj [])
  else match Host.JSON_parse H text with
       | Some v => inr v
       | None => inl SyntaxError
       end.

Definition event_item (r : Events.row) : exn + jsval :=
  ebind (parse_or_empty (Events.payload r)) (fun properties =>
  inr (JObj [("id", JStr (Events.id r));
             ("timestamp", JStr (Events.ts r));
             ("event_name", JStr (Events.type r));
             ("user_id", null_or_text (Events.session_id r));
             ("session_id", null_or_text (Events.session_id r));
             ("page", JStr (Events.page r));
             ("properties", properties)])).

Definition result_item (r : Results.row) : exn + jsval :=
  ebind (parse_or_empty (Results.score_json r)) (fun scores =>
  inr (JObj [("id", JStr (Results.id r));
             ("timestamp", JStr (Results.ts r));
             ("user_id", null_or_text (Results.session_id r));
             ("session_id", null_or_text (Results.session_id r));
             ("result", JStr (Results.result_name r));
             ("scores", scores)])).

(** The rows GET /api/events reads: [stQueryEvents.all(params)]. *)
Definition events_page (q : list (string * jsval)) (d : db) :
    exn + list Events.row :=
  let start := default_to (assoc "start" q) JNull in
  let end_ := default_to (assoc "end" q) JNull in
  let '(limit, offset) := page_params q in
  ebind (day_bound (Host.startOf_day H) start) (fun start' =>
  ebind (day_bound (Host.endOf_day H) end_) (fun end' =>
  stQuery_all Events.ts start' end' limit offset (events d))).

Definition results_page (q : list (string * jsval)) (d : db) :
    exn + list Results.row :=
  let start := default_to (assoc "start" q) JNull in
  let end_ := default_to (assoc "end" q) JNull in
  let '(limit, offset) := page_params q in
  ebind (day_bound (Host.startOf_day H) start) (fun start' =>
  ebind (day_bound (Host.endOf_day H) end_) (fun end' =>
  stQuery_all Results.ts start' end' limit offset (results d))).

(** GET /api/events *)
Definition get_events (req : request) : M db reply :=
  try_catch
    (d <- get_store ;;
     rows <- lift (events_page (query req) d) ;;
     items <- lift (emap event_item rows) ;;
     ret (ok (JArr items)))
    (fun _ => ret (error 500 "Failed to fetch events from database.")).

(** GET /api/results *)
Definition get_results (req : request) : M db reply :=
  try_catch
    (d <- get_store ;;
     rows <- lift (results_page (query req) d) ;;
     items <- lift (emap result_item rows) ;;
     ret (ok (JArr items)))
    (fun _ => ret (error 500 "Failed to fetch quiz results from database.")).

(** The three fields resolved for one item of a batch. *)
Definition resolve_page (it : jsval) : exn + jsval :=
  ebind (get it "page") (fun it_page =>
  ebind (get it "properties") (fun it_properties =>
  inr (it_page ||| get_opt it_properties "page" ||| JStr ""))).

Definition resolve_type (it : jsval) : exn + jsval :=
  ebind (get it "type") (fun it_type =>
  ebind (get it "event") (fun it_event =>
  ebind (get it "properties") (fun it_properties =>
  inr (it_type ||| it_event ||| get_opt it_properties "event" ||| JStr "custom")))).

Definition resolve_payload (it : jsval) : exn + jsval :=
  ebind (get it "payload") (fun it_payload =>
  ebind (get it "properties") (fun it_properties =>
  inr (it_payload ||| it_properties ||| JObj []))).

(** The body of the loop of [insertMany]. *)
Definition insert_item (now : string) (session_id ip : jsval) (it : jsval) :
    M db unit :=
  page <- lift (resolve_page it) ;;
  type <- lift (resolve_type it) ;;
  payload <- lift (resolve_payload it) ;;
  id <- nanoid ;;
  sid <- lift (bind_text session_id) ;;
  stInsertEvent_run F
    (Events.mk id now sid (js_String ip) (js_String page) (js_String type)
       (stringify payload)).

(** [Array.isArray(body.batch) ? body.batch : [body]] *)
Definition batch_items (body : jsval) : list jsval :=
  match get_opt body "batch" with
  | JArr l => l
  | _ => [body]
  end.

Definition client_ip (req : request) : jsval :=
  assoc "x-forwarded-for" (headers req) ||| remoteAddress req ||| JStr "".

(** POST /api/events, at the instant [now] of its [new Date()]. *)
Definition post_events (now : Z) (req : request) : M db reply :=
  try_catch
    (let now_text := Time.toISOString now in
     let ip := client_ip req in
     let session_id := assoc "session_id" (cookies req) in
     let body := body req ||| JObj [] in
     let items := batch_items body in
     transaction (for_of items (insert_item now_text session_id ip)) ;;;
     ret (ok (JObj [("ok", JBool true);
                    ("inserted", JNum (Z.of_nat (length items)))])))
    (fun _ => ret (error 500 "Failed to insert events.")).

(** POST /api/results *)
Definition post_results (now : Z) (req : request) : M db reply :=
  try_catch
    (let now_text := Time.toISOString now in
     let session_id := assoc "session_id" (cookies req) in
     let body := body req ||| JObj [] in
     let result_name := default_to (get_opt body "result_name") (JStr "") in
     let scores := default_to (get_opt body "scores") (JObj []) in
     id <- nanoid ;;
     sid <- lift (bind_text session_id) ;;
     stInsertResult_run F
       (Results.mk id now_text sid (js_String result_name) (stringify scores)) ;;;
     ret (ok (JObj [("ok", JBool true)])))
    (fun _ => ret (error 500 "Failed to insert quiz result.")).

Definition since (bound : string) (rows : list Events.row) : list Events.row :=
  List.filter (fun r => String.leb bound (Events.ts r)) rows.

Definition named_count (key : string) (g : string * Z) : jsval :=
  JObj [(key, JStr g.1); ("count", JNum g.2)].

Definition hour_count (g : option string * Z) : jsval :=
  JObj [("hour", null_or_text g.1); ("count", JNum g.2)].

(** The bodies of the nine queries of GET /api/dashboard.  The handler is
    synchronous: all of them read the same state of the store. *)
Definition dashboard_body (now : Z) (d : db) : jsval :=
  let today := Time.toISOString (Host.startOf_day H now) in
  let totalEvents := count_row (Z.of_nat (length (events d))) in
  let totalUsers := count_row (count_distinct (List.map Events.session_id (events d))) in
  let totalSessions := count_row (count_distinct (List.map Events.session_id (events d))) in
  let todayEvents := count_row (Z.of_nat (length (since today (events d)))) in
  let todayUsers :=
    count_row (count_distinct (List.map Events.session_id (since today (events d)))) in
  let topEvents :=
    take 6 (order_by_count_desc (group_count (List.map Events.type (events d)))) in
  let pageViews :=
    take 10 (order_by_count_desc
               (group_count
                  (List.map Events.page
                     (List.filter (fun r => String.eqb (Events.type r) "page_view")
                        (events d))))) in
  let quizResults :=
    order_by_count_desc (group_count (List.map Results.result_name (results d))) in
  let hourlyEvents :=
    order_by_key_asc
      (group_count
         (List.map (fun r => Host.strftime_H H (Events.ts r)) (since today (events d)))) in
  JObj [("totalEvents", JArr [totalEvents]);
        ("totalUsers", JArr [totalUsers]);
        ("totalSessions", JArr [totalSessions]);
        ("todayEvents", JArr [todayEvents]);
        ("todayUsers", JArr [todayUsers]);
        ("topEvents", JArr (List.map (named_count "event_name") topEvents));
        ("pageViews", JArr (List.map (named_count "page") pageViews));
        ("quizResults", JArr (List.map (named_count "result") quizResults));
        ("hourlyEvents", JArr (List.map hour_count hourlyEvents))].

(** GET /api/dashboard; none of its statements throws. *)
Definition get_dashboard (now : Z) (req : request) : M db reply :=
  try_catch
    (d <- get_store ;; ret (ok (dashboard_body now d)))
    (fun _ => ret (error 500 "Failed to fetch dashboard data.")).

Definition recent_item (r : Events.row) : jsval :=
  JObj [("event_name", JStr (Events.type r));
        ("timestamp", JStr (Events.ts r));
        ("user_id", null_or_text (Events.session_id r));
        ("page", JStr (Events.page r))].

Definition fiveMinutesAgo (now : Z) : string :=
  Time.toISOString (now - 5 * 60 * 1000).

Definition recentEvents (now : Z) (d : db) : Z :=
  Z.of_nat (length (since (fiveMinutesAgo now) (events d))).

Definition onlineUsers (now : Z) (d : db) : Z :=
  count_distinct (List.map Events.session_id (since (fiveMinutesAgo now) (events d))).

Definition realtime_body (now : Z) (d : db) : jsval :=
  let recentEventList := take 20 (order_by_ts_desc Events.ts (events d)) in
  JObj [("recentEvents", JArr [count_row (recentEvents now d)]);
        ("onlineUsers", JArr [count_row (onlineUsers now d)]);
        ("recentEventList", JArr (List.map recent_item recentEventList))].

(** GET /api/realtime *)
Definition get_realtime (now : Z) (req : request) : M db reply :=
  try_catch
    (d <- get_store ;; ret (ok (realtime_body now d)))
    (fun _ => ret (error 500 "Failed to fetch realtime data.")).

(** A request through the middleware and then its route. *)
Definition app (route : request -> M db reply) (req : request) :
    world db -> response * world db :=
  fun w =>
    match session_middleware req w with
    | (inr cs, w1) =>
        match route req w1 with
        | (inr r, w2) => (mkResponse cs r, w2)
        | (inl _, w2) => (mkResponse cs (error 500 "Internal Server Error"), w2)
        end
    | (inl _, w1) => (mkResponse [] (error 500 "Internal Server Error"), w1)
    end.

End Routes.

End ServerA.

(* ================================================================== *)
(** * src/server.js, second program *)
(* ================================================================== *)

Module ServerB.
Import JS Http Eff Sqlite.
Local Open Scope eff_scope.

Section Routes.
Variable F : faults.

(** The body of the loop of [insertMany]: the explicit fields only. *)
Definition insert_item (now : string) (session_id ip : jsval) (it : jsval) :
    M db unit :=
  id <- nanoid ;;
  it_page <- lift (get it "page") ;;
  it_type <- lift (get it "type") ;;
  it_payload <- lift (get it "payload") ;;
  sid <- lift (bind_text session_id) ;;
  stInsertEvent_run F
    (Events.mk id now sid (js_String ip)
       (js_String (it_page ||| JStr ""))
       (js_String (it_type ||| JStr "custom"))
       (stringify (it_payload ||| JObj []))).

(** POST /api/events *)
Definition post_events (now : Z) (req : request) : M db reply :=
  try_catch
    (let now_text := Time.toISOString now in
     let ip := ServerA.client_ip req in
     let session_id := assoc "session_id" (cookies req) in
     let body := body req ||| JObj [] in
     let items := ServerA.batch_items body in
     transaction (for_of items (insert_item now_text session_id ip)) ;;;
     ret (ok (JObj [("ok", JBool true);
                    ("inserted", JNum (Z.of_nat (length items)))])))
    (fun _ => ret (error 500 "Failed to insert events.")).

End Routes.
End ServerB.

(* ================================================================== *)
(** * src/server.js, third program *)
(* ================================================================== *)

Module ServerC.
Import JS Http Eff Sqlite.
Local Open Scope eff_scope.

(** The session middleware, at the instant [now] of its [Date.now()];
    the cookie is set without max-age. *)
Definition session_middleware (now : Z) (req : request) : M db (list cookie) :=
  if negb (truthy (assoc "session_id" (cookies req))) then
    suffix <- nanoid ;;
    ret [mkCookie "session_id" ("sess_" +:+ Z_to_string now +:+ "_" +:+ suffix)
           None (Some false) (Some "lax") (Some false)]
  else ret [].

(** What [for (const e of v)] runs over: the elements of an array, the
    characters of a string (one byte each here); nothing else that a
    JSON body holds is iterable. *)
Definition iterate (v : jsval) : exn + list jsval :=
  match v with
  | JArr l => inr l
  | JStr s => inr (List.map (fun c => JStr (String c "")) (list_ascii_of_string s))
  | _ => inl TypeError
  end.

Section Routes.
Variable F : faults.

(** The body of the loop of [insert]: the time stamp and the session of
    the item win over those of the server. *)
Definition insert_item (now : string) (session_id ip : jsval) (e : jsval) :
    M db unit :=
  id <- nanoid ;;
  e_ts <- lift (get e "ts") ;;
  e_sessionId <- lift (get e "sessionId") ;;
  e_page <- lift (get e "page") ;;
  e_event <- lift (get e "event") ;;
  e_properties <- lift (get e "properties") ;;
  ts <- lift (bind_text (e_ts ||| JStr now)) ;;
  sid <- lift (bind_text (e_sessionId ||| session_id)) ;;
  stInsertEvent_run F
    (* [e.ts || now] is truthy, so it is never bound as NULL *)
    (Events.mk id (default "" ts) sid (js_String ip)
       (js_String (e_page ||| JStr ""))
       (js_String (e_event ||| JStr "custom"))
       (stringify (e_properties ||| JObj []))).

(** POST /api/events *)
Definition post_events (now : Z) (req : request) : M db reply :=
  try_catch
    (let body := body req ||| JObj [] in
     let batch := ServerA.default_to (get_opt body "batch") (JArr []) in
     let now_text := Time.toISOString now in
     let ip := ServerA.client_ip req in
     let session_id := assoc "session_id" (cookies req) ||| JStr "" in
     transaction
       (events <- lift (iterate batch) ;;
        for_of events (insert_item now_text session_id ip)) ;;;
     n <- lift (ebind (iterate batch) (fun l => inr (Z.of_nat (length l)))) ;;
     ret (ok (JObj [("ok", JBool true); ("count", JNum n)])))
    (fun _ => ret (error 500 "Failed to insert events.")).

(** POST /api/results of the third program: the body is read as it came
    (no [|| {}]), the session is [''] when the request has no cookie, and
    every falsy name is stored as ["unknown"].  The column [scores] of
    this program holds what [score_json] holds in the first. *)
Definition post_results (now : Z) (req : request) : M db reply :=
  try_catch
    (result_name <- lift (get (body req) "result_name") ;;
     scores <- lift (get (body req) "scores") ;;
     let now_text := Time.toISOString now in
     let session_id := assoc "session_id" (cookies req) ||| JStr "" in
     id <- nanoid ;;
     sid <- lift (bind_text session_id) ;;
     name <- lift (bind_text (result_name ||| JStr "unknown")) ;;
     stInsertResult_run F
       (Results.mk id now_text sid (default "" name)
          (stringify (scores ||| JObj []))) ;;;
     ret (ok (JObj [("ok", JBool true)])))
    (fun _ => ret (error 500 "Failed to save result.")).

(** POST /api/track: one event from the body itself, under the session
    cookie of the request as it is. *)
Definition post_track (now : Z) (req : request) : M db reply :=
  try_catch
    (let now_text := Time.toISOString now in
     let ip := ServerA.client_ip req in
     let session_id := assoc "session_id" (cookies req) in
     let body := body req ||| JObj [] in
     id <- nanoid ;;
     sid <- lift (bind_text session_id) ;;
     stInsertEvent_run F
       (Events.mk id now_text sid (js_String ip)
          (js_String (get_opt body "page" ||| JStr ""))
          (js_String (get_opt body "event" ||| JStr "custom"))
          (stringify (get_opt body "properties" ||| JObj []))) ;;;
     ret (ok (JObj [("ok", JBool true)])))
    (fun _ => ret (error 500 "Failed to insert track.")).

End Routes.

(** GET /api/realtime of the third program: the list, too, is taken from
    the rows of the last five minutes, ten at most. *)
Definition fiveMinAgo (now : Z) : string :=
  Time.toISOString (now - 5 * 60 * 1000).

Definition recent_item (r : Events.row) : jsval :=
  JObj [("timestamp", JStr (Events.ts r));
        ("event_name", JStr (Events.type r));
        ("user_id", null_or_text (Events.session_id r));
        ("page", JStr (Events.page r))].

Definition recentEventList (now : Z) (d : db) : list Events.row :=
  take 10 (order_by_ts_desc Events.ts (ServerA.since (fiveMinAgo now) (events d))).

Definition realtime_body (now : Z) (d : db) : jsval :=
  let window := ServerA.since (fiveMinAgo now) (events d) in
  JObj [("recentEvents", JArr [count_row (Z.of_nat (length window))]);
        ("onlineUsers",
         JArr [count_row (count_distinct (List.map Events.session_id window))]);
        ("recentEventList", JArr (List.map recent_item (recentEventList now d)))].

Definition get_realtime (now : Z) (req : request) : M db reply :=
  try_catch
    (d <- get_store ;; ret (ok (realtime_body now d)))
    (fun _ => ret (error 500 "Failed to load realtime data.")).

End ServerC.

(* ================================================================== *)
(** * src/server-render.js: the Supabase store *)
(* ================================================================== *)

(** What the handlers take from Postgres behind the Supabase client. *)
Module Pg.
Record t : Type := mk {
  (** The cast of a filter text to TIMESTAMPTZ; [None] when Postgres
      refuses the text. *)
  timestamptz_in : string -> option Z;
  (** A TIMESTAMPTZ value as the client receives it. *)
  timestamptz_out : Z -> string
}.
End Pg.

(** Requests are taken one at a time: what other requests do between two
    awaits of a handler is left out. *)
Module Render.
Import JS Http Eff.
Local Open Scope eff_scope.

(** Rows of the Supabase tables.  [ts] is TIMESTAMPTZ: the text written is
    [toISOString] of an instant, and the column holds that instant. *)
Record event_row : Type := mkEvent {
  id : string;
  ts : Z;
  session_id : option string;
  ip : string;
  page : string;
  type : string;
  payload : string
}.

Record result_row : Type := mkResult {
  r_id : string;
  r_ts : Z;
  r_session_id : option string;
  result_name : string;
  score_json : string
}.

Record pg : Type := mkPg {
  events : list event_row;
  results : list result_row
}.

(** Failures of the service: of an insert in a given state, and of the
    [k]-th read of a request. *)
Record faults : Type := mkFaults {
  event_fails : pg -> event_row -> bool;
  result_fails : pg -> result_row -> bool;
  read_fails : nat -> bool
}.

Definition no_faults : faults :=
  mkFaults (fun _ _ => false) (fun _ _ => false) (fun _ => false).

(** A JSON value written to a TEXT column. *)
Definition pg_text (v : jsval) : option string :=
  match v with
  | JUndefined | JNull => None
  | JStr s => Some s
  | _ => Some (stringify v)
  end.

(** The session middleware is that of the first program of server.js. *)
Definition session_middleware (req : request) : M pg (list cookie) :=
  if negb (truthy (assoc "session_id" (cookies req))) then
    token <- nanoid ;;
    ret [mkCookie "session_id" token (Some (10 * 24 * 3600 * 1000)) (Some true)
           None None]
  else ret [].

Section Routes.
Variable H : Host.t.
Variable P : Pg.t.
Variable F : faults.

(** [await supabase.from('events').insert([row])]: the error of the
    answer, never thrown. *)
Definition insert_event (r : event_row) : M pg (option exn) :=
  fun w =>
    let d := store w in
    if existsb (fun x => String.eqb (id x) (id r)) (events d) || event_fails F d r
    then (inr (Some PostgrestError), w)
    else (inr None, set_store (mkPg (events d ++ [r]) (results d)) w).

Definition insert_result (r : result_row) : M pg (option exn) :=
  fun w =>
    let d := store w in
    if existsb (fun x => String.eqb (r_id x) (r_id r)) (results d)
       || result_fails F d r
    then (inr (Some PostgrestError), w)
    else (inr None, set_store (mkPg (events d) (results d ++ [r])) w).

(** [if (v) query = query.gte('ts', v)]: the filter value is sent as it
    came and cast by Postgres. *)
Definition filter_bound (v : jsval) : exn + option Z :=
  if truthy v then
    match Pg.timestamptz_in P (js_String v) with
    | Some t => inr (Some t)
    | None => inl PostgrestError
    end
  else inr None.

Definition in_range (start end_ : option Z) (t : Z) : bool :=
  match start with None => true | Some s => s <=? t end
  && match end_ with None => true | Some e => t <=? e end.

(** [.range(offset, offset + limit - 1)]: PostgREST refuses a negative
    limit and a negative offset. *)
Definition range {R} (limit : Z) (offset : jsnum) (rows : list R) :
    exn + list R :=
  match offset with
  | NaN => inl PostgrestError
  | Num o =>
      if (limit <? 0) || (o <? 0) then inl PostgrestError
      else inr (take (Z.to_nat limit) (drop (Z.to_nat o) rows))
  end.

(** The rows of GET /api/events: filters, order, range; [error] is
    thrown. *)
Definition events_page (q : list (string * jsval)) (d : pg) :
    exn + list event_row :=
  let start := ServerA.default_to (assoc "start" q) JNull in
  let end_ := ServerA.default_to (assoc "end" q) JNull in
  let '(limit, offset) := ServerA.page_params q in
  if read_fails F 0 then inl PostgrestError else
  ebind (filter_bound start) (fun start' =>
  ebind (filter_bound end_) (fun end' =>
  range limit offset
    (Sqlite.sort_desc (fun a b => ts a <=? ts b)
       (List.filter (fun r => in_range start' end' (ts r)) (events d))))).

Definition event_item (r : event_row) : jsval :=
  JObj [("id", JStr (id r));
        ("timestamp", JStr (Pg.timestamptz_out P (ts r)));
        ("event_name", JStr (type r));
        ("user_id", Sqlite.null_or_text (session_id r));
        ("session_id", Sqlite.null_or_text (session_id r));
        ("page", JStr (page r));
        ("properties", JStr (payload r) ||| JObj [])].

(** GET /api/events *)
Definition get_events (req : request) : M pg reply :=
  try_catch
    (d <- get_store ;;
     rows <- lift (events_page (query req) d) ;;
     ret (ok (JArr (List.map event_item rows))))
    (fun _ => ret (error 500 "Failed to fetch events from database.")).

(** The body of the loop of POST /api/events: one insert for each item,
    its error logged. *)
Definition insert_item (now : Z) (session_id ip : jsval) (it : jsval) :
    M pg unit :=
  page <- lift (ServerA.resolve_page it) ;;
  type <- lift (ServerA.resolve_type it) ;;
  payload <- lift (ServerA.resolve_payload it) ;;
  id <- nanoid ;;
  insert_event
    (mkEvent id now (pg_text session_id) (js_String ip) (js_String page)
       (js_String type) (stringify payload)) ;;;
  ret tt.

(** POST /api/events *)
Definition post_events (now : Z) (req : request) : M pg reply :=
  try_catch
    (let ip := ServerA.client_ip req in
     let session_id := assoc "session_id" (cookies req) in
     let body := body req ||| JObj [] in
     let items := ServerA.batch_items body in
     for_of items (insert_item now session_id ip) ;;;
     ret (ok (JObj [("ok", JBool true);
                    ("inserted", JNum (Z.of_nat (length items)))])))
    (fun _ => ret (error 500 "Failed to insert events.")).

(** [new Set(data?.map(u => u.session_id) || []).size] over the rows whose
    session_id is not null. *)
Definition unique_sessions (failed : bool) (rows : list event_row) : Z :=
  if failed then 0
  else Z.of_nat (size (list_to_set (omap session_id rows) : gset string)).

(** [count || 0] of a head request with an exact count. *)
Definition count_or_0 (failed : bool) (rows : list event_row) : Z :=
  if failed then 0 else Z.of_nat (length rows).

(** The tally loops and [Object.entries(..).map(..).sort(..)]; the types
    and names counted are not array indices, so the entries come in order
    of first appearance. *)
Definition tally (failed : bool) (keys : list string) : list (string * Z) :=
  if failed then []
  else Sqlite.order_by_count_desc (Sqlite.group_count keys).

Definition dashboard_body (now : Z) (d : pg) : jsval :=
  let today := Host.startOf_day H now in
  let totalEvents := count_or_0 (read_fails F 0) (events d) in
  let uniqueUsers := unique_sessions (read_fails F 1) (events d) in
  let todayEvents :=
    count_or_0 (read_fails F 2) (List.filter (fun r => today <=? ts r) (events d)) in
  let topEvents := take 6 (tally (read_fails F 3) (List.map type (events d))) in
  let quizResults := tally (read_fails F 4) (List.map result_name (results d)) in
  JObj [("totalEvents", JArr [Sqlite.count_row totalEvents]);
        ("totalUsers", JArr [Sqlite.count_row uniqueUsers]);
        ("totalSessions", JArr [Sqlite.count_row uniqueUsers]);
        ("todayEvents", JArr [Sqlite.count_row todayEvents]);
        ("todayUsers", JArr [Sqlite.count_row uniqueUsers]);
        ("topEvents", JArr (List.map (ServerA.named_count "event_name") topEvents));
        ("pageViews", JArr []);
        ("quizResults", JArr (List.map (ServerA.named_count "result") quizResults));
        ("hourlyEvents", JArr [])].

(** GET /api/dashboard *)
Definition get_dashboard (now : Z) (req : request) : M pg reply :=
  try_catch
    (d <- get_store ;; ret (ok (dashboard_body now d)))
    (fun _ => ret (error 500 "Failed to fetch dashboard data.")).

Definition recent (now : Z) (rows : list event_row) : list event_row :=
  List.filter (fun r => now - 5 * 60 * 1000 <=? ts r) rows.

Definition recentEvents (now : Z) (d : pg) : Z :=
  count_or_0 (read_fails F 0) (recent now (events d)).

Definition onlineUsers (now : Z) (d : pg) : Z :=
  unique_sessions (read_fails F 1) (recent now (events d)).

Definition recent_item (r : event_row) : jsval :=
  JObj [("event_name", JStr (type r));
        ("timestamp", JStr (Pg.timestamptz_out P (ts r)));
        ("user_id", Sqlite.null_or_text (session_id r));
        ("page", JStr (page r))].

Definition realtime_body (now : Z) (d : pg) : jsval :=
  let recentEventList :=
    if read_fails F 2 then []
    else take 20 (Sqlite.sort_desc (fun a b => ts a <=? ts b) (events d)) in
  JObj [("recentEvents", JArr [Sqlite.count_row (recentEvents now d)]);
        ("onlineUsers", JArr [Sqlite.count_row (onlineUsers now d)]);
        ("recentEventList", JArr (List.map recent_item recentEventList))].

(** GET /api/realtime *)
Definition get_realtime (now : Z) (req : request) : M pg reply :=
  try_catch
    (d <- get_store ;; ret (ok (realtime_body now d)))
    (fun _ => ret (error 500 "Failed to fetch realtime data.")).


(** POST /api/results: one insert, its error logged. *)
Definition post_results (now : Z) (req : request) : M pg reply :=
  try_catch
    (let session_id := assoc "session_id" (cookies req) in
     let body := body req ||| JObj [] in
     let result_name := ServerA.default_to (get_opt body "result_name") (JStr "") in
     let scores := ServerA.default_to (get_opt body "scores") (JObj []) in
     id <- nanoid ;;
     insert_result
       (mkResult id now (pg_text session_id) (js_String result_name)
          (stringify scores)) ;;;
     ret (ok (JObj [("ok", JBool true)])))
    (fun _ => ret (error 500 "Failed to insert quiz result.")).

Definition user_result_item (r : result_row) : jsval :=
  JObj [("id", JStr (r_id r));
        ("timestamp", JStr (Pg.timestamptz_out P (r_ts r)));
        ("result_name", JStr (result_name r));
        ("scores", JStr (score_json r) ||| JObj [])].

(** [.eq('session_id', v)]: the rows whose session_id is the text of v. *)
Definition of_session (v : jsval) (rows : list result_row) : list result_row :=
  List.filter (fun r => match r_session_id r with
                        | Some s => String.eqb s (js_String v)
                        | None => false
                        end) rows.

(** GET /api/user-results *)
Definition get_user_results (req : request) : M pg reply :=
  try_catch
    (let session_id := assoc "session_id" (cookies req) in
     if negb (truthy session_id) then ret (error 400 "Session ID required")
     else
       d <- get_store ;;
       rows <- (if read_fails F 0 then throw PostgrestError
                else ret (Sqlite.sort_desc (fun a b => r_ts a <=? r_ts b)
                            (of_session session_id (results d)))) ;;
       let formattedResults := List.map user_result_item rows in
       ret (ok (JObj [("session_id", session_id);
                      ("results", JArr formattedResults);
                      ("total", JNum (Z.of_nat (length formattedResults)))])))
    (fun _ => ret (error 500 "Failed to fetch user results.")).

(** A request through the middleware and then its route. *)
Definition app (route : request -> M pg reply) (req : request) :
    world pg -> response * world pg :=
  fun w =>
    match session_middleware req w with
    | (inr cs, w1) =>
        match route req w1 with
        | (inr r, w2) => (mkResponse cs r, w2)
        | (inl _, w2) => (mkResponse cs (error 500 "Internal Server Error"), w2)
        end
    | (inl _, w1) => (mkResponse [] (error 500 "Internal Server Error"), w1)
    end.

End Routes.
End Render.

(* ================================================================== *)
(** * src/unnamed/part_001, first program (tracker.db) *)
(* ================================================================== *)

Module Tracker.
Import JS Http Eff.
Local Open Scope eff_scope.

(** Table [events]: id INTEGER PRIMARY KEY AUTOINCREMENT and six TEXT
    columns, none of them NOT NULL. *)
Record event_row : Type := mkEvent {
  id : Z;
  ts : option string;
  type : option string;
  userId : option string;
  session_id : option string;
  page : option string;
  properties : option string
}.

Record result_row : Type := mkResult {
  r_id : Z;
  r_ts : option string;
  result_name : option string;
  scores : option string
}.

Record db : Type := mkDb {
  events : list event_row;
  results : list result_row
}.

(** [WHERE ts >= ?]: false on NULL. *)
Definition since (bound : string) (rows : list event_row) : list event_row :=
  List.filter (fun r => match ts r with
                        | Some t => String.leb bound t
                        | None => false
                        end) rows.

Definition named_count (key : string) (g : option string * Z) : jsval :=
  JObj [(key, Sqlite.null_or_text g.1); ("count", JNum g.2)].

Section Routes.
Variable H : Host.t.

Definition dashboard_body (now : Z) (d : db) : jsval :=
  let today := Host.format_date H now in
  let midnight := today +:+ "T00:00:00Z" in
  let totalEvents := Z.of_nat (length (events d)) in
  let totalSessions := Sqlite.count_distinct (List.map session_id (events d)) in
  let todayEvents := Z.of_nat (length (since midnight (events d))) in
  let todayUsers :=
    Sqlite.count_distinct (List.map session_id (since midnight (events d))) in
  let topEvents :=
    take 6 (Sqlite.order_by_count_desc (Sqlite.group_count (List.map type (events d)))) in
  let pageViews :=
    take 6 (Sqlite.order_by_count_desc (Sqlite.group_count (List.map page (events d)))) in
  let quizResults :=
    take 6 (Sqlite.order_by_count_desc
              (Sqlite.group_count (List.map result_name (results d)))) in
  let hourlyEvents :=
    Sqlite.order_by_key_asc
      (Sqlite.group_count
         (List.map (fun r => match ts r with
                             | Some t => Host.strftime_H H t
                             | None => None
                             end) (since midnight (events d)))) in
  JObj [("totalEvents", JNum totalEvents);
        ("totalUsers", JNum totalSessions);
        ("totalSessions", JNum totalSessions);
        ("todayEvents", JNum todayEvents);
        ("todayUsers", JNum todayUsers);
        ("topEvents", JArr (List.map (named_count "event_name") topEvents));
        ("pageViews", JArr (List.map (named_count "page") pageViews));
        ("quizResults", JArr (List.map (named_count "result_name") quizResults));
        ("hourlyEvents", JArr (List.map ServerA.hour_count hourlyEvents))].

(** GET /api/dashboard *)
Definition get_dashboard (now : Z) (req : request) : M db reply :=
  try_catch
    (d <- get_store ;; ret (ok (dashboard_body now d)))
    (fun _ => ret (error 500 "Failed to load dashboard")).

End Routes.

Definition five_minutes_ago (now : Z) : string :=
  Time.toISOString (now - 5 * 60 * 1000).

Definition recentEvents (now : Z) (d : db) : Z :=
  Z.of_nat (length (since (five_minutes_ago now) (events d))).

Definition onlineUsers (now : Z) (d : db) : Z :=
  Sqlite.count_distinct (List.map session_id (since (five_minutes_ago now) (events d))).

Definition recent_item (r : event_row) : jsval :=
  JObj [("timestamp", Sqlite.null_or_text (ts r));
        ("event_name", Sqlite.null_or_text (type r));
        ("session_id", Sqlite.null_or_text (session_id r));
        ("page", Sqlite.null_or_text (page r))].

Definition realtime_body (now : Z) (d : db) : jsval :=
  let recentEventList :=
    take 10 (Sqlite.sort_desc (fun a b => Sqlite.null_first_leb (ts a) (ts b))
               (events d)) in
  JObj [("recentEvents", JNum (recentEvents now d));
        ("onlineUsers", JNum (onlineUsers now d));
        ("recentEventList", JArr (List.map recent_item recentEventList))].

(** GET /api/realtime *)
Definition get_realtime (now : Z) (req : request) : M db reply :=
  try_catch
    (d <- get_store ;; ret (ok (realtime_body now d)))
    (fun _ => ret (error 500 "Failed to load realtime data")).


(** A storage failure from outside the program. *)
Definition faults : Type := db -> event_row -> bool.

(** AUTOINCREMENT: one more than the largest id of the table (the
    program never deletes a row). *)
Definition next_id (rows : list event_row) : Z :=
  1 + fold_right Z.max 0 (List.map id rows).

Section Ingest.
Variable F : faults.
(** The instant of the [new Date()] in turn [k] of the loop. *)
Variable clock : nat -> Z.

(** [stmt.run({...})] *)
Definition stmt_run (ts type userId sessionId page properties : option string) :
    M db unit :=
  fun w =>
    let d := store w in
    let r := mkEvent (next_id (events d)) ts type userId sessionId page properties in
    if F d r then (inl SqliteError, w)
    else (inr tt, set_store (mkDb (events d ++ [r]) (results d)) w).

(** Turn [k] of the loop of [insert]. *)
Definition insert_row (kr : nat * jsval) : M db unit :=
  let '(k, r) := kr in
  r_ts <- lift (get r "ts") ;;
  r_event <- lift (get r "event") ;;
  r_userId <- lift (get r "userId") ;;
  r_sessionId <- lift (get r "sessionId") ;;
  r_page <- lift (get r "page") ;;
  r_properties <- lift (get r "properties") ;;
  ts <- lift (Sqlite.bind_text (r_ts ||| JStr (Time.toISOString (clock k)))) ;;
  type <- lift (Sqlite.bind_text r_event) ;;
  userId <- lift (Sqlite.bind_text r_userId) ;;
  sessionId <- lift (Sqlite.bind_text r_sessionId) ;;
  page <- lift (Sqlite.bind_text r_page) ;;
  stmt_run ts type userId sessionId page
    (Some (stringify (r_properties ||| JObj []))).

(** [db.transaction(fn)(rows)] *)
Definition transaction {A} (f : M db A) : M db A :=
  fun w =>
    match f w with
    | (inr a, w') => (inr a, w')
    | (inl e, w') => (inl e, set_store (store w) w')
    end.

(** POST /api/events: a body without an array [batch] writes nothing. *)
Definition post_events (req : request) : M db reply :=
  try_catch
    (batch <- lift (get (body req) "batch") ;;
     (match batch with
      | JArr rows => transaction (for_of (imap pair rows) insert_row)
      | _ => ret tt
      end) ;;;
     ret (ok (JObj [("ok", JBool true)])))
    (fun _ => ret (error 500 "Failed to insert event")).

End Ingest.

End Tracker.


(* ================================================================== *)
(** * src/unnamed/part_001, second program (SQLite with a Supabase copy) *)
(* ================================================================== *)

Module Mirror.
Import JS Http Eff Sqlite.
Local Open Scope eff_scope.

(** The SQLite database, and the rows handed to the Supabase client for
    insertion, in order.  The copy is not awaited: what becomes of it on
    the other side is not known to the handler. *)
Record stores : Type := mkStores {
  local : db;
  sent_events : list Events.row;
  sent_results : list Results.row
}.

(** A computation on the SQLite database, run inside the two stores. *)
Definition on_local {A} (m : M db A) : M stores A :=
  fun w =>
    let '(r, w') := m (mkWorld (local (store w)) (nanoid_source w) (drawn w)) in
    (r, mkWorld (mkStores (store w') (sent_events (store w)) (sent_results (store w)))
          (nanoid_source w') (drawn w')).

(** [db.transaction(fn)(args)]: a rollback restores the SQLite database;
    it has no hold on what was handed to Supabase. *)
Definition transaction {A} (f : M stores A) : M stores A :=
  fun w =>
    match f w with
    | (inr a, w') => (inr a, w')
    | (inl e, w') =>
        (inl e, set_store (mkStores (local (store w)) (sent_events (store w'))
                             (sent_results (store w'))) w')
    end.

Section Routes.
(** Whether [process.env.SUPABASE_URL] is set. *)
Variable SUPABASE_URL : bool.
Variable H : Host.t.
Variable F : faults.
(** The rows Supabase returns for the results of a session; [None] when
    it reports an error. *)
Variable remote_results : jsval -> option (list jsval).

(** [supabaseOps.insertEvent(eventData)], not awaited. *)
Definition supabaseOps_insertEvent (r : Events.row) : M stores unit :=
  fun w =>
    if SUPABASE_URL then
      (inr tt, set_store (mkStores (local (store w)) (sent_events (store w) ++ [r])
                            (sent_results (store w))) w)
    else (inr tt, w).

(** [supabaseOps.insertResult(resultData)], not awaited. *)
Definition supabaseOps_insertResult (r : Results.row) : M stores unit :=
  fun w =>
    if SUPABASE_URL then
      (inr tt, set_store (mkStores (local (store w)) (sent_events (store w))
                            (sent_results (store w) ++ [r])) w)
    else (inr tt, w).

(** [supabaseOps.getUserResults(sessionId)]: no rows when Supabase is not
    configured or reports an error. *)
Definition supabaseOps_getUserResults (sessionId : jsval) : list jsval :=
  if SUPABASE_URL then
    match remote_results sessionId with
    | Some rows => rows
    | None => []
    end
  else [].

(** The body of the loop of [insertMany]. *)
Definition insert_item (now : string) (session_id ip : jsval) (it : jsval) :
    M stores unit :=
  page <- lift (ServerA.resolve_page it) ;;
  type <- lift (ServerA.resolve_type it) ;;
  payload <- lift (ServerA.resolve_payload it) ;;
  id <- nanoid ;;
  sid <- lift (bind_text session_id) ;;
  let eventData :=
    Events.mk id now sid (js_String ip) (js_String page) (js_String type)
      (stringify payload) in
  on_local (stInsertEvent_run F eventData) ;;;
  supabaseOps_insertEvent eventData.

(** POST /api/events *)
Definition post_events (now : Z) (req : request) : M stores reply :=
  try_catch
    (let now_text := Time.toISOString now in
     let ip := ServerA.client_ip req in
     let session_id := assoc "session_id" (cookies req) in
     let body := body req ||| JObj [] in
     let items := ServerA.batch_items body in
     transaction (for_of items (insert_item now_text session_id ip)) ;;;
     ret (ok (JObj [("ok", JBool true);
                    ("inserted", JNum (Z.of_nat (length items)))])))
    (fun _ => ret (error 500 "Failed to insert events.")).

(** POST /api/results *)
Definition post_results (now : Z) (req : request) : M stores reply :=
  try_catch
    (let now_text := Time.toISOString now in
     let session_id := assoc "session_id" (cookies req) in
     let body := body req ||| JObj [] in
     let result_name := ServerA.default_to (get_opt body "result_name") (JStr "") in
     let scores := ServerA.default_to (get_opt body "scores") (JObj []) in
     id <- nanoid ;;
     sid <- lift (bind_text session_id) ;;
     let resultData :=
       Results.mk id now_text sid (js_String result_name) (stringify scores) in
     on_local (stInsertResult_run F resultData) ;;;
     supabaseOps_insertResult resultData ;;;
     ret (ok (JObj [("ok", JBool true)])))
    (fun _ => ret (error 500 "Failed to insert quiz result.")).

(** A row of Supabase as the response shows it. *)
Definition remote_item (r : jsval) : exn + jsval :=
  ebind (get r "id") (fun r_id =>
  ebind (get r "ts") (fun r_ts =>
  ebind (get r "result_name") (fun r_result_name =>
  ebind (get r "score_json") (fun r_score_json =>
  inr (JObj [("id", r_id);
             ("timestamp", r_ts);
             ("result_name", r_result_name);
             ("scores", r_score_json ||| JObj [])]))))).

(** The inner try: the rows of Supabase, or none when it is not
    configured or a row cannot be read. *)
Definition from_supabase (session_id : jsval) : list jsval :=
  if SUPABASE_URL then
    match emap remote_item (supabaseOps_getUserResults session_id) with
    | inr items => items
    | inl _ => []
    end
  else [].

(** A row of SQLite as the response shows it. *)
Definition local_item (r : Results.row) : exn + jsval :=
  ebind (ServerA.parse_or_empty H (Results.score_json r)) (fun scores =>
  inr (JObj [("id", JStr (Results.id r));
             ("timestamp", JStr (Results.ts r));
             ("result_name", JStr (Results.result_name r));
             ("scores", scores)])).

(** [SELECT * FROM results WHERE session_id = ? ORDER BY ts DESC] *)
Definition results_of_session (session_id : jsval) (d : db) :
    exn + list Results.row :=
  ebind (bind_text session_id) (fun sid =>
  inr (order_by_ts_desc Results.ts
         (List.filter (fun r => match Results.session_id r, sid with
                                | Some a, Some b => String.eqb a b
                                | _, _ => false
                                end) (results d)))).

(** GET /api/user-results *)
Definition get_user_results (req : request) : M stores reply :=
  try_catch
    (let session_id := assoc "session_id" (cookies req) in
     if negb (truthy session_id) then ret (error 400 "Session ID required")
     else
       let remote := from_supabase session_id in
       formattedResults <-
         (if (length remote =? 0)%nat then
            d <- get_store ;;
            rows <- lift (results_of_session session_id (local d)) ;;
            lift (emap local_item rows)
          else ret remote) ;;
       ret (ok (JObj [("session_id", session_id);
                      ("results", JArr formattedResults);
                      ("total", JNum (Z.of_nat (length formattedResults)))])))
    (fun _ => ret (error 500 "Failed to fetch user results.")).

(** A request through the session middleware (that of the first program
    of server.js) and then its route. *)
Definition app (route : request -> M stores reply) (req : request) :
    world stores -> response * world stores :=
  fun w =>
    match on_local (ServerA.session_middleware req) w with
    | (inr cs, w1) =>
        match route req w1 with
        | (inr r, w2) => (mkResponse cs r, w2)
        | (inl _, w2) => (mkResponse cs (error 500 "Internal Server Error"), w2)
        end
    | (inl _, w1) => (mkResponse [] (error 500 "Internal Server Error"), w1)
    end.

End Routes.
End Mirror.
(* ================================================================== *)
(** * The properties, as the specification words them *)
(* ================================================================== *)

Module Spec.
Import JS Http.

(** Resolved from the first candidate that is present (truthy), or else
    the default. *)
Fixpoint first_truthy (candidates : list jsval) (default : jsval) : jsval :=
  match candidates with
  | [] => default
  | c :: rest => if truthy c then c else first_truthy rest default
  end.

(** All-or-nothing write of a batch of [n] items: the table grew by
    exactly [n] rows and the caller was told so, or it did not change and
    the caller received a failure. *)
Definition all_or_nothing {R} (before after : list R) (n : nat) (r : reply) : Prop :=
  (exists new, after = (before ++ new)%list /\ length new = n /\ status r = 200)
  \/ (after = before /\ status r = 500).



(** The row stored for the item [it] of a batch: [page], [type] and
    [payload] resolved from the explicit field, then the alias or embedded
    field, then the default; stamped with the time of the server, the
    session cookie of the request and its network origin. *)
Definition resolved_item (now_text : string) (session_id ip : jsval)
    (it : jsval) (r : Events.row) : Prop :=
  Events.ts r = now_text
  /\ Sqlite.bind_text session_id = inr (Events.session_id r)
  /\ Events.ip r = js_String ip
  /\ Events.page r =
       js_String (first_truthy
                    [get_opt it "page"; get_opt (get_opt it "properties") "page"]
                    (JStr ""))
  /\ Events.type r =
       js_String (first_truthy
                    [get_opt it "type"; get_opt it "event";
                     get_opt (get_opt it "properties") "event"]
                    (JStr "custom"))
  /\ Events.payload r =
       stringify (first_truthy [get_opt it "payload"; get_opt it "properties"]
                    (JObj [])).

(** What a handler answered and the store it left. *)
Definition answer {D} (x : (exn + reply) * Eff.world D) : reply :=
  match x.1 with
  | inr r => r
  | inl _ => error 500 "uncaught"
  end.

Definition store_after {D} (x : (exn + reply) * Eff.world D) : D :=
  Eff.store x.2.



End Spec.

(* ================================================================== *)
(** * Sample hosts, stores and requests *)
(* ================================================================== *)

Module Sample.
Import JS Http.

(** YYYY-MM-DD as the instant of its midnight in UTC. *)
Definition parse_date_only (s : string) : option Z :=
  if (String.length s =? 10)%nat
     && String.eqb (substring 4 1 s) "-" && String.eqb (substring 7 1 s) "-"
  then
    match digits_value 0 (substring 0 4 s),
          digits_value 0 (substring 5 2 s),
          digits_value 0 (substring 8 2 s) with
    | Some y, Some m, Some d =>
        if (1 <=? m) && (m <=? 12) && (1 <=? d) && (d <=? Time.days_in_month y m)
        then Some (Time.days_from_civil y m d * Time.ms_per_day)
        else None
    | _, _, _ => None
    end
  else None.

(** A process whose time zone is UTC, as far as the examples need it:
    dayjs reads date-only texts, JSON.parse reads the empty object, and
    strftime reads the hour of a text of [toISOString]. *)
Definition utc : Host.t :=
  Host.mk
    (fun v => match v with JStr s => parse_date_only s | _ => None end)
    (fun t => t - t mod Time.ms_per_day)
    (fun t => t - t mod Time.ms_per_day + Time.ms_per_day - 1)
    (fun t => substring 0 10 (Time.toISOString t))
    (fun s => if String.eqb s "{}" then Some (JObj []) else None)
    (fun s => if (String.length s =? 24)%nat then Some (substring 11 2 s) else None).

(** Postgres with the session time zone UTC, on date-only texts: the cast
    of a date to TIMESTAMPTZ is the midnight that starts it. *)
Definition postgres_utc : Pg.t := Pg.mk parse_date_only Time.toISOString.

(** Ids of 21 characters, as nanoid() makes them. *)
Definition ids (n : nat) : string := Time.pad 21 (Z.of_nat n).

Definition fresh {D} (d : D) : Eff.world D := Eff.mkWorld d ids 0.

Definition request_with (cookies query : list (string * jsval)) (body : jsval) :
    request :=
  mkRequest cookies query [] (JStr "203.0.113.7") body.

(** 2024-01-15T10:00:00.000Z *)
Definition t_morning : Z := 1705312800000.

(** A first visit posting a batch of two events. *)
Definition two_events : jsval :=
  JObj [("batch",
         JArr [JObj [("event", JStr "page_view"); ("page", JStr "/quiz")];
               JObj [("event", JStr "option_select"); ("page", JStr "/quiz")]])].

(** A batch whose second item is null. *)
Definition batch_with_null : jsval :=
  JObj [("batch", JArr [JObj [("page", JStr "/a")]; JNull])].



Definition morning_event : Events.row :=
  Events.mk "e1" (Time.toISOString t_morning) (Some "s1") "203.0.113.7" "/quiz"
    "page_view" "{}".

Definition morning_event_pg : Render.event_row :=
  Render.mkEvent "e1" t_morning (Some "s1") "203.0.113.7" "/quiz" "page_view" "{}".

End Sample.

(* ================================================================== *)
(** * Notions used to state further properties of the handlers *)
(* ================================================================== *)

Module Notions.
Import JS Http.

(** Newest first: each row is at least as recent as the next one. *)
Definition newest_first {R} (ts : R -> string) (rows : list R) : Prop :=
  Sorted (fun a b => String.leb (ts b) (ts a) = true) rows.

(** Largest count first. *)
Definition largest_first {K} (groups : list (K * Z)) : Prop :=
  StronglySorted (fun a b => b.2 <= a.2) groups.

(** Keys in ascending order, NULL first. *)
Definition keys_ascending (groups : list (option string * Z)) : Prop :=
  Sorted (fun a b => Sqlite.null_first_leb a.1 b.1 = true) groups.

(** The number of times a value occurs in a column. *)
Definition occurrences {K} `{EqDecision K} (k : K) (column : list K) : Z :=
  Z.of_nat (length (List.filter (fun x => bool_decide (x = k)) column)).

(** The sum of the counts of a grouping. *)
Definition total_count {K} (groups : list (K * Z)) : Z :=
  fold_right Z.add 0 (List.map snd groups).

(** The counts of a grouping of a column: one pair for each value of the
    column, with the number of its occurrences, and nothing else. *)
Definition counts_of {K} `{EqDecision K} (column : list K) (groups : list (K * Z)) :
    Prop :=
  NoDup (List.map fst groups)
  /\ (forall k n, In (k, n) groups -> n = occurrences k column /\ In k column)
  /\ (forall k, In k column -> In k (List.map fst groups))
  /\ total_count groups = Z.of_nat (length column).

(** The same request with another body. *)
Definition with_body (req : request) (b : jsval) : request :=
  mkRequest (cookies req) (query req) (headers req) (remoteAddress req) b.

(** An item that can be read: not null and not undefined. *)
Definition readable (it : jsval) : Prop := it <> JNull /\ it <> JUndefined.


(** The same world with other stores. *)
Definition local_world (w : Eff.world Mirror.stores) : Eff.world Sqlite.db :=
  Eff.mkWorld (Mirror.local (Eff.store w)) (Eff.nanoid_source w) (Eff.drawn w).

(** 2024-01-15T11:00:00.000Z *)
Definition t_later : Z := 1705316400000.

Definition later_event : Events.row :=
  Events.mk "e2" (Time.toISOString t_later) (Some "s2") "203.0.113.7" "/result"
    "quiz_complete" "{}".

Definition two_rows : Sqlite.db :=
  Sqlite.mkDb [Sample.morning_event; later_event] [].

End Notions.

(* ================================================================== *)
(** * Proofs *)
(* ================================================================== *)

(** ** The order of ISO texts is the order of instants *)

Module TimeFacts.
Import Time.


Lemma compare_app (a b x y : string) :
  String.length a = String.length b ->
  String.compare (a +:+ x) (b +:+ y) =
  match String.compare a b with Eq => String.compare x y | c => c end.
Proof.
  revert b. induction a as [|c a IH]; intros [|c' b] Hlen; simpl in *; try discriminate.
  - reflexivity.
  - destruct (Ascii.compare c c'); auto.
Qed.

Lemma length_app (a b : string) :
  String.length (a +:+ b) = (String.length a + String.length b)%nat.
Proof. induction a; simpl; auto. Qed.

Lemma length_pad w n : String.length (pad w n) = w.
Proof.
  revert n. induction w as [|w IH]; intros n; simpl; auto.
  rewrite length_app, IH. simpl. lia.
Qed.

Lemma compare_digit x y :
  0 <= x <= 9 -> 0 <= y <= 9 ->
  Ascii.compare (digit x) (digit y) = (x ?= y).
Proof.
  intros Hx Hy. unfold Ascii.compare, digit.
  rewrite !N_ascii_embedding by lia.
  rewrite Z2N.inj_compare by lia.
  apply Z.add_compare_mono_l.
Qed.

Lemma compare_pad w a b :
  0 <= a < 10 ^ Z.of_nat w -> 0 <= b < 10 ^ Z.of_nat w ->
  String.compare (pad w a) (pad w b) = (a ?= b).
Proof.
  revert a b. induction w as [|w IH]; intros a b Ha Hb.
  - simpl in *. assert (a = 0) by lia. assert (b = 0) by lia. subst. reflexivity.
  - rewrite Nat2Z.inj_succ, Z.pow_succ_r in Ha, Hb by lia.
    simpl. rewrite compare_app by (rewrite !length_pad; reflexivity).
    rewrite IH by (split; [apply Z.div_pos; lia | apply Z.div_lt_upper_bound; lia]).
    simpl. rewrite compare_digit by (apply Z.mod_pos_bound; lia) || (pose proof (Z.mod_pos_bound a 10); pose proof (Z.mod_pos_bound b 10); lia).
    pose proof (Z.div_mod a 10 ltac:(lia)). pose proof (Z.div_mod b 10 ltac:(lia)).
    pose proof (Z.mod_pos_bound a 10 ltac:(lia)). pose proof (Z.mod_pos_bound b 10 ltac:(lia)).
    destruct (Z.compare_spec (a / 10) (b / 10)) as [E|L|G].
    + destruct (Z.compare_spec (a mod 10) (b mod 10)); symmetry;
        [ apply Z.compare_eq_iff | apply Z.compare_lt_iff | apply Z.compare_gt_iff ]; lia.
    + symmetry. apply Z.compare_lt_iff. lia.
    + symmetry. apply Z.compare_gt_iff. lia.
Qed.



Lemma compare_refl s : String.compare s s = Eq.
Proof.
  induction s as [|c s IH]; simpl; auto.
  unfold Ascii.compare. rewrite N.compare_refl. exact IH.
Qed.

Lemma compare_fmt fs gs :
  Forall2 same_shape fs gs -> Forall field_ok fs -> Forall field_ok gs ->
  String.compare (fmt fs) (fmt gs) = lex (List.map (fun f => f.1.2) fs) (List.map (fun f => f.1.2) gs).
Proof.
  induction 1 as [|[[w v] sep] [[w' v'] sep'] fs gs [Hw Hs] _ IH]; intros Hf Hg.
  - reflexivity.
  - simpl in Hw, Hs. subst w' sep'.
    apply Forall_cons_1 in Hf as [Hv Hf]. apply Forall_cons_1 in Hg as [Hv' Hg].
    unfold field_ok in Hv, Hv'. simpl in Hv, Hv'. simpl.
    rewrite compare_app by (rewrite !length_pad; reflexivity).
    rewrite compare_pad by assumption.
    destruct (v ?= v'); auto.
    rewrite compare_app by reflexivity.
    rewrite compare_refl. auto.
Qed.

Lemma days_in_month_bounds y m : 28 <= days_in_month y m <= 31.
Proof. unfold days_in_month. repeat destruct (_ =? _); simpl; try destruct (is_leap y); lia. Qed.

Lemma lex3_lt a b c a' b' c' :
  lex [a; b; c] [a'; b'; c'] = Lt <->
  a < a' \/ (a = a' /\ (b < b' \/ (b = b' /\ c < c'))).
Proof.
  simpl.
  destruct (Z.compare_spec a a'); destruct (Z.compare_spec b b'); destruct (Z.compare_spec c c');
    split; intros; try discriminate; try lia; auto.
Qed.

Lemma next_day_valid d : date_valid d -> date_valid (next_day d).
Proof.
  unfold date_valid, next_day. intros (Hy & Hm & Hd).
  pose proof (days_in_month_bounds (year d) (month d)).
  destruct (Z.ltb_spec (day d) (days_in_month (year d) (month d))); simpl.
  - lia.
  - pose proof (days_in_month_bounds (year d) (month d + 1)).
    pose proof (days_in_month_bounds (year d + 1) 1).
    destruct (Z.ltb_spec (month d) 12); simpl; lia.
Qed.

Lemma next_day_lt d : date_valid d -> date_lt d (next_day d).
Proof.
  unfold date_valid, next_day, date_lt. intros (Hy & Hm & Hd).
  destruct (Z.ltb_spec (day d) (days_in_month (year d) (month d)));
    [| destruct (Z.ltb_spec (month d) 12)]; apply lex3_lt; simpl; lia.
Qed.

Lemma date_lt_trans d e f : date_lt d e -> date_lt e f -> date_lt d f.
Proof.
  unfold date_lt. intros H1 H2.
  apply lex3_lt in H1. apply lex3_lt in H2. apply lex3_lt. lia.
Qed.

Lemma civil_succ n : 0 <= n -> civil_from_days (n + 1) = next_day (civil_from_days n).
Proof.
  intros Hn. unfold civil_from_days.
  destruct n as [|p|p]; try lia.
  - reflexivity.
  - simpl. replace (p + 1)%positive with (Pos.succ p) by lia. apply Pos.iter_succ.
Qed.

Lemma civil_valid n : 0 <= n -> date_valid (civil_from_days n).
Proof.
  revert n. apply natlike_ind.
  - unfold date_valid. cbn [civil_from_days Z.iter epoch year month day].
    change (days_in_month 1970 1) with 31. lia.
  - intros n Hn IH. unfold Z.succ. rewrite civil_succ by lia. apply next_day_valid, IH.
Qed.

Lemma civil_lt n k : 0 <= n -> 0 < k -> date_lt (civil_from_days n) (civil_from_days (n + k)).
Proof.
  intros Hn Hk. replace k with (Z.succ (k - 1)) by lia.
  assert (H : 0 <= k - 1) by lia. revert H. generalize (k - 1). clear k Hk.
  apply natlike_ind.
  - unfold Z.succ. rewrite Z.add_0_l, civil_succ by lia. apply next_day_lt, civil_valid, Hn.
  - intros k Hk IH. eapply date_lt_trans; [exact IH|].
    replace (n + Z.succ (Z.succ k)) with ((n + Z.succ k) + 1) by lia.
    rewrite civil_succ by lia. apply next_day_lt, civil_valid. lia.
Qed.

Lemma civil_mono n m : 0 <= n -> n < m -> date_lt (civil_from_days n) (civil_from_days m).
Proof. intros. replace m with (n + (m - n)) by lia. apply civil_lt; lia. Qed.



Lemma day_index_nonneg t : 0 <= t -> 0 <= t / ms_per_day.
Proof. intros. apply Z.div_pos; unfold ms_per_day; lia. Qed.

Lemma fields_ok t : iso_range t -> Forall field_ok (fields t).
Proof.
  intros [Ht Hy].
  pose proof (civil_valid _ (day_index_nonneg t Ht)) as (Hy' & Hm & Hd).
  pose proof (days_in_month_bounds (year (civil_from_days (t / ms_per_day)))
                (month (civil_from_days (t / ms_per_day)))).
  pose proof (Z.mod_pos_bound t ms_per_day ltac:(unfold ms_per_day; lia)) as Hr.
  unfold ms_per_day in Hr.
  unfold fields. repeat apply Forall_cons_2; try apply Forall_nil_2;
    unfold field_ok; cbn [fst snd]; unfold ms_per_day in *.
  - change (10 ^ Z.of_nat 4) with 10000. lia.
  - change (10 ^ Z.of_nat 2) with 100. lia.
  - change (10 ^ Z.of_nat 2) with 100. lia.
  - change (10 ^ Z.of_nat 2) with 100.
    split; [apply Z.div_pos; lia | apply Z.div_lt_upper_bound; lia].
  - change (10 ^ Z.of_nat 2) with 100.
    pose proof (Z.mod_pos_bound (t mod 86400000 / 60000) 60 ltac:(lia)). lia.
  - change (10 ^ Z.of_nat 2) with 100.
    pose proof (Z.mod_pos_bound (t mod 86400000 / 1000) 60 ltac:(lia)). lia.
  - change (10 ^ Z.of_nat 3) with 1000.
    pose proof (Z.mod_pos_bound (t mod 86400000) 1000 ltac:(lia)). lia.
Qed.

Lemma fields_shape t u : Forall2 same_shape (fields t) (fields u).
Proof. unfold fields. repeat constructor. Qed.

Lemma time_of_day_lt r s :
  0 <= r -> r < s -> s < 86400000 ->
  lex [r / 3600000; r / 60000 mod 60; r / 1000 mod 60; r mod 1000]
      [s / 3600000; s / 60000 mod 60; s / 1000 mod 60; s mod 1000] = Lt.
Proof.
  intros Hr Hrs Hs. cbn [lex].
  destruct (Z.compare_spec (r / 3600000) (s / 3600000)) as [E1|L1|G1]; auto.
  2:{ exfalso. Z.to_euclidean_division_equations. lia. }
  destruct (Z.compare_spec (r / 60000 mod 60) (s / 60000 mod 60)) as [E2|L2|G2]; auto.
  2:{ exfalso. Z.to_euclidean_division_equations. lia. }
  destruct (Z.compare_spec (r / 1000 mod 60) (s / 1000 mod 60)) as [E3|L3|G3]; auto.
  2:{ exfalso. Z.to_euclidean_division_equations. lia. }
  destruct (Z.compare_spec (r mod 1000) (s mod 1000)) as [E4|L4|G4]; auto;
    exfalso; Z.to_euclidean_division_equations; lia.
Qed.

Lemma lex_fields_lt t u :
  0 <= t -> t < u ->
  lex (List.map (fun f => f.1.2) (fields t)) (List.map (fun f => f.1.2) (fields u)) = Lt.
Proof.
  intros Ht Htu. unfold fields. cbn [List.map fst snd].
  assert (Hdiv : t / ms_per_day <= u / ms_per_day)
    by (apply Z.div_le_mono; unfold ms_per_day; lia).
  destruct (Z.eq_dec (t / ms_per_day) (u / ms_per_day)) as [E|NE].
  - rewrite <- E. cbn [lex]. rewrite !Z.compare_refl.
    apply time_of_day_lt.
    + apply Z.mod_pos_bound. unfold ms_per_day; lia.
    + pose proof (Z.div_mod t ms_per_day ltac:(unfold ms_per_day; lia)).
      pose proof (Z.div_mod u ms_per_day ltac:(unfold ms_per_day; lia)). lia.
    + apply Z.mod_pos_bound. unfold ms_per_day; lia.
  - pose proof (civil_mono (t / ms_per_day) (u / ms_per_day)
                  (day_index_nonneg t Ht) ltac:(lia)) as Hlt.
    unfold date_lt in Hlt. cbn [lex] in *.
    destruct (_ ?= _); auto; try discriminate.
    destruct (_ ?= _); auto; try discriminate.
    destruct (_ ?= _); auto; try discriminate.
Qed.

Lemma iso_range_le t u : 0 <= t -> t <= u -> iso_range u -> iso_range t.
Proof.
  intros Ht Htu [Hu Hy]. split; auto.
  assert (Hdiv : t / ms_per_day <= u / ms_per_day)
    by (apply Z.div_le_mono; unfold ms_per_day; lia).
  destruct (Z.eq_dec (t / ms_per_day) (u / ms_per_day)) as [E|NE].
  - rewrite E. exact Hy.
  - pose proof (civil_mono (t / ms_per_day) (u / ms_per_day)
                  (day_index_nonneg t Ht) ltac:(lia)) as Hlt.
    apply lex3_lt in Hlt. lia.
Qed.

Lemma toISOString_lt t u :
  0 <= t -> t < u -> iso_range u ->
  String.compare (toISOString t) (toISOString u) = Lt.
Proof.
  intros Ht Htu Hu. unfold toISOString.
  rewrite compare_fmt.
  - apply lex_fields_lt; assumption.
  - apply fields_shape.
  - apply fields_ok. eapply iso_range_le; eauto. lia.
  - apply fields_ok, Hu.
Qed.

Lemma toISOString_leb t u :
  iso_range t -> iso_range u ->
  String.leb (toISOString t) (toISOString u) = (t <=? u).
Proof.
  intros Ht Hu. unfold String.leb.
  destruct (Z.leb_spec t u) as [Hle|Hgt].
  - destruct (Z.eq_dec t u) as [->|NE].
    + rewrite compare_refl. reflexivity.
    + rewrite toISOString_lt; auto; [apply Ht | lia].
  - rewrite String.compare_antisym, toISOString_lt; auto. apply Hu.
Qed.


End TimeFacts.

(** ** POST /api/events of the first program *)

Module IngestFacts.
Import JS Http Eff Sqlite Spec.

Lemma get_get_opt it k v : get it k = inr v -> v = get_opt it k.
Proof. destruct it; simpl; intros E; inversion E; reflexivity. Qed.

Lemma resolve_page_first_truthy it v :
  ServerA.resolve_page it = inr v ->
  v = first_truthy [get_opt it "page"; get_opt (get_opt it "properties") "page"]
        (JStr "").
Proof.
  unfold ServerA.resolve_page, ebind. intros E.
  destruct (get it "page") as [e|p] eqn:Ep; [discriminate|].
  destruct (get it "properties") as [e|q] eqn:Eq; [discriminate|].
  apply get_get_opt in Ep, Eq. subst p q. inversion E; subst v. clear E.
  unfold js_or. simpl.
  destruct (truthy (get_opt it "page")) eqn:T1; [rewrite T1; reflexivity|].
  reflexivity.
Qed.

Lemma resolve_type_first_truthy it v :
  ServerA.resolve_type it = inr v ->
  v = first_truthy [get_opt it "type"; get_opt it "event";
                    get_opt (get_opt it "properties") "event"] (JStr "custom").
Proof.
  unfold ServerA.resolve_type, ebind. intros E.
  destruct (get it "type") as [e|p] eqn:Ep; [discriminate|].
  destruct (get it "event") as [e|q] eqn:Eq; [discriminate|].
  destruct (get it "properties") as [e|r] eqn:Er; [discriminate|].
  apply get_get_opt in Ep, Eq, Er. subst p q r. inversion E; subst v. clear E.
  unfold js_or. simpl.
  destruct (truthy (get_opt it "type")) eqn:T1.
  { rewrite T1. destruct (truthy (get_opt it "type")) eqn:T1'; congruence. }
  destruct (truthy (get_opt it "event")) eqn:T2.
  { rewrite T2. reflexivity. }
  reflexivity.
Qed.

Lemma resolve_payload_first_truthy it v :
  ServerA.resolve_payload it = inr v ->
  v = first_truthy [get_opt it "payload"; get_opt it "properties"] (JObj []).
Proof.
  unfold ServerA.resolve_payload, ebind. intros E.
  destruct (get it "payload") as [e|p] eqn:Ep; [discriminate|].
  destruct (get it "properties") as [e|q] eqn:Eq; [discriminate|].
  apply get_get_opt in Ep, Eq. subst p q. inversion E; subst v. clear E.
  unfold js_or. simpl.
  destruct (truthy (get_opt it "payload")) eqn:T1; [rewrite T1; reflexivity|].
  reflexivity.
Qed.

(** One turn of the loop: a resolved row is appended, or the turn throws
    and the table is as before. *)
Lemma insert_item_run F now sidv ip it (w : world db) :
  match ServerA.insert_item F now sidv ip it w with
  | (inr _, w') =>
      exists r, store w' = mkDb (events (store w) ++ [r]) (results (store w))
                /\ resolved_item now sidv ip it r
  | (inl _, w') => store w' = store w
  end.
Proof.
  unfold ServerA.insert_item, bind, lift, throw, ret.
  destruct (ServerA.resolve_page it) as [e|pg] eqn:Epg; [reflexivity|].
  destruct (ServerA.resolve_type it) as [e|ty] eqn:Ety; [reflexivity|].
  destruct (ServerA.resolve_payload it) as [e|pl] eqn:Epl; [reflexivity|].
  apply resolve_page_first_truthy in Epg.
  apply resolve_type_first_truthy in Ety.
  apply resolve_payload_first_truthy in Epl.
  unfold nanoid. cbn [store nanoid_source drawn].
  destruct (bind_text sidv) as [e|sid] eqn:Esid; [reflexivity|].
  unfold stInsertEvent_run. cbn [store nanoid_source drawn].
  destruct (_ || _); [reflexivity|].
  cbn [set_store store]. eexists. split; [reflexivity|].
  unfold resolved_item. cbn. subst. auto 10.
Qed.

Lemma insert_items_run F now sidv ip items : forall (w : world db),
  match for_of items (ServerA.insert_item F now sidv ip) w with
  | (inr _, w') =>
      exists new, store w' = mkDb (events (store w) ++ new) (results (store w))
                  /\ Forall2 (resolved_item now sidv ip) items new
  | (inl _, _) => True
  end.
Proof.
  induction items as [|it items IH]; intros w; cbn [for_of].
  - unfold ret. exists []. rewrite app_nil_r. destruct (store w); auto.
  - unfold bind. pose proof (insert_item_run F now sidv ip it w) as H1.
    destruct (ServerA.insert_item F now sidv ip it w) as [[e|[]] w1]; [exact I|].
    destruct H1 as (r & Hst & Hr).
    specialize (IH w1).
    destruct (for_of items (ServerA.insert_item F now sidv ip) w1) as [[e|[]] w2];
      [exact I|].
    destruct IH as (new & Hst2 & Hnew).
    exists (r :: new). split; [|constructor; assumption].
    rewrite Hst2, Hst. cbn. rewrite <- app_assoc. reflexivity.
Qed.

(** The two outcomes of POST /api/events. *)
Lemma post_events_outcome F now req (w : world db) :
  let x := ServerA.post_events F now req w in
  let items := ServerA.batch_items (body req ||| JObj []) in
  (status (answer x) = 200
   /\ exists new,
        store_after x = mkDb (events (store w) ++ new) (results (store w))
        /\ Forall2 (resolved_item (Time.toISOString now)
                      (assoc "session_id" (cookies req)) (ServerA.client_ip req))
             items new)
  \/ (status (answer x) = 500 /\ store_after x = store w).
Proof.
  cbv zeta. unfold ServerA.post_events, try_catch, bind, transaction, answer, store_after.
  pose proof (insert_items_run F (Time.toISOString now)
                (assoc "session_id" (cookies req)) (ServerA.client_ip req)
                (ServerA.batch_items (body req ||| JObj [])) w) as H.
  destruct (for_of _ _ w) as [[e|[]] w1].
  - right. cbn. auto.
  - left. cbn. split; [reflexivity|]. exact H.
Qed.

End IngestFacts.

(** ** The batch write *)

Module BatchFacts.
Import JS Http Eff Sqlite Spec.

(** A loop whose every turn appends one event or throws appends as many
    events as it has turns, when it does not throw. *)
Lemma for_of_appends {A} (body : A -> M db unit) :
  (forall a (w : world db),
      match body a w with
      | (inr _, w') =>
          exists r, store w' = mkDb (events (store w) ++ [r]) (results (store w))
      | (inl _, _) => True
      end) ->
  forall l (w : world db),
    match for_of l body w with
    | (inr _, w') =>
        exists new, store w' = mkDb (events (store w) ++ new) (results (store w))
                    /\ length new = length l
    | (inl _, _) => True
    end.
Proof.
  intros Hbody. induction l as [|a l IH]; intros w; cbn [for_of].
  - unfold ret. exists []. rewrite app_nil_r. destruct (store w); auto.
  - unfold bind. specialize (Hbody a w).
    destruct (body a w) as [[e|[]] w1]; [exact I|].
    destruct Hbody as (r & Hst). specialize (IH w1).
    destruct (for_of l body w1) as [[e|[]] w2]; [exact I|].
    destruct IH as (new & Hst2 & Hlen).
    exists (r :: new). split; [|cbn; congruence].
    rewrite Hst2, Hst. cbn. rewrite <- app_assoc. reflexivity.
Qed.

Lemma insert_item_A_appends F now sidv ip it (w : world db) :
  match ServerA.insert_item F now sidv ip it w with
  | (inr _, w') =>
      exists r, store w' = mkDb (events (store w) ++ [r]) (results (store w))
  | (inl _, _) => True
  end.
Proof.
  pose proof (IngestFacts.insert_item_run F now sidv ip it w) as H.
  destruct (ServerA.insert_item F now sidv ip it w) as [[e|[]] w1]; [exact I|].
  destruct H as (r & Hst & _). eauto.
Qed.

Lemma insert_item_B_appends F now sidv ip it (w : world db) :
  match ServerB.insert_item F now sidv ip it w with
  | (inr _, w') =>
      exists r, store w' = mkDb (events (store w) ++ [r]) (results (store w))
  | (inl _, _) => True
  end.
Proof.
  unfold ServerB.insert_item, bind, lift, throw, ret, nanoid.
  cbn [store nanoid_source drawn].
  destruct (get it "page") as [e|p]; [exact I|].
  destruct (get it "type") as [e|t]; [exact I|].
  destruct (get it "payload") as [e|q]; [exact I|].
  destruct (bind_text sidv) as [e|sid]; [exact I|].
  unfold stInsertEvent_run. cbn [store nanoid_source drawn].
  destruct (_ || _); [exact I|]. cbn. eauto.
Qed.

Lemma insert_item_C_appends F now sidv ip it (w : world db) :
  match ServerC.insert_item F now sidv ip it w with
  | (inr _, w') =>
      exists r, store w' = mkDb (events (store w) ++ [r]) (results (store w))
  | (inl _, _) => True
  end.
Proof.
  unfold ServerC.insert_item, bind, lift, throw, ret, nanoid.
  cbn [store nanoid_source drawn].
  destruct (get it "ts") as [e|a]; [exact I|].
  destruct (get it "sessionId") as [e|b]; [exact I|].
  destruct (get it "page") as [e|c]; [exact I|].
  destruct (get it "event") as [e|d]; [exact I|].
  destruct (get it "properties") as [e|f]; [exact I|].
  destruct (bind_text (a ||| JStr now)) as [e|ts]; [exact I|].
  destruct (bind_text (b ||| sidv)) as [e|sid]; [exact I|].
  unfold stInsertEvent_run. cbn [store nanoid_source drawn].
  destruct (_ || _); [exact I|]. cbn. eauto.
Qed.

(** A transaction around such a loop writes all of it or nothing. *)
Lemma transaction_all_or_nothing {A} (body : A -> M db unit) l (w : world db) :
  (forall a (w : world db),
      match body a w with
      | (inr _, w') =>
          exists r, store w' = mkDb (events (store w) ++ [r]) (results (store w))
      | (inl _, _) => True
      end) ->
  match transaction (for_of l body) w with
  | (inr _, w') =>
      exists new, store w' = mkDb (events (store w) ++ new) (results (store w))
                  /\ length new = length l
  | (inl _, w') => store w' = store w
  end.
Proof.
  intros Hbody. unfold transaction.
  pose proof (for_of_appends body Hbody l w) as H.
  destruct (for_of l body w) as [[e|[]] w1]; [reflexivity | exact H].
Qed.

End BatchFacts.

(* ================================================================== *)
(** * The claims *)
(* ================================================================== *)

Module Claims.
Import JS Http Eff Spec.

(** C1, as the specification states it, fails on src/server-render.js.
    A batch of two items whose second item is null: the first item is
    inserted through Supabase, reading the second one throws, the caller
    receives status 500, and one row of the two stays in the table. *)
Lemma render_batch_partly_written :
  let req := Sample.request_with [] [] Sample.batch_with_null in
  let w := Sample.fresh (Render.mkPg [] []) in
  let x := Render.post_events Render.no_faults Sample.t_morning req w in
  ~ all_or_nothing (Render.events (store w)) (Render.events (store_after x))
      (length (ServerA.batch_items (body req ||| JObj []))) (answer x).
Proof.
  cbv zeta. vm_compute.
  intros [(new & H1 & H2 & H3) | (H1 & H2)]; discriminate.
Qed.

(** C1, amended: in the three programs of src/server.js the batch of a
    POST /api/events request is written inside one SQLite transaction.
    Either every item became a row of [events] and the answer is 200, or
    the table is as it was and the answer is 500; when the loop over the
    items throws (a storage insert that fails, an item that cannot be
    read), it is the second.  The table [results] is not touched. *)
Theorem sqlite_batch_all_or_nothing F now req (w : world Sqlite.db) :
  let body' := body req ||| JObj [] in
  let before := Sqlite.events (store w) in
  (let x := ServerA.post_events F now req w in
   all_or_nothing before (Sqlite.events (store_after x))
     (length (ServerA.batch_items body')) (answer x)
   /\ Sqlite.results (store_after x) = Sqlite.results (store w)
   /\ (forall e w1,
         for_of (ServerA.batch_items body')
           (ServerA.insert_item F (Time.toISOString now)
              (assoc "session_id" (cookies req)) (ServerA.client_ip req)) w
         = (inl e, w1) ->
         status (answer x) = 500 /\ store_after x = store w))
  /\ (let x := ServerB.post_events F now req w in
      all_or_nothing before (Sqlite.events (store_after x))
        (length (ServerA.batch_items body')) (answer x))
  /\ (let x := ServerC.post_events F now req w in
      match ServerC.iterate
              (ServerA.default_to (get_opt body' "batch") (JArr [])) with
      | inr l =>
          all_or_nothing before (Sqlite.events (store_after x)) (length l) (answer x)
      | inl _ => status (answer x) = 500 /\ store_after x = store w
      end).
Proof.
  cbv zeta. split; [|split].
  - unfold ServerA.post_events, try_catch, bind, answer, store_after.
    set (loop := for_of _ _).
    pose proof (BatchFacts.transaction_all_or_nothing _
                  (ServerA.batch_items (body req ||| JObj [])) w
                  (BatchFacts.insert_item_A_appends F (Time.toISOString now)
                     (assoc "session_id" (cookies req)) (ServerA.client_ip req))) as H.
    fold loop in H. unfold Sqlite.transaction in *.
    destruct (loop w) as [[e|[]] w1] eqn:E; cbn in *.
    + split; [right; auto|]. split; [reflexivity|]. auto.
    + destruct H as (new & Hst & Hlen). rewrite Hst. cbn.
      split; [left; eauto|]. split; [reflexivity|]. intros e w2 [=].
  - unfold ServerB.post_events, try_catch, bind, answer, store_after.
    pose proof (BatchFacts.transaction_all_or_nothing _
                  (ServerA.batch_items (body req ||| JObj [])) w
                  (BatchFacts.insert_item_B_appends F (Time.toISOString now)
                     (assoc "session_id" (cookies req)) (ServerA.client_ip req))) as H.
    destruct (Sqlite.transaction _ w) as [[e|[]] w1]; cbn in *.
    + right. rewrite H. auto.
    + destruct H as (new & Hst & Hlen). rewrite Hst. left. cbn. eauto.
  - unfold ServerC.post_events, try_catch, bind, answer, store_after,
      Sqlite.transaction, lift.
    destruct (ServerC.iterate _) as [e|l] eqn:Eit; cbn.
    + auto.
    + pose proof (BatchFacts.for_of_appends _
                    (BatchFacts.insert_item_C_appends F (Time.toISOString now)
                       (assoc "session_id" (cookies req) ||| JStr "")
                       (ServerA.client_ip req)) l w) as H.
      destruct (for_of l _ w) as [[e|[]] w1]; cbn in *.
      * right. auto.
      * destruct H as (new & Hst & Hlen). rewrite Hst. left. cbn. eauto.
Qed.





(** In the first program of src/server.js a date filter is widened to
    the whole local day.  For a date [D] that dayjs reads as the instant
    [t0], the bounds bound to the statement are the texts of
    [startOf('day')] and [endOf('day')] of [t0], and a row stamped by the
    server at the instant [t] passes [start=D] exactly when it is at or
    after local midnight of D, and [end=D] exactly when it is at or
    before the last millisecond of D. *)
Lemma day_filter_keeps_the_whole_day (H : Host.t) (D : jsval) (t0 : Z) :
  truthy D = true ->
  Host.dayjs H D = Some t0 ->
  Time.iso_range (Host.startOf_day H t0) ->
  Time.iso_range (Host.endOf_day H t0) ->
  exists lo hi,
    ServerA.day_bound H (Host.startOf_day H) D = inr (Some lo)
    /\ ServerA.day_bound H (Host.endOf_day H) D = inr (Some hi)
    /\ forall (r : Events.row) (t : Z),
         Events.ts r = Time.toISOString t -> Time.iso_range t ->
         (Sqlite.where_range Events.ts (Some lo) None r = true
          <-> Host.startOf_day H t0 <= t)
         /\ (Sqlite.where_range Events.ts None (Some hi) r = true
             <-> t <= Host.endOf_day H t0)
         /\ (Sqlite.where_range Events.ts (Some lo) (Some hi) r = true
             <-> Host.startOf_day H t0 <= t <= Host.endOf_day H t0).
Proof.
  intros HD Hparse Hlo Hhi.
  exists (Time.toISOString (Host.startOf_day H t0)),
         (Time.toISOString (Host.endOf_day H t0)).
  unfold ServerA.day_bound. rewrite HD, Hparse.
  split; [reflexivity|]. split; [reflexivity|].
  intros r t Hts Ht. unfold Sqlite.where_range. rewrite Hts.
  rewrite !TimeFacts.toISOString_leb by assumption.
  rewrite andb_true_r, andb_true_l, andb_true_iff, !Z.leb_le. tauto.
Qed.

(** C3 fails on src/server-render.js, which hands the filter texts to the
    database as they came.  With one event stored at 2024-01-15 10:00 UTC
    and the query [end=2024-01-15], Postgres reads the bound as the
    midnight that starts the day and the event is not returned; the first
    program of server.js, on the same event and query, returns it. *)
Theorem render_end_date_drops_its_day :
  let q := [("end", JStr "2024-01-15")] in
  Render.events_page Sample.postgres_utc Render.no_faults q
    (Render.mkPg [Sample.morning_event_pg] []) = inr []
  /\ ServerA.events_page Sample.utc q (Sqlite.mkDb [Sample.morning_event] [])
     = inr [Sample.morning_event].
Proof. cbv zeta. split; vm_compute; reflexivity. Qed.












(** C8: every grouped aggregation of GET /api/dashboard over zero
    matching rows is the empty list, and the handler answers 200.  With
    no row in [results], [quizResults] is [[]] in the first program of
    src/server.js, in src/server-render.js (also when its reads fail) and
    in the tracker program; with no event, [topEvents], [pageViews] and
    [hourlyEvents] are [[]]; with no page_view event [pageViews] is [[]];
    with no event since local midnight [hourlyEvents] is [[]]. *)
Theorem empty_aggregation_is_empty_list (H : Host.t) (now : Z) :
  (forall events,
      get_opt (ServerA.dashboard_body H now (Sqlite.mkDb events [])) "quizResults"
      = JArr [])
  /\ (forall results,
         let body := ServerA.dashboard_body H now (Sqlite.mkDb [] results) in
         get_opt body "topEvents" = JArr []
         /\ get_opt body "pageViews" = JArr []
         /\ get_opt body "hourlyEvents" = JArr [])
  /\ (forall d,
         List.filter (fun r => String.eqb (Events.type r) "page_view")
           (Sqlite.events d) = [] ->
         get_opt (ServerA.dashboard_body H now d) "pageViews" = JArr [])
  /\ (forall d,
         ServerA.since (Time.toISOString (Host.startOf_day H now)) (Sqlite.events d)
         = [] ->
         get_opt (ServerA.dashboard_body H now d) "hourlyEvents" = JArr [])
  /\ (forall req (w : world Sqlite.db),
         answer (ServerA.get_dashboard H now req w)
         = ok (ServerA.dashboard_body H now (store w)))
  /\ (forall F events,
         get_opt (Render.dashboard_body H F now (Render.mkPg events [])) "quizResults"
         = JArr [])
  /\ (forall F req (w : world Render.pg),
         answer (Render.get_dashboard H F now req w)
         = ok (Render.dashboard_body H F now (store w)))
  /\ (forall events,
         get_opt (Tracker.dashboard_body H now (Tracker.mkDb events [])) "quizResults"
         = JArr []).
Proof.
  repeat split; try reflexivity.
  - intros d Hnone. unfold ServerA.dashboard_body. rewrite Hnone. reflexivity.
  - intros d Hnone. unfold ServerA.dashboard_body. rewrite Hnone. reflexivity.
  - intros F events. unfold Render.dashboard_body, Render.tally. cbn.
    destruct (Render.read_fails F 4); reflexivity.
Qed.

(** C10: in every GET /api/dashboard response [totalUsers] and
    [totalSessions] are the same value, the count of the distinct non-null
    session ids of the table [events]: two identical queries in the first
    program of src/server.js, one value used twice in
    src/server-render.js and in the tracker program. *)
Theorem total_users_is_total_sessions (H : Host.t) (now : Z) :
  (forall d,
      let body := ServerA.dashboard_body H now d in
      get_opt body "totalUsers" = get_opt body "totalSessions"
      /\ get_opt body "totalSessions"
         = JArr [Sqlite.count_row
                   (Sqlite.count_distinct
                      (List.map Events.session_id (Sqlite.events d)))])
  /\ (forall F d,
         let body := Render.dashboard_body H F now d in
         get_opt body "totalUsers" = get_opt body "totalSessions"
         /\ get_opt body "totalSessions"
            = JArr [Sqlite.count_row
                      (Render.unique_sessions (Render.read_fails F 1)
                         (Render.events d))])
  /\ (forall d,
         let body := Tracker.dashboard_body H now d in
         get_opt body "totalUsers" = get_opt body "totalSessions"
         /\ get_opt body "totalSessions"
            = JNum (Sqlite.count_distinct
                      (List.map Tracker.session_id (Tracker.events d)))).
Proof. repeat split. Qed.

(** The two outcomes of POST /api/results. *)
Lemma post_results_outcome F now req (w : world Sqlite.db) :
  let x := ServerA.post_results F now req w in
  (status (answer x) = 200
   /\ exists r,
        store_after x
        = Sqlite.mkDb (Sqlite.events (store w)) (Sqlite.results (store w) ++ [r])
        /\ Sqlite.bind_text (assoc "session_id" (cookies req))
           = inr (Results.session_id r)
        /\ Results.ts r = Time.toISOString now)
  \/ (status (answer x) = 500 /\ store_after x = store w).
Proof.
  cbv zeta. unfold ServerA.post_results, try_catch, bind, lift, nanoid, throw, ret,
    answer, store_after. cbn [store nanoid_source drawn].
  destruct (Sqlite.bind_text _) as [e|sid] eqn:Esid; cbn; [right; auto|].
  unfold Sqlite.stInsertResult_run. cbn [store nanoid_source drawn].
  destruct (_ || _); cbn; [right; auto|].
  left. split; [reflexivity|]. eexists. split; [reflexivity|]. cbn. auto.
Qed.

(** What SQLite stores for a falsy cookie value that it accepts. *)
Lemma falsy_bound (v : jsval) (sid : option string) :
  truthy v = false -> Sqlite.bind_text v = inr sid ->
  sid = None \/ sid = Some "" \/ sid = Some "0.0".
Proof.
  destruct v as [| |b|n|s|l|props]; cbn; intros Hf [=]; subst; auto.
  - apply negb_false_iff, Z.eqb_eq in Hf. subst n. auto.
  - apply negb_false_iff, String.eqb_eq in Hf. subst s. auto.
Qed.

Lemma minted_token_differs (token : string) (v : jsval) (sid : option string) :
  String.length token = 21%nat ->
  truthy v = false -> Sqlite.bind_text v = inr sid -> sid <> Some token.
Proof.
  intros Hlen Hf Hb [= ->].
  destruct (falsy_bound _ _ Hf Hb) as [E | [E | E]]; inversion E; subst;
    discriminate Hlen.
Qed.

(** C9: the session middleware sets the minted token on the response
    only, and POST /api/events and POST /api/results of the first program
    of src/server.js read the session id from the cookies of the request.
    So the rows a request inserts never carry the token minted for it
    (an id of nanoid has 21 characters), and on a first visit, a request
    without a session_id cookie, a token is minted and every row inserted
    has a NULL session_id. *)
Theorem first_request_rows_carry_no_session F now req (w : world Sqlite.db) :
  String.length (nanoid_source w (drawn w)) = 21%nat ->
  let x := ServerA.app (ServerA.post_events F now) req w in
  let y := ServerA.app (ServerA.post_results F now) req w in
  (exists new,
      Sqlite.events (store x.2) = (Sqlite.events (store w) ++ new)%list
      /\ (forall c, In c (set_cookie x.1) ->
                    Forall (fun r => Events.session_id r <> Some (value c)) new)
      /\ (assoc "session_id" (cookies req) = JUndefined ->
          (exists c, set_cookie x.1 = [c])
          /\ Forall (fun r => Events.session_id r = None) new))
  /\ (exists new,
         Sqlite.results (store y.2) = (Sqlite.results (store w) ++ new)%list
         /\ (forall c, In c (set_cookie y.1) ->
                       Forall (fun r => Results.session_id r <> Some (value c)) new)
         /\ (assoc "session_id" (cookies req) = JUndefined ->
             (exists c, set_cookie y.1 = [c])
             /\ Forall (fun r => Results.session_id r = None) new)).
Proof.
  intros Hlen. cbv zeta. unfold ServerA.app, ServerA.session_middleware.
  destruct (truthy (assoc "session_id" (cookies req))) eqn:Hp; cbn [negb].
  - (* a cookie was presented: nothing is set *)
    unfold ret. split.
    + pose proof (IngestFacts.post_events_outcome F now req w) as Hout.
      unfold answer, store_after in Hout. cbv zeta in Hout.
      destruct (ServerA.post_events F now req w) as [[e|r] w2]; cbn in *.
      * destruct Hout as [(_ & new & -> & _) | (_ & ->)].
        -- exists new. split; [reflexivity|]. split; [tauto|].
           intros E. rewrite E in Hp. discriminate.
        -- exists []. rewrite app_nil_r. split; [reflexivity|]. split; [tauto|].
           intros E. rewrite E in Hp. discriminate.
      * destruct Hout as [(_ & new & -> & _) | (_ & ->)].
        -- exists new. split; [reflexivity|]. split; [tauto|].
           intros E. rewrite E in Hp. discriminate.
        -- exists []. rewrite app_nil_r. split; [reflexivity|]. split; [tauto|].
           intros E. rewrite E in Hp. discriminate.
    + pose proof (post_results_outcome F now req w) as Hout.
      unfold answer, store_after in Hout. cbv zeta in Hout.
      destruct (ServerA.post_results F now req w) as [[e|r] w2]; cbn in *.
      * destruct Hout as [(_ & r' & -> & _) | (_ & ->)].
        -- exists [r']. split; [reflexivity|]. split; [tauto|].
           intros E. rewrite E in Hp. discriminate.
        -- exists []. rewrite app_nil_r. split; [reflexivity|]. split; [tauto|].
           intros E. rewrite E in Hp. discriminate.
      * destruct Hout as [(_ & r' & -> & _) | (_ & ->)].
        -- exists [r']. split; [reflexivity|]. split; [tauto|].
           intros E. rewrite E in Hp. discriminate.
        -- exists []. rewrite app_nil_r. split; [reflexivity|]. split; [tauto|].
           intros E. rewrite E in Hp. discriminate.
  - (* no truthy cookie: a token is minted, on the response *)
    unfold bind, nanoid, ret. cbn [store nanoid_source drawn].
    set (w1 := mkWorld (store w) (nanoid_source w) (S (drawn w))).
    split.
    + pose proof (IngestFacts.post_events_outcome F now req w1) as Hout.
      unfold answer, store_after in Hout. cbv zeta in Hout.
      assert (Hnew : exists new,
                 Sqlite.events (store (ServerA.post_events F now req w1).2)
                 = (Sqlite.events (store w) ++ new)%list
                 /\ Forall (fun r => Sqlite.bind_text (assoc "session_id" (cookies req))
                                     = inr (Events.session_id r)) new).
      { destruct Hout as [(_ & new & -> & Hrows) | (_ & ->)].
        - exists new. split; [reflexivity|].
          clear -Hrows. induction Hrows as [|it r items new Hr _ IH]; constructor; auto.
          apply Hr.
        - exists []. cbn. rewrite app_nil_r. split; [reflexivity | constructor]. }
      destruct Hnew as (new & Hst & Hsid). clear Hout.
      exists new.
      destruct (ServerA.post_events F now req w1) as [[e|r] w2];
        cbn [fst snd set_cookie store] in *;
        (split; [exact Hst|]); (split;
        [ intros c [<- | []]; cbn [value]; eapply Forall_impl; [exact Hsid|];
          intros r0 Hb; eapply minted_token_differs; eauto
        | intros E; split; [eauto|]; eapply Forall_impl; [exact Hsid|];
          intros r0 Hb; rewrite E in Hb; cbn in Hb; congruence ]).
    + pose proof (post_results_outcome F now req w1) as Hout.
      unfold answer, store_after in Hout. cbv zeta in Hout.
      assert (Hnew : exists new,
                 Sqlite.results (store (ServerA.post_results F now req w1).2)
                 = (Sqlite.results (store w) ++ new)%list
                 /\ Forall (fun r => Sqlite.bind_text (assoc "session_id" (cookies req))
                                     = inr (Results.session_id r)) new).
      { destruct Hout as [(_ & r & -> & Hb & _) | (_ & ->)].
        - exists [r]. split; [reflexivity|]. constructor; auto.
        - exists []. cbn. rewrite app_nil_r. split; [reflexivity | constructor]. }
      destruct Hnew as (new & Hst & Hsid). clear Hout.
      exists new.
      destruct (ServerA.post_results F now req w1) as [[e|r] w2];
        cbn [fst snd set_cookie store] in *;
        (split; [exact Hst|]); (split;
        [ intros c [<- | []]; cbn [value]; eapply Forall_impl; [exact Hsid|];
          intros r0 Hb; eapply minted_token_differs; eauto
        | intros E; split; [eauto|]; eapply Forall_impl; [exact Hsid|];
          intros r0 Hb; rewrite E in Hb; cbn in Hb; congruence ]).
Qed.

(** A first visit that posts two events: a token is minted, and the rows
    written carry no session. *)
Lemma first_request_witness :
  exists new,
    Sqlite.events
      (store (ServerA.app (ServerA.post_events Sqlite.no_faults Sample.t_morning)
                (Sample.request_with [] [] Sample.two_events)
                (Sample.fresh (Sqlite.mkDb [] []))).2) = new
    /\ Forall (fun r => Events.session_id r = None) new.
Proof.
  destruct (first_request_rows_carry_no_session Sqlite.no_faults Sample.t_morning
              (Sample.request_with [] [] Sample.two_events)
              (Sample.fresh (Sqlite.mkDb [] [])))
    as [(new & Hst & _ & Hfirst) _].
  - vm_compute. reflexivity.
  - exists new. split; [exact Hst|]. apply Hfirst. reflexivity.
Defined.

(** A store with one event and no result: [quizResults] is the empty list. *)
Lemma empty_aggregation_witness :
  get_opt (ServerA.dashboard_body Sample.utc Sample.t_morning
             (Sqlite.mkDb [Sample.morning_event] [])) "quizResults" = JArr [].
Proof.
  exact (proj1 (empty_aggregation_is_empty_list Sample.utc Sample.t_morning)
           [Sample.morning_event]).
Defined.

End Claims.

(* ================================================================== *)
(** * Further properties of the handlers *)
(* ================================================================== *)

Module ListFacts.
Import Sqlite.

Section Sorting.
Context {R : Type}.
Variable le : R -> R -> bool.

Lemma insert_desc_perm x l : Permutation (insert_desc le x l) (x :: l).
Proof.
  induction l as [|y l IH]; cbn; [reflexivity|].
  destruct (le y x); [reflexivity|].
  rewrite IH. apply perm_swap.
Qed.

Lemma sort_desc_perm l : Permutation (sort_desc le l) l.
Proof.
  induction l as [|x l IH]; cbn; [reflexivity|].
  unfold sort_desc in *. rewrite insert_desc_perm. constructor. exact IH.
Qed.

Lemma sort_desc_length l : length (sort_desc le l) = length l.
Proof. apply Permutation_length, sort_desc_perm. Qed.

Lemma sort_desc_In x l : In x (sort_desc le l) <-> In x l.
Proof.
  split; apply Permutation_in; [|symmetry]; apply sort_desc_perm.
Qed.

Hypothesis le_total : forall a b, le a b = false -> le b a = true.

Lemma insert_desc_sorted x l :
  Sorted (fun a b => le b a = true) l ->
  Sorted (fun a b => le b a = true) (insert_desc le x l).
Proof.
  induction 1 as [|y l Hs IH Hhd]; cbn.
  - repeat constructor.
  - destruct (le y x) eqn:E.
    + constructor; [constructor; assumption|]. constructor. exact E.
    + constructor; [exact IH|].
      destruct l as [|z l]; cbn.
      * constructor. auto.
      * destruct (le z x); constructor; auto.
        inversion Hhd; assumption.
Qed.

Lemma sort_desc_sorted l : Sorted (fun a b => le b a = true) (sort_desc le l).
Proof.
  induction l as [|x l IH]; cbn; [constructor|].
  apply insert_desc_sorted, IH.
Qed.

End Sorting.

Lemma Sorted_weaken {A} (R1 R2 : A -> A -> Prop) l :
  (forall a b, R1 a b -> R2 a b) -> Sorted R1 l -> Sorted R2 l.
Proof.
  intros Himp. induction 1 as [|x l Hs IH Hhd]; constructor; [exact IH|].
  destruct Hhd; constructor; auto.
Qed.

Lemma StronglySorted_app_left {A} (R : A -> A -> Prop) (l1 l2 : list A) :
  StronglySorted R (l1 ++ l2)%list -> StronglySorted R l1.
Proof.
  induction l1 as [|x l1 IH]; cbn; intros Hs; [constructor|].
  apply StronglySorted_inv in Hs as [Hs Hall]. constructor; [apply IH, Hs|].
  apply List.Forall_forall. intros y Hy.
  eapply (proj1 (List.Forall_forall _ _) Hall), in_or_app. left. exact Hy.
Qed.

Lemma StronglySorted_app_between {A} (R : A -> A -> Prop) (l1 l2 : list A) x1 x2 :
  StronglySorted R (l1 ++ l2)%list -> In x1 l1 -> In x2 l2 -> R x1 x2.
Proof.
  induction l1 as [|x l1 IH]; cbn; intros Hs H1 H2; [contradiction|].
  apply StronglySorted_inv in Hs as [Hs Hall]. destruct H1 as [-> | H1].
  - eapply (proj1 (List.Forall_forall _ _) Hall), in_or_app. right. exact H2.
  - apply IH; assumption.
Qed.

Lemma Sorted_drop {A} (R : A -> A -> Prop) n l : Sorted R l -> Sorted R (drop n l).
Proof.
  revert l. induction n as [|n IH]; intros l Hs; [exact Hs|].
  destruct l as [|x l]; [constructor|]. cbn. apply IH. inversion Hs; assumption.
Qed.

Lemma Sorted_take {A} (R : A -> A -> Prop) n l : Sorted R l -> Sorted R (take n l).
Proof.
  revert l. induction n as [|n IH]; intros l Hs; [constructor|].
  destruct l as [|x l]; [constructor|]. cbn.
  inversion Hs as [|? ? Hs' Hhd]; subst. constructor; [apply IH, Hs'|].
  destruct n; [constructor|]. destruct l; [constructor|]. cbn.
  inversion Hhd; subst. constructor. assumption.
Qed.

Lemma limit_offset_sorted {A} (R : A -> A -> Prop) l o (rows : list A) :
  Sorted R rows -> Sorted R (limit_offset l o rows).
Proof.
  intros Hs. unfold limit_offset.
  destruct (l <? 0); [|apply Sorted_take]; apply Sorted_drop, Hs.
Qed.

Lemma limit_offset_In {A} l o (rows : list A) x :
  In x (limit_offset l o rows) -> In x rows.
Proof.
  unfold limit_offset. intros Hin. apply list_elem_of_In in Hin.
  apply list_elem_of_In.
  assert (Hd : elem_of x (drop (Z.to_nat o) rows)).
  { destruct (l <? 0); [exact Hin|].
    eapply (sublist_subseteq _ _ (sublist_take _ _)); exact Hin. }
  eapply (sublist_subseteq _ _ (sublist_drop _ _)); exact Hd.
Qed.

End ListFacts.

Module QueryFacts.
Import JS Http Eff Sqlite Notions.

Lemma leb_total_false (a b : string) :
  String.leb a b = false -> String.leb b a = true.
Proof. destruct (String.leb_total a b) as [E|E]; congruence. Qed.

(** What [stQueryEvents.all] and [stQueryResults.all] return. *)
Lemma stQuery_all_rows {R} (ts : R -> string) lo hi limit offset table rows :
  stQuery_all ts lo hi limit offset table = inr rows ->
  newest_first ts rows
  /\ forall r, In r rows -> In r table /\ where_range ts lo hi r = true.
Proof.
  unfold stQuery_all. destruct offset as [|o]; [discriminate|]. intros [= <-].
  split.
  - apply ListFacts.limit_offset_sorted. unfold order_by_ts_desc.
    apply (ListFacts.sort_desc_sorted (fun a b => String.leb (ts a) (ts b))).
    intros a b. apply leb_total_false.
  - intros r Hin. apply ListFacts.limit_offset_In in Hin.
    unfold order_by_ts_desc in Hin. apply ListFacts.sort_desc_In in Hin.
    apply filter_In in Hin. exact Hin.
Qed.





End QueryFacts.

Module QueryMore.
Import JS Http Eff Sqlite Notions Spec.

Lemma events_page_inv H q d rows :
  ServerA.events_page H q d = inr rows ->
  exists lo hi,
    ServerA.day_bound H (Host.startOf_day H)
      (ServerA.default_to (assoc "start" q) JNull) = inr lo
    /\ ServerA.day_bound H (Host.endOf_day H)
         (ServerA.default_to (assoc "end" q) JNull) = inr hi
    /\ stQuery_all Events.ts lo hi (ServerA.page_params q).1 (ServerA.page_params q).2
         (events d) = inr rows.
Proof.
  unfold ServerA.events_page. destruct (ServerA.page_params q) as [limit offset].
  unfold ebind.
  destruct (ServerA.day_bound H (Host.startOf_day H) _) as [e|lo]; [discriminate|].
  destruct (ServerA.day_bound H (Host.endOf_day H) _) as [e|hi]; [discriminate|].
  intros E. exists lo, hi. auto.
Qed.

Lemma results_page_inv H q d rows :
  ServerA.results_page H q d = inr rows ->
  exists lo hi,
    ServerA.day_bound H (Host.startOf_day H)
      (ServerA.default_to (assoc "start" q) JNull) = inr lo
    /\ ServerA.day_bound H (Host.endOf_day H)
         (ServerA.default_to (assoc "end" q) JNull) = inr hi
    /\ stQuery_all Results.ts lo hi (ServerA.page_params q).1 (ServerA.page_params q).2
         (results d) = inr rows.
Proof.
  unfold ServerA.results_page. destruct (ServerA.page_params q) as [limit offset].
  unfold ebind.
  destruct (ServerA.day_bound H (Host.startOf_day H) _) as [e|lo]; [discriminate|].
  destruct (ServerA.day_bound H (Host.endOf_day H) _) as [e|hi]; [discriminate|].
  intros E. exists lo, hi. auto.
Qed.


End QueryMore.

Module LoopFacts.
Import JS Http Eff Sqlite Notions Spec.

(** A loop throws when one of its turns throws in every world. *)
Lemma for_of_throws {D A} (body : A -> M D unit) (l : list A) (x : A) :
  In x l ->
  (forall w, exists e w', body x w = (inl e, w')) ->
  forall w, exists e w', for_of l body w = (inl e, w').
Proof.
  intros Hin Hx. induction l as [|a l IH]; [destruct Hin|].
  intros w. cbn [for_of]. unfold bind.
  destruct (body a w) as [[e|[]] w1] eqn:E; [eauto|].
  destruct Hin as [-> | Hin].
  - destruct (Hx w) as (e & w' & E'). congruence.
  - apply IH, Hin.
Qed.

(** A property of the store kept by every turn is kept by the loop. *)
Lemma for_of_invariant {D A} (I : D -> Prop) (body : A -> M D unit) (l : list A) :
  (forall a w, I (store w) -> I (store (body a w).2)) ->
  forall w, I (store w) -> I (store (for_of l body w).2).
Proof.
  intros Hbody. induction l as [|a l IH]; intros w Hw; [exact Hw|].
  cbn [for_of]. unfold bind. specialize (Hbody a w Hw).
  destruct (body a w) as [[e|[]] w1]; cbn in *; [exact Hbody|].
  apply IH, Hbody.
Qed.

Lemma for_of_app {D A} (body : A -> M D unit) (l1 l2 : list A) (w : world D) :
  for_of (l1 ++ l2) body w
  = match for_of l1 body w with
    | (inr _, w1) => for_of l2 body w1
    | (inl e, w1) => (inl e, w1)
    end.
Proof.
  revert w. induction l1 as [|a l1 IH]; intros w; cbn [for_of app].
  - reflexivity.
  - unfold bind. destruct (body a w) as [[e|[]] w1]; [reflexivity|]. apply IH.
Qed.

Lemma unreadable_resolve it :
  it = JNull \/ it = JUndefined -> ServerA.resolve_page it = inl TypeError.
Proof. intros [-> | ->]; reflexivity. Qed.

Lemma readable_get it k : readable it -> get it k = inr (get_opt it k).
Proof. intros [Hn Hu]. destruct it; try reflexivity; congruence. Qed.


(** [stInsertEvent.run] appends a row whose id was not in the table, or
    throws and leaves the world as it was. *)
Lemma stInsertEvent_run_fresh F r (w : world db) :
  match stInsertEvent_run F r w with
  | (inr _, w') =>
      store w' = mkDb (events (store w) ++ [r]) (results (store w))
      /\ ~ In (Events.id r) (List.map Events.id (events (store w)))
  | (inl _, w') => w' = w
  end.
Proof.
  unfold stInsertEvent_run.
  destruct (existsb _ _) eqn:Ex; cbn; [reflexivity|].
  destruct (event_fails F (store w) r); cbn; [reflexivity|].
  split; [reflexivity|]. intros Hin. apply in_map_iff in Hin as (x & Hid & Hx).
  assert (existsb (fun x => String.eqb (Events.id x) (Events.id r))
            (events (store w)) = true).
  { apply existsb_exists. exists x. split; [exact Hx|]. apply String.eqb_eq, Hid. }
  congruence.
Qed.

Lemma stInsertResult_run_fresh F r (w : world db) :
  match stInsertResult_run F r w with
  | (inr _, w') =>
      store w' = mkDb (events (store w)) (results (store w) ++ [r])
      /\ ~ In (Results.id r) (List.map Results.id (results (store w)))
  | (inl _, w') => w' = w
  end.
Proof.
  unfold stInsertResult_run.
  destruct (existsb _ _) eqn:Ex; cbn; [reflexivity|].
  destruct (result_fails F (store w) r); cbn; [reflexivity|].
  split; [reflexivity|]. intros Hin. apply in_map_iff in Hin as (x & Hid & Hx).
  assert (existsb (fun x => String.eqb (Results.id x) (Results.id r))
            (results (store w)) = true).
  { apply existsb_exists. exists x. split; [exact Hx|]. apply String.eqb_eq, Hid. }
  congruence.
Qed.

Lemma NoDup_snoc {A} (l : list A) (x : A) : NoDup l -> ~ In x l -> NoDup (l ++ [x]).
Proof.
  intros Hl Hx. apply NoDup_app. split; [exact Hl|]. split.
  - intros y Hy Hin. apply list_elem_of_In in Hy.
    apply list_elem_of_In in Hin. destruct Hin as [-> | []]. contradiction.
  - repeat constructor. intros Hin. inversion Hin.
Qed.

(** A turn of the loop of the first program keeps the ids distinct. *)
Lemma insert_item_keeps_ids F now sidv ip it (w : world db) :
  NoDup (List.map Events.id (events (store w))) ->
  NoDup (List.map Events.id
           (events (store (ServerA.insert_item F now sidv ip it w).2))).
Proof.
  intros Hnd. unfold ServerA.insert_item, bind, lift, throw, ret, nanoid.
  destruct (ServerA.resolve_page it); [exact Hnd|].
  destruct (ServerA.resolve_type it); [exact Hnd|].
  destruct (ServerA.resolve_payload it); [exact Hnd|].
  cbn [store nanoid_source drawn].
  destruct (bind_text sidv); [exact Hnd|].
  match goal with |- context [stInsertEvent_run F ?r ?w'] =>
    pose proof (stInsertEvent_run_fresh F r w') as Hrun;
    destruct (stInsertEvent_run F r w') as [[e|[]] w2] end.
  - subst w2. exact Hnd.
  - destruct Hrun as [Hst Hfresh]. cbn [snd]. rewrite Hst.
    cbn [events store] in *. rewrite map_app. cbn [List.map].
    apply NoDup_snoc; assumption.
Qed.

End LoopFacts.

Module RenderFacts.
Import JS Http Eff Notions Spec.




End RenderFacts.

Module MirrorFacts.
Import JS Http Eff Sqlite Notions Spec.

(** One turn of the loop of the mirrored program: the row written to
    SQLite is the row handed to Supabase, or the turn throws and both are
    as before. *)
Lemma mirror_insert_item_run S F now sidv ip it (w : world Mirror.stores) :
  match Mirror.insert_item S F now sidv ip it w with
  | (inr _, w') =>
      exists r,
        Mirror.local (store w')
        = mkDb (events (Mirror.local (store w)) ++ [r])
            (results (Mirror.local (store w)))
        /\ Mirror.sent_events (store w')
           = (Mirror.sent_events (store w) ++ (if S then [r] else []))%list
        /\ Mirror.sent_results (store w') = Mirror.sent_results (store w)
  | (inl _, w') => store w' = store w
  end.
Proof.
  unfold Mirror.insert_item, bind, lift, throw, ret, nanoid.
  destruct (ServerA.resolve_page it); [reflexivity|].
  destruct (ServerA.resolve_type it); [reflexivity|].
  destruct (ServerA.resolve_payload it); [reflexivity|].
  cbn [store nanoid_source drawn].
  destruct (bind_text sidv); [reflexivity|].
  unfold Mirror.on_local, stInsertEvent_run. cbn [store nanoid_source drawn].
  destruct (_ || _).
  - cbn. destruct (store w); reflexivity.
  - unfold Mirror.supabaseOps_insertEvent. cbn.
    destruct S; cbn; eexists; (split; [reflexivity|]); cbn;
      rewrite ?app_nil_r; auto.
Qed.

Lemma mirror_insert_items_run S F now sidv ip items : forall (w : world Mirror.stores),
  exists new,
    Mirror.sent_events (store (for_of items (Mirror.insert_item S F now sidv ip) w).2)
    = (Mirror.sent_events (store w) ++ (if S then new else []))%list
    /\ Mirror.sent_results
         (store (for_of items (Mirror.insert_item S F now sidv ip) w).2)
       = Mirror.sent_results (store w)
    /\ (length new <= length items)%nat
    /\ match (for_of items (Mirror.insert_item S F now sidv ip) w).1 with
       | inr _ =>
           Mirror.local
             (store (for_of items (Mirror.insert_item S F now sidv ip) w).2)
           = mkDb (events (Mirror.local (store w)) ++ new)
               (results (Mirror.local (store w)))
           /\ length new = length items
       | inl _ => True
       end.
Proof.
  induction items as [|it items IH]; intros w; cbn [for_of].
  - exists []. unfold ret. cbn. destruct S; rewrite !app_nil_r;
      destruct (Mirror.local (store w)); auto.
  - unfold bind. pose proof (mirror_insert_item_run S F now sidv ip it w) as H1.
    destruct (Mirror.insert_item S F now sidv ip it w) as [[e|[]] w1].
    + exists []. cbn. rewrite H1. destruct S; rewrite !app_nil_r; auto with lia.
    + destruct H1 as (r & Hloc & Hsent & Hres).
      destruct (IH w1) as (new & Hs2 & Hr2 & Hlen & Hok).
      exists (r :: new). rewrite Hs2, Hsent, Hr2, Hres.
      split; [destruct S; cbn; rewrite <- ?app_assoc; reflexivity|].
      split; [reflexivity|]. split; [cbn; lia|].
      destruct (for_of items _ w1) as [[e|[]] w2]; cbn in *; [exact I|].
      destruct Hok as [Hl2 Hn]. rewrite Hl2, Hloc. cbn.
      rewrite <- app_assoc. auto.
Qed.

Lemma batch_of_array req l :
  ServerA.batch_items (body (with_body req (JObj [("batch", JArr l)])) ||| JObj [])
  = l.
Proof. reflexivity. Qed.

(** The batch of the mirrored program: what reaches Supabase and what
    reaches SQLite. *)
Lemma mirror_batch_run S F now req (w : world Mirror.stores) :
  let x := Mirror.post_events S F now req w in
  let items := ServerA.batch_items (body req ||| JObj []) in
  exists new,
    Mirror.sent_events (store_after x)
    = (Mirror.sent_events (store w) ++ (if S then new else []))%list
    /\ Mirror.sent_results (store_after x) = Mirror.sent_results (store w)
    /\ ((status (answer x) = 200
         /\ Mirror.local (store_after x)
            = mkDb (events (Mirror.local (store w)) ++ new)
                (results (Mirror.local (store w)))
         /\ length new = length items)
        \/ (status (answer x) = 500
            /\ Mirror.local (store_after x) = Mirror.local (store w)
            /\ (length new <= length items)%nat)).
Proof.
  cbv zeta.
  unfold Mirror.post_events, try_catch, bind, Mirror.transaction, answer, store_after.
  destruct (mirror_insert_items_run S F (Time.toISOString now)
              (assoc "session_id" (cookies req)) (ServerA.client_ip req)
              (ServerA.batch_items (body req ||| JObj [])) w)
    as (new & Hsent & Hres & Hlen & Hok).
  destruct (for_of _ _ w) as [[e|[]] w1]; cbn in *.
  - exists new. split; [exact Hsent|]. split; [exact Hres|]. right. auto.
  - exists new. split; [exact Hsent|]. split; [exact Hres|]. left.
    destruct Hok. auto.
Qed.

End MirrorFacts.

Module GroupFacts.
Import Sqlite Notions.

Section Groups.
Context {K : Type} `{EqDecision K}.

Lemma occurrences_snoc (k x : K) (l : list K) :
  occurrences k (l ++ [x]) = occurrences k l + (if decide (x = k) then 1 else 0).
Proof.
  unfold occurrences. rewrite List.filter_app, length_app. cbn.
  destruct (decide (x = k)) as [E|E]; [rewrite bool_decide_true by exact E
                                      | rewrite bool_decide_false by exact E];
    cbn; lia.
Qed.

Lemma occurrences_absent (k : K) (l : list K) : ~ In k l -> occurrences k l = 0.
Proof.
  intros Hn. unfold occurrences. induction l as [|x l IH]; [reflexivity|].
  cbn. rewrite bool_decide_false.
  - apply IH. intros Hin. apply Hn. right. exact Hin.
  - intros ->. apply Hn. left. reflexivity.
Qed.

Lemma occurrences_present (k : K) (l : list K) : In k l -> 0 < occurrences k l.
Proof.
  intros Hin. unfold occurrences. induction l as [|x l IH]; [destruct Hin|].
  cbn. destruct (decide (x = k)) as [E|E].
  - rewrite bool_decide_true by exact E. cbn. lia.
  - rewrite bool_decide_false by exact E. apply IH.
    destruct Hin; [contradiction | assumption].
Qed.

Lemma bump_absent k (acc : list (K * Z)) :
  ~ In k (List.map fst acc) -> bump k acc = (acc ++ [(k, 1)])%list.
Proof.
  induction acc as [|[k' n] acc IH]; intros Hn; [reflexivity|].
  cbn. destruct (decide (k = k')) as [->|E].
  - exfalso. apply Hn. left. reflexivity.
  - f_equal. apply IH. intros Hin. apply Hn. right. exact Hin.
Qed.

Lemma bump_keys k (acc : list (K * Z)) :
  In k (List.map fst acc) -> List.map fst (bump k acc) = List.map fst acc.
Proof.
  induction acc as [|[k' n] acc IH]; intros Hin; [destruct Hin|].
  cbn. destruct (decide (k = k')) as [->|E]; [reflexivity|].
  cbn. f_equal. apply IH. destruct Hin as [Hin|Hin]; [cbn in Hin; congruence|exact Hin].
Qed.

Lemma bump_In k (acc : list (K * Z)) k0 n0 :
  NoDup (List.map fst acc) -> In k (List.map fst acc) ->
  In (k0, n0) (bump k acc) ->
  (k0 <> k /\ In (k0, n0) acc) \/ (k0 = k /\ In (k, n0 - 1) acc).
Proof.
  induction acc as [|[k' n] acc IH]; intros Hnd Hin Hb; [destruct Hin|].
  cbn in Hnd. apply NoDup_cons in Hnd as [Hk' Hnd].
  cbn in Hb. destruct (decide (k = k')) as [->|E].
  - destruct Hb as [[= <- <-] | Hb].
    + right. split; [reflexivity|]. left. f_equal. lia.
    + left. split; [|right; exact Hb]. intros ->. apply Hk'.
      apply list_elem_of_In, in_map_iff. exists (k', n0). auto.
  - destruct Hb as [[= <- <-] | Hb].
    + left. split; [congruence | left; reflexivity].
    + destruct Hin as [Hin|Hin]; [cbn in Hin; congruence|].
      destruct (IH Hnd Hin Hb) as [[Hne Hi] | [He Hi]]; [left | right];
        (split; [assumption | right; assumption]).
Qed.

Lemma bump_total k (acc : list (K * Z)) : total_count (bump k acc) = total_count acc + 1.
Proof.
  unfold total_count. induction acc as [|[k' n] acc IH]; [reflexivity|].
  cbn. destruct (decide (k = k')); cbn; lia.
Qed.

Lemma counts_bump (seen : list K) (acc : list (K * Z)) (k : K) :
  counts_of seen acc -> counts_of (seen ++ [k]) (bump k acc).
Proof.
  intros (Hnd & Hcnt & Hall & Htot).
  destruct (In_dec (fun a b => decide (a = b)) k (List.map fst acc)) as [Hin|Hn].
  - split; [rewrite bump_keys by exact Hin; exact Hnd|]. split; [|split].
    + intros k0 n0 Hb.
      destruct (bump_In k acc k0 n0 Hnd Hin Hb) as [[Hne Hi] | [-> Hi]].
      * destruct (Hcnt _ _ Hi) as [-> Hs]. rewrite occurrences_snoc.
        rewrite decide_False by congruence. split; [lia|].
        apply in_or_app. left. exact Hs.
      * destruct (Hcnt _ _ Hi) as [Ho Hs]. rewrite occurrences_snoc.
        rewrite decide_True by reflexivity. split; [lia|].
        apply in_or_app. left. exact Hs.
    + intros k0 Hk0. rewrite bump_keys by exact Hin.
      apply in_app_or in Hk0 as [Hk0 | [<- | []]]; [apply Hall, Hk0 | exact Hin].
    + rewrite bump_total, Htot, length_app. cbn. lia.
  - rewrite bump_absent by exact Hn.
    assert (Hns : ~ In k seen) by (intros Hs; apply Hn, Hall, Hs).
    split; [|split; [|split]].
    + rewrite map_app. cbn. apply LoopFacts.NoDup_snoc; assumption.
    + intros k0 n0 Hi. apply in_app_or in Hi as [Hi | [[= <- <-] | []]].
      * destruct (Hcnt _ _ Hi) as [-> Hs]. rewrite occurrences_snoc.
        rewrite decide_False by (intros ->; contradiction).
        split; [lia|]. apply in_or_app. left. exact Hs.
      * rewrite occurrences_snoc, occurrences_absent by exact Hns.
        rewrite decide_True by reflexivity. split; [reflexivity|].
        apply in_or_app. right. left. reflexivity.
    + intros k0 Hk0. rewrite map_app. apply in_or_app.
      apply in_app_or in Hk0 as [Hk0 | [<- | []]]; [left; apply Hall, Hk0|].
      right. left. reflexivity.
    + unfold total_count in *. rewrite map_app, fold_right_app. cbn.
      rewrite length_app. cbn.
      assert (Hf : forall (l : list Z) z, fold_right Z.add z l = fold_right Z.add 0 l + z).
      { induction l as [|x l IHl]; intros z; cbn; [lia|]. rewrite IHl. lia. }
      rewrite Hf, Htot. lia.
Qed.

Lemma counts_group_count (keys : list K) : counts_of keys (group_count keys).
Proof.
  unfold group_count.
  assert (Hgen : forall (rest seen : list K) (acc : list (K * Z)),
             counts_of seen acc ->
             counts_of (seen ++ rest) (fold_left (fun acc k => bump k acc) rest acc)).
  { induction rest as [|k rest IH]; intros seen acc Hc; cbn.
    - rewrite app_nil_r. exact Hc.
    - replace (seen ++ k :: rest)%list with ((seen ++ [k]) ++ rest)%list
        by (rewrite <- app_assoc; reflexivity).
      apply IH, counts_bump, Hc. }
  apply (Hgen keys [] []).
  split; [constructor|]. split; [intros k n []|]. split; [intros k []|reflexivity].
Qed.

Lemma insert_count_desc_eq (x : K * Z) l :
  insert_count_desc x l = insert_desc (fun a b => a.2 <=? b.2) x l.
Proof. induction l as [|y l IH]; cbn; [reflexivity|]. rewrite IH. reflexivity. Qed.

Lemma order_by_count_desc_eq (l : list (K * Z)) :
  order_by_count_desc l = sort_desc (fun a b => a.2 <=? b.2) l.
Proof.
  unfold order_by_count_desc, sort_desc. induction l as [|x l IH]; cbn; [reflexivity|].
  rewrite IH. apply insert_count_desc_eq.
Qed.

Lemma order_by_count_desc_perm (l : list (K * Z)) :
  Permutation (order_by_count_desc l) l.
Proof. rewrite order_by_count_desc_eq. apply ListFacts.sort_desc_perm. Qed.

Lemma order_by_count_desc_sorted (l : list (K * Z)) :
  largest_first (order_by_count_desc l).
Proof.
  unfold largest_first. rewrite order_by_count_desc_eq.
  apply Sorted_StronglySorted; [intros a b c; lia|].
  eapply ListFacts.Sorted_weaken;
    [|apply (ListFacts.sort_desc_sorted (fun a b : K * Z => a.2 <=? b.2))].
  - intros a b Hab. apply Z.leb_le, Hab.
  - intros a b Hab. apply Z.leb_le. apply Z.leb_gt in Hab. lia.
Qed.

Lemma total_count_perm (g g' : list (K * Z)) :
  Permutation g g' -> total_count g = total_count g'.
Proof.
  unfold total_count. induction 1; cbn; lia.
Qed.

Lemma counts_of_perm (column : list K) (g g' : list (K * Z)) :
  Permutation g g' -> counts_of column g -> counts_of column g'.
Proof.
  intros Hp (Hnd & Hcnt & Hall & Htot). split; [|split; [|split]].
  - assert (Hp' : Permutation (List.map fst g) (List.map fst g')) by apply Permutation_map, Hp.
    rewrite <- Hp'. exact Hnd.
  - intros k n Hin. apply Hcnt. eapply Permutation_in; [symmetry; exact Hp | exact Hin].
  - intros k Hk. eapply Permutation_in; [apply Permutation_map, Hp | apply Hall, Hk].
  - rewrite <- (total_count_perm _ _ Hp). exact Htot.
Qed.

(** The grouping of a column, largest count first. *)
Lemma ranking (column : list K) :
  counts_of column (order_by_count_desc (group_count column))
  /\ largest_first (order_by_count_desc (group_count column)).
Proof.
  split; [|apply order_by_count_desc_sorted].
  eapply counts_of_perm; [symmetry; apply order_by_count_desc_perm|].
  apply counts_group_count.
Qed.

(** The first [n] groups of a ranking are the most frequent ones. *)
Lemma top_of_ranking (column : list K) (n : nat) :
  let top := take n (order_by_count_desc (group_count column)) in
  (length top <= n)%nat
  /\ largest_first top
  /\ (forall k c, In (k, c) top -> c = occurrences k column /\ 0 < c)
  /\ (forall k, In k column -> ~ In k (List.map fst top) ->
                forall k' c', In (k', c') top -> occurrences k column <= c').
Proof.
  cbv zeta. destruct (ranking column) as [(Hnd & Hcnt & Hall & Htot) Hsorted].
  set (sorted := order_by_count_desc (group_count column)) in *.
  assert (Hsplit : sorted = (take n sorted ++ drop n sorted)%list)
    by (symmetry; apply take_drop).
  split; [rewrite length_take; lia|]. split; [|split].
  - unfold largest_first in *. rewrite Hsplit in Hsorted.
    eapply ListFacts.StronglySorted_app_left, Hsorted.
  - intros k c Hin.
    assert (Hin' : In (k, c) sorted).
    { rewrite Hsplit. apply in_or_app. left. exact Hin. }
    destruct (Hcnt _ _ Hin') as [-> Hk]. split; [reflexivity|].
    apply occurrences_present, Hk.
  - intros k Hk Hnot k' c' Hin'.
    apply Hall, in_map_iff in Hk as ([k0 c] & Hfst & Hin). cbn in Hfst. subst k0.
    destruct (Hcnt _ _ Hin) as [Hc _].
    rewrite Hsplit in Hin. apply in_app_or in Hin as [Hin | Hin].
    + exfalso. apply Hnot, in_map_iff. exists (k, c). auto.
    + unfold largest_first in Hsorted. rewrite Hsplit in Hsorted.
      pose proof (ListFacts.StronglySorted_app_between _ _ _ (k', c') (k, c) Hsorted Hin' Hin) as Hle.
      rewrite <- Hc. exact Hle.
Qed.

End Groups.

End GroupFacts.

Module CountFacts.
Import Sqlite Notions.

Lemma size_list_to_set_le (l : list string) :
  (size (list_to_set l : gset string) <= length l)%nat.
Proof.
  induction l as [|x l IH]; [cbn; rewrite size_empty; lia|].
  cbn [list_to_set length]. rewrite size_union_alt, size_singleton.
  assert (Hsub : subseteq (difference (list_to_set l) (singleton x) : gset string)
                         (list_to_set l)).
  { intros y Hy. apply elem_of_difference in Hy. tauto. }
  apply subseteq_size in Hsub. lia.
Qed.

Lemma length_omap_le {A B} (f : A -> option B) (l : list A) :
  (length (omap f l) <= length l)%nat.
Proof.
  induction l as [|x l IH]; [cbn; lia|]. cbn. destruct (f x); cbn; lia.
Qed.

(** NULL apart, there are no more distinct values than rows. *)
Lemma count_distinct_le_length (l : list (option string)) :
  0 <= count_distinct l <= Z.of_nat (length l).
Proof.
  unfold count_distinct.
  pose proof (size_list_to_set_le (omap (fun x => x) l)).
  pose proof (length_omap_le (fun x : option string => x) l). lia.
Qed.

(** Fewer rows, no more distinct values. *)
Lemma count_distinct_mono (l1 l2 : list (option string)) :
  (forall x, In x l1 -> In x l2) -> count_distinct l1 <= count_distinct l2.
Proof.
  intros Hsub. unfold count_distinct. apply inj_le, subseteq_size.
  intros s Hs. apply elem_of_list_to_set in Hs. apply elem_of_list_to_set.
  apply list_elem_of_omap in Hs as (o & Ho & Heq).
  apply list_elem_of_omap. exists o. split; [|exact Heq].
  apply list_elem_of_In, Hsub, list_elem_of_In, Ho.
Qed.

Lemma filter_length_le {A} (p : A -> bool) (l : list A) :
  (length (List.filter p l) <= length l)%nat.
Proof. induction l as [|x l IH]; cbn; [lia|]. destruct (p x); cbn; lia. Qed.

Lemma map_filter_In {A B} (f : A -> B) (p : A -> bool) (l : list A) x :
  In x (List.map f (List.filter p l)) -> In x (List.map f l).
Proof.
  intros Hin. apply in_map_iff in Hin as (a & <- & Ha).
  apply in_map. apply filter_In in Ha. tauto.
Qed.

End CountFacts.

Module TrackerFacts.
Import JS Http Eff Notions Spec.

Lemma max_id_snoc (rows : list Tracker.event_row) (r : Tracker.event_row) :
  fold_right Z.max 0 (List.map Tracker.id (rows ++ [r]))
  = Z.max (fold_right Z.max 0 (List.map Tracker.id rows)) (Tracker.id r).
Proof.
  induction rows as [|x rows IH]; cbn; [lia|]. cbn in IH. rewrite IH. lia.
Qed.

(** AUTOINCREMENT after a row that took the next id. *)
Lemma next_id_snoc (rows : list Tracker.event_row) (r : Tracker.event_row) :
  Tracker.id r = Tracker.next_id rows ->
  Tracker.next_id (rows ++ [r]) = 1 + Tracker.next_id rows.
Proof.
  unfold Tracker.next_id. intros Hid. rewrite max_id_snoc, Hid. lia.
Qed.

Lemma next_id_above (rows : list Tracker.event_row) :
  0 < Tracker.next_id rows
  /\ forall r, In r rows -> Tracker.id r < Tracker.next_id rows.
Proof.
  unfold Tracker.next_id. induction rows as [|x rows [IH0 IH]]; cbn.
  - split; [lia|]. intros r [].
  - split; [lia|]. intros r [-> | Hin]; [lia|]. specialize (IH r Hin). lia.
Qed.

(** One turn of the loop of the tracker program: one row appended, under
    the next id, or a throw that leaves the store as it was. *)
Lemma tracker_insert_row_run F clock kr (w : world Tracker.db) :
  match Tracker.insert_row F clock kr w with
  | (inr _, w') =>
      exists r,
        store w'
        = Tracker.mkDb (Tracker.events (store w) ++ [r]) (Tracker.results (store w))
        /\ Tracker.id r = Tracker.next_id (Tracker.events (store w))
  | (inl _, w') => store w' = store w
  end.
Proof.
  destruct kr as [k r]. unfold Tracker.insert_row, bind, lift, throw, ret.
  repeat match goal with
         | |- context [get r ?f] => destruct (get r f); [reflexivity|]
         end.
  repeat match goal with
         | |- context [Sqlite.bind_text ?v] =>
             destruct (Sqlite.bind_text v); [reflexivity|]
         end.
  unfold Tracker.stmt_run. destruct (F _ _); [reflexivity|].
  eexists. split; reflexivity.
Qed.

(** The loop of the tracker program, when it completes. *)
Lemma tracker_insert_rows_run F clock l : forall (w : world Tracker.db),
  match for_of l (Tracker.insert_row F clock) w with
  | (inr _, w') =>
      exists new,
        store w'
        = Tracker.mkDb (Tracker.events (store w) ++ new) (Tracker.results (store w))
        /\ length new = length l
        /\ StronglySorted (fun a b => Tracker.id a < Tracker.id b) new
        /\ (forall r, In r new -> Tracker.next_id (Tracker.events (store w)) <= Tracker.id r)
  | (inl _, _) => True
  end.
Proof.
  induction l as [|kr l IH]; intros w; cbn [for_of].
  - unfold ret. exists []. rewrite app_nil_r. destruct (store w).
    repeat split; [constructor | intros r []].
  - unfold bind. pose proof (tracker_insert_row_run F clock kr w) as H1.
    destruct (Tracker.insert_row F clock kr w) as [[e|[]] w1]; [exact I|].
    destruct H1 as (r & Hst & Hid). specialize (IH w1).
    destruct (for_of l _ w1) as [[e|[]] w2]; [exact I|].
    destruct IH as (new & Hst2 & Hlen & Hsorted & Hnew).
    rewrite Hst in Hst2, Hnew. cbn [Tracker.events Tracker.results] in Hst2, Hnew.
    rewrite (next_id_snoc _ _ Hid) in Hnew.
    exists (r :: new). rewrite Hst2, <- app_assoc. split; [reflexivity|].
    split; [cbn; lia|]. split.
    + constructor; [exact Hsorted|]. apply List.Forall_forall.
      intros r' Hr'. specialize (Hnew r' Hr'). lia.
    + intros r' [<- | Hr']; [lia|]. specialize (Hnew r' Hr'). lia.
Qed.

End TrackerFacts.

Module OrderFacts.
Import Sqlite Notions.

Lemma compare_trans_le (a b c : string) :
  String.compare a b <> Gt -> String.compare b c <> Gt -> String.compare a c <> Gt.
Proof.
  revert b c. induction a as [|x a IH]; intros [|y b] [|z c]; cbn;
    try congruence.
  unfold Ascii.compare.
  destruct (N.compare_spec (N_of_ascii x) (N_of_ascii y)) as [E1|E1|E1];
    destruct (N.compare_spec (N_of_ascii y) (N_of_ascii z)) as [E2|E2|E2];
    destruct (N.compare_spec (N_of_ascii x) (N_of_ascii z)) as [E3|E3|E3];
    try congruence; try lia.
  apply IH.
Qed.

Lemma leb_trans (a b c : string) :
  String.leb a b = true -> String.leb b c = true -> String.leb a c = true.
Proof.
  unfold String.leb. intros H1 H2.
  pose proof (compare_trans_le a b c) as Ht.
  destruct (String.compare a b), (String.compare b c), (String.compare a c);
    try reflexivity; try discriminate; exfalso; apply Ht; congruence.
Qed.

(** The first [n] rows of [ORDER BY ts DESC]: newest first, rows of the
    table, and no row left out is newer than one of them. *)
Lemma newest_rows {R} (ts : R -> string) (n : nat) (rows : list R) :
  let listed := take n (order_by_ts_desc ts rows) in
  length listed = Nat.min n (length rows)
  /\ newest_first ts listed
  /\ (forall r, In r listed -> In r rows)
  /\ (forall r, In r rows -> ~ In r listed ->
                forall r', In r' listed -> String.leb (ts r) (ts r') = true).
Proof.
  cbv zeta. unfold order_by_ts_desc.
  set (le := fun a b : R => String.leb (ts a) (ts b)).
  assert (Hs : Sorted (fun a b => le b a = true) (sort_desc le rows)).
  { apply ListFacts.sort_desc_sorted. intros a b E. unfold le in *.
    destruct (String.leb_total (ts a) (ts b)); congruence. }
  split; [rewrite length_take, ListFacts.sort_desc_length; reflexivity|].
  split; [apply ListFacts.Sorted_take, Hs|].
  split.
  - intros r Hin. apply (ListFacts.sort_desc_In le).
    apply list_elem_of_In. apply list_elem_of_In in Hin.
    eapply sublist_subseteq; [apply sublist_take | exact Hin].
  - intros r Hr Hnot r' Hr'.
    apply Sorted.Sorted_StronglySorted in Hs.
    2:{ intros x y z Hxy Hyz. unfold le in *. eapply leb_trans; eauto. }
    rewrite <- (take_drop n (sort_desc le rows)) in Hs.
    apply (ListFacts.sort_desc_In le) in Hr.
    rewrite <- (take_drop n (sort_desc le rows)) in Hr.
    apply in_app_or in Hr as [Hr | Hr]; [contradiction|].
    exact (ListFacts.StronglySorted_app_between _ _ _ r' r Hs Hr' Hr).
Qed.

End OrderFacts.

Module KeyFacts.
Import Sqlite Notions.

Lemma insert_key_asc_perm x l : Permutation (insert_key_asc x l) (x :: l).
Proof.
  induction l as [|y l IH]; cbn; [reflexivity|].
  destruct (null_first_leb x.1 y.1); [reflexivity|].
  rewrite IH. apply perm_swap.
Qed.

Lemma order_by_key_asc_perm l : Permutation (order_by_key_asc l) l.
Proof.
  induction l as [|x l IH]; cbn; [reflexivity|].
  unfold order_by_key_asc in *. rewrite insert_key_asc_perm. constructor. exact IH.
Qed.

Lemma null_first_leb_total a b :
  null_first_leb a b = false -> null_first_leb b a = true.
Proof.
  destruct a as [x|], b as [y|]; cbn; try congruence.
  destruct (String.leb_total x y); congruence.
Qed.

Lemma insert_key_asc_sorted x l : keys_ascending l -> keys_ascending (insert_key_asc x l).
Proof.
  unfold keys_ascending. induction 1 as [|y l Hs IH Hhd]; cbn.
  - repeat constructor.
  - destruct (null_first_leb x.1 y.1) eqn:E.
    + constructor; [constructor; assumption|]. constructor. exact E.
    + constructor; [exact IH|]. apply null_first_leb_total in E.
      destruct l as [|z l]; cbn.
      * constructor. exact E.
      * destruct (null_first_leb x.1 z.1); constructor; auto.
        inversion Hhd; assumption.
Qed.

Lemma order_by_key_asc_sorted l : keys_ascending (order_by_key_asc l).
Proof.
  induction l as [|x l IH]; cbn; [constructor|].
  apply insert_key_asc_sorted, IH.
Qed.

End KeyFacts.

Module SessionFacts.
Import JS Http Eff Sqlite Notions Spec.

Lemma truthy_readable v : truthy v = true -> readable v.
Proof. destruct v; cbn; intros; split; congruence. Qed.

Lemma js_or_readable a b : readable b -> readable (a ||| b).
Proof.
  intros Hb. unfold js_or. destruct (truthy a) eqn:E; [|exact Hb].
  apply truthy_readable, E.
Qed.

Lemma bind_text_readable v o : readable v -> bind_text v = inr o -> o <> None.
Proof. intros [H1 H2]. destruct v; cbn; congruence. Qed.

Lemma bind_text_truthy v o :
  truthy v = true -> bind_text v = inr o -> exists s, o = Some s /\ s <> "".
Proof.
  destruct v as [| | b | n | s | l | ps]; cbn; try congruence.
  - intros _ [= <-]. eexists. split; [reflexivity|].
    destruct (Z_to_string n); discriminate.
  - intros Hs [= <-]. exists s. split; [reflexivity|].
    intros ->. discriminate.
Qed.

(** One turn of the loop of the third program: one row appended, with a
    session that is not NULL, or a throw that leaves the store as it was. *)
Lemma third_insert_item_run F now sid ip e (w : world db) :
  readable sid ->
  match ServerC.insert_item F now sid ip e w with
  | (inr _, w') =>
      exists r,
        store w' = mkDb (events (store w) ++ [r]) (results (store w))
        /\ Events.session_id r <> None
  | (inl _, w') => store w' = store w
  end.
Proof.
  intros Hsid. unfold ServerC.insert_item, bind, lift, throw, ret, nanoid.
  cbn [store nanoid_source drawn].
  repeat match goal with
         | |- context [get e ?f] => destruct (get e f); [reflexivity|]
         end.
  destruct (bind_text (_ ||| JStr now)) as [|ts0]; [reflexivity|].
  destruct (bind_text (_ ||| sid)) as [|sid0] eqn:Eo; [reflexivity|].
  apply bind_text_readable in Eo; [|apply js_or_readable, Hsid].
  unfold stInsertEvent_run. cbn [store nanoid_source drawn].
  destruct (_ || _); [reflexivity|].
  eexists. split; [reflexivity|]. exact Eo.
Qed.

End SessionFacts.

Module Extras.
Import JS Http Eff Sqlite Notions Spec.

(** X1: the rows read by GET /api/events and GET /api/results of the
    first program of src/server.js come newest first, each of them is a
    row of the table, and each lies within the two bounds bound to the
    statement. *)
Theorem page_is_newest_first_and_in_range (H : Host.t) q (d : db) :
  (forall rows,
      ServerA.events_page H q d = inr rows ->
      newest_first Events.ts rows
      /\ exists lo hi,
           ServerA.day_bound H (Host.startOf_day H)
             (ServerA.default_to (assoc "start" q) JNull) = inr lo
           /\ ServerA.day_bound H (Host.endOf_day H)
                (ServerA.default_to (assoc "end" q) JNull) = inr hi
           /\ forall r, In r rows ->
                        In r (events d) /\ where_range Events.ts lo hi r = true)
  /\ (forall rows,
         ServerA.results_page H q d = inr rows ->
         newest_first Results.ts rows
         /\ exists lo hi,
              ServerA.day_bound H (Host.startOf_day H)
                (ServerA.default_to (assoc "start" q) JNull) = inr lo
              /\ ServerA.day_bound H (Host.endOf_day H)
                   (ServerA.default_to (assoc "end" q) JNull) = inr hi
              /\ forall r, In r rows ->
                           In r (results d) /\ where_range Results.ts lo hi r = true).
Proof.
  split; intros rows E.
  - apply QueryMore.events_page_inv in E as (lo & hi & Hlo & Hhi & E).
    apply QueryFacts.stQuery_all_rows in E as [Hs Hin]. split; [exact Hs|].
    exists lo, hi. auto.
  - apply QueryMore.results_page_inv in E as (lo & hi & Hlo & Hhi & E).
    apply QueryFacts.stQuery_all_rows in E as [Hs Hin]. split; [exact Hs|].
    exists lo, hi. auto.
Qed.

(** Two events, the later one first. *)
Lemma page_is_newest_first_witness :
  newest_first Events.ts [later_event; Sample.morning_event].
Proof.
  apply (proj1 (page_is_newest_first_and_in_range Sample.utc [] two_rows)).
  vm_compute. reflexivity.
Defined.





(** X4: a date filter that dayjs cannot read makes GET /api/events and
    GET /api/results answer 500: [toISOString] throws on the invalid date
    and the catch of the handler turns it into the error envelope.  The
    store is not touched. *)
Theorem unreadable_date_is_a_500 (H : Host.t) (req : request) (w : world db) :
  let start := ServerA.default_to (assoc "start" (query req)) JNull in
  let end_ := ServerA.default_to (assoc "end" (query req)) JNull in
  (truthy start = true /\ Host.dayjs H start = None)
  \/ (truthy end_ = true /\ Host.dayjs H end_ = None) ->
  ServerA.get_events H req w
  = (inr (error 500 "Failed to fetch events from database."), w)
  /\ ServerA.get_results H req w
     = (inr (error 500 "Failed to fetch quiz results from database."), w).
Proof.
  cbv zeta. intros Hbad.
  assert (He : forall d, exists e, ServerA.events_page H (query req) d = inl e).
  { intros d. unfold ServerA.events_page.
    destruct (ServerA.page_params (query req)) as [limit offset].
    unfold ebind, ServerA.day_bound.
    destruct Hbad as [[Ht Hd] | [Ht Hd]]; rewrite Ht, Hd.
    - eauto.
    - destruct (if truthy _ then _ else _); eauto. }
  assert (Hr : forall d, exists e, ServerA.results_page H (query req) d = inl e).
  { intros d. unfold ServerA.results_page.
    destruct (ServerA.page_params (query req)) as [limit offset].
    unfold ebind, ServerA.day_bound.
    destruct Hbad as [[Ht Hd] | [Ht Hd]]; rewrite Ht, Hd.
    - eauto.
    - destruct (if truthy _ then _ else _); eauto. }
  unfold ServerA.get_events, ServerA.get_results, try_catch, bind, get_store, lift,
    throw, ret.
  destruct (He (store w)) as [e ->]. destruct (Hr (store w)) as [e' ->].
  split; reflexivity.
Qed.

(** [start=yesterday] *)
Lemma unreadable_date_witness :
  status (answer (ServerA.get_events Sample.utc
                    (Sample.request_with [] [("start", JStr "yesterday")] JNull)
                    (Sample.fresh two_rows))) = 500.
Proof.
  rewrite (proj1 (unreadable_date_is_a_500 Sample.utc
                    (Sample.request_with [] [("start", JStr "yesterday")] JNull)
                    (Sample.fresh two_rows) (or_introl (conj eq_refl eq_refl)))).
  reflexivity.
Defined.



(** X6: an item of a batch that is null (or undefined) makes
    POST /api/events of the first and of the second program of
    src/server.js answer 500 and leave the store as it was, wherever the
    item stands in the batch and whatever was inserted before it. *)
Theorem unreadable_item_rejects_the_batch F now req (w : world db) (it : jsval) :
  In it (ServerA.batch_items (body req ||| JObj [])) ->
  it = JNull \/ it = JUndefined ->
  (let x := ServerA.post_events F now req w in
   status (answer x) = 500 /\ store_after x = store w)
  /\ (let x := ServerB.post_events F now req w in
      status (answer x) = 500 /\ store_after x = store w).
Proof.
  intros Hin Hbad. cbv zeta. split.
  - unfold ServerA.post_events, try_catch, bind, transaction, answer, store_after.
    destruct (LoopFacts.for_of_throws
                (ServerA.insert_item F (Time.toISOString now)
                   (assoc "session_id" (cookies req)) (ServerA.client_ip req))
                _ it Hin) with (w := w) as (e & w' & ->).
    + intros w0. unfold ServerA.insert_item, bind, lift.
      rewrite (LoopFacts.unreadable_resolve it Hbad). unfold throw. eauto.
    + cbn. auto.
  - unfold ServerB.post_events, try_catch, bind, transaction, answer, store_after.
    destruct (LoopFacts.for_of_throws
                (ServerB.insert_item F (Time.toISOString now)
                   (assoc "session_id" (cookies req)) (ServerA.client_ip req))
                _ it Hin) with (w := w) as (e & w' & ->).
    + intros w0. unfold ServerB.insert_item, bind, lift, nanoid.
      destruct Hbad as [-> | ->]; cbn; unfold throw; eauto.
    + cbn. auto.
Qed.

(** A batch whose second item is null. *)
Lemma unreadable_item_witness :
  status (answer (ServerA.post_events no_faults Sample.t_morning
                    (Sample.request_with [] [] Sample.batch_with_null)
                    (Sample.fresh (mkDb [] [])))) = 500.
Proof.
  apply (proj1 (unreadable_item_rejects_the_batch no_faults Sample.t_morning
                  (Sample.request_with [] [] Sample.batch_with_null)
                  (Sample.fresh (mkDb [] [])) JNull
                  (or_intror (or_introl eq_refl)) (or_introl eq_refl))).
Defined.

(** X7: the ids stay distinct.  If no two rows of [events] share an id
    before a POST /api/events request of the first program of
    src/server.js, none do after it, and the same holds for [results] and
    POST /api/results: an id that nanoid repeats is refused by the
    primary key, never written over a row. *)
Theorem ids_stay_distinct F now req (w : world db) :
  (NoDup (List.map Events.id (events (store w))) ->
   NoDup (List.map Events.id
            (events (store_after (ServerA.post_events F now req w)))))
  /\ (NoDup (List.map Results.id (results (store w))) ->
      NoDup (List.map Results.id
               (results (store_after (ServerA.post_results F now req w))))).
Proof.
  split; intros Hnd.
  - unfold ServerA.post_events, try_catch, bind, transaction, store_after.
    pose proof (LoopFacts.for_of_invariant
                  (fun d => NoDup (List.map Events.id (events d)))
                  (ServerA.insert_item F (Time.toISOString now)
                     (assoc "session_id" (cookies req)) (ServerA.client_ip req))
                  (ServerA.batch_items (body req ||| JObj []))
                  (fun a w0 => LoopFacts.insert_item_keeps_ids F _ _ _ a w0)
                  w Hnd) as Hloop.
    destruct (for_of _ _ w) as [[e|[]] w1]; cbn in *; assumption.
  - unfold ServerA.post_results, try_catch, bind, lift, throw, ret, nanoid,
      store_after. cbn [store nanoid_source drawn].
    destruct (bind_text _); cbn; [exact Hnd|].
    match goal with |- context [stInsertResult_run F ?r ?w'] =>
      pose proof (LoopFacts.stInsertResult_run_fresh F r w') as Hrun;
      destruct (stInsertResult_run F r w') as [[e|[]] w2] end; cbn.
    + subst w2. exact Hnd.
    + destruct Hrun as [Hst Hfresh]. rewrite Hst. cbn [results store] in *.
      rewrite map_app. cbn [List.map]. apply LoopFacts.NoDup_snoc; assumption.
Qed.

(** Two events posted to the empty table. *)
Lemma ids_stay_distinct_witness :
  NoDup (List.map Events.id
           (events (store_after
                      (ServerA.post_events no_faults Sample.t_morning
                         (Sample.request_with [] [] Sample.two_events)
                         (Sample.fresh (mkDb [] [])))))).
Proof.
  apply (proj1 (ids_stay_distinct no_faults Sample.t_morning
                  (Sample.request_with [] [] Sample.two_events)
                  (Sample.fresh (mkDb [] [])))).
  constructor.
Defined.

(** X8: the defaults of POST /api/results stand in for an absent field
    only.  When the request is answered with 200, exactly one row was
    appended to [results] and [events] is as it was; the row holds the
    empty name and the text of the empty object when [result_name] and
    [scores] are absent from the body, but the texts null and null when
    the body carries them as null. *)
Theorem result_defaults_are_for_absent_fields F now req (w : world db) :
  let x := ServerA.post_results F now req w in
  let body' := body req ||| JObj [] in
  status (answer x) = 200 ->
  exists r,
    store_after x = mkDb (events (store w)) (results (store w) ++ [r])
    /\ Results.id r = nanoid_source w (drawn w)
    /\ Results.ts r = Time.toISOString now
    /\ (get_opt body' "result_name" = JUndefined -> Results.result_name r = "")
    /\ (get_opt body' "result_name" = JNull -> Results.result_name r = "null")
    /\ (forall s, get_opt body' "result_name" = JStr s -> Results.result_name r = s)
    /\ (get_opt body' "scores" = JUndefined -> Results.score_json r = "{}")
    /\ (get_opt body' "scores" = JNull -> Results.score_json r = "null").
Proof.
  cbv zeta. unfold ServerA.post_results, try_catch, bind, lift, throw, ret, nanoid,
    answer, store_after. cbn [store nanoid_source drawn].
  destruct (bind_text _) as [e|sid]; cbn; [discriminate|].
  unfold stInsertResult_run. cbn [store nanoid_source drawn].
  destruct (_ || _); cbn; [discriminate|]. intros _.
  eexists. split; [reflexivity|]. cbn.
  repeat split; try (intros E; rewrite E; reflexivity).
  intros s E. rewrite E. reflexivity.
Qed.

(** A body without fields, on a first visit. *)
Lemma result_defaults_witness :
  exists r,
    store_after (ServerA.post_results no_faults Sample.t_morning
                   (Sample.request_with [] [] (JObj []))
                   (Sample.fresh (mkDb [] [])))
    = mkDb [] [r]
    /\ Results.result_name r = "" /\ Results.score_json r = "{}".
Proof.
  destruct (result_defaults_are_for_absent_fields no_faults Sample.t_morning
              (Sample.request_with [] [] (JObj [])) (Sample.fresh (mkDb [] [])))
    as (r & Hst & _ & _ & Hname & _ & _ & Hscores & _).
  - reflexivity.
  - exists r. split; [exact Hst|]. split; [apply Hname | apply Hscores]; reflexivity.
Defined.





(** X12: a batch that fails half way leaves a trace in Supabase.  If the
    batch [good] alone is accepted by the mirrored program, then the
    batch [good], null, [rest] is answered with 500 and SQLite is as it
    was, but Supabase is handed the same rows as for [good] alone. *)
Theorem rolled_back_rows_reach_the_mirror S F now req (w : world Mirror.stores)
    (good rest : list jsval) :
  let accepted :=
    Mirror.post_events S F now (with_body req (JObj [("batch", JArr good)])) w in
  let failed :=
    Mirror.post_events S F now
      (with_body req (JObj [("batch", JArr (good ++ JNull :: rest))])) w in
  status (answer accepted) = 200 ->
  status (answer failed) = 500
  /\ Mirror.local (store_after failed) = Mirror.local (store w)
  /\ Mirror.sent_events (store_after failed) = Mirror.sent_events (store_after accepted)
  /\ (S = true ->
      exists new,
        length new = length good
        /\ events (Mirror.local (store_after accepted))
           = (events (Mirror.local (store w)) ++ new)%list
        /\ Mirror.sent_events (store_after failed)
           = (Mirror.sent_events (store w) ++ new)%list).
Proof.
  cbv zeta.
  pose proof (MirrorFacts.mirror_batch_run S F now
                (with_body req (JObj [("batch", JArr good)])) w) as Hacc.
  cbv zeta in Hacc. rewrite MirrorFacts.batch_of_array in Hacc.
  unfold Mirror.post_events, try_catch, bind, Mirror.transaction, answer,
    store_after in *.
  rewrite !MirrorFacts.batch_of_array in *.
  change (cookies (with_body req ?b)) with (cookies req) in *.
  change (ServerA.client_ip (with_body req ?b)) with (ServerA.client_ip req) in *.
  revert Hacc. generalize (Time.toISOString now). intros now_text Hacc.
  rewrite LoopFacts.for_of_app.
  destruct (for_of good _ w) as [[e|[]] w1] eqn:Egood;
    cbn [fst snd status error ok store set_store] in *.
  { intros Hst. discriminate Hst. }
  intros _. cbn [for_of]. unfold bind at 1.
  assert (Hnull : Mirror.insert_item S F now_text
                    (assoc "session_id" (cookies req)) (ServerA.client_ip req)
                    JNull w1 = (inl TypeError, w1)) by reflexivity.
  rewrite Hnull. cbn [fst snd status error ok store set_store Mirror.local
                        Mirror.sent_events].
  split; [reflexivity|]. split; [reflexivity|]. split; [reflexivity|].
  intros ->. destruct Hacc as (new & Hsent & _ & [(_ & Hloc & Hlen) | (Hst & _)]).
  - exists new. rewrite Hloc. cbn [events]. auto.
  - discriminate Hst.
Qed.

(** One event, then null: the event reaches Supabase, not SQLite. *)
Lemma rolled_back_rows_witness :
  let failed :=
    Mirror.post_events true no_faults Sample.t_morning
      (with_body (Sample.request_with [] [] JNull)
         (JObj [("batch", JArr ([JObj [("page", JStr "/a")]] ++ JNull :: []))]))
      (Sample.fresh (Mirror.mkStores (mkDb [] []) [] [])) in
  status (answer failed) = 500
  /\ Mirror.local (store_after failed) = mkDb [] [].
Proof.
  cbv zeta.
  destruct (rolled_back_rows_reach_the_mirror true no_faults Sample.t_morning
              (Sample.request_with [] [] JNull)
              (Sample.fresh (Mirror.mkStores (mkDb [] []) [] []))
              [JObj [("page", JStr "/a")]] [])
    as (Hst & Hloc & _).
  - reflexivity.
  - split; [exact Hst | exact Hloc].
Defined.

(** X13: GET /api/user-results reads the session from the cookies of the
    request only.  A request without a truthy session_id cookie is
    answered with 400 [Session ID required] and the stores are not read
    or changed, although the middleware sets a fresh session cookie on
    that very response; this holds for the mirrored program of
    src/unnamed/part_001 and for src/server-render.js. *)
Theorem user_results_need_a_presented_session (req : request) :
  truthy (assoc "session_id" (cookies req)) = false ->
  (forall S H remote (w : world Mirror.stores),
      let r := Mirror.app (Mirror.get_user_results S H remote) req w in
      sent r.1 = error 400 "Session ID required"
      /\ (exists c, set_cookie r.1 = [c] /\ name c = "session_id"
                    /\ value c = nanoid_source w (drawn w))
      /\ store r.2 = store w)
  /\ (forall P F (w : world Render.pg),
         let r := Render.app (Render.get_user_results P F) req w in
         sent r.1 = error 400 "Session ID required"
         /\ (exists c, set_cookie r.1 = [c] /\ name c = "session_id"
                       /\ value c = nanoid_source w (drawn w))
         /\ store r.2 = store w).
Proof.
  intros Hc. split.
  - intros S H remote w. cbv zeta.
    unfold Mirror.app, Mirror.on_local, ServerA.session_middleware,
      Mirror.get_user_results, try_catch.
    rewrite Hc. cbn. destruct (store w). cbn. eauto 10.
  - intros P F w. cbv zeta.
    unfold Render.app, Render.session_middleware, Render.get_user_results, try_catch.
    rewrite Hc. cbn. eauto 10.
Qed.

(** A first visit. *)
Lemma user_results_witness :
  status (sent (Mirror.app
                  (Mirror.get_user_results false Sample.utc (fun _ => None))
                  (Sample.request_with [] [] JNull)
                  (Sample.fresh (Mirror.mkStores (mkDb [] []) [] []))).1) = 400.
Proof.
  destruct (user_results_need_a_presented_session
              (Sample.request_with [] [] JNull) eq_refl) as [HM _].
  destruct (HM false Sample.utc (fun _ => None)
              (Sample.fresh (Mirror.mkStores (mkDb [] []) [] []))) as [Hsent _].
  rewrite Hsent. reflexivity.
Defined.

(** X14: a result posted by a visitor is what the visitor reads back.  In
    the mirrored program of src/unnamed/part_001, when a request with the
    session cookie [sid] posts a result that is answered with 200, the
    session had no result before, Supabase yields no rows for it, and
    JSON.parse reads the stored scores text as [scores], then
    GET /api/user-results with the same cookie answers with that one
    result: its id, the time stamp of the server, the name and the
    scores, and a total of 1. *)
Theorem posted_result_is_read_back S H F remote now (post get : request)
    (w : world Mirror.stores) (sid : string) (scores : jsval) :
  let body' := body post ||| JObj [] in
  let x := Mirror.post_results S F now post w in
  assoc "session_id" (cookies post) = JStr sid ->
  assoc "session_id" (cookies get) = JStr sid ->
  sid <> "" ->
  status (answer x) = 200 ->
  Forall (fun r => Results.session_id r <> Some sid)
    (results (Mirror.local (store w))) ->
  Mirror.from_supabase S remote (JStr sid) = [] ->
  ServerA.parse_or_empty H
    (stringify (ServerA.default_to (get_opt body' "scores") (JObj []))) = inr scores ->
  answer (Mirror.get_user_results S H remote get x.2)
  = ok (JObj [("session_id", JStr sid);
              ("results",
               JArr [JObj [("id", JStr (nanoid_source w (drawn w)));
                           ("timestamp", JStr (Time.toISOString now));
                           ("result_name",
                            JStr (js_String
                                    (ServerA.default_to
                                       (get_opt body' "result_name") (JStr ""))));
                           ("scores", scores)]]);
              ("total", JNum 1)]).
Proof.
  cbv zeta. intros Hpost Hget Hsid Hok Hnone Hremote Hparse.
  assert (Htruthy : truthy (JStr sid) = true).
  { cbn. destruct (String.eqb_spec sid ""); [contradiction | reflexivity]. }
  (* the post *)
  revert Hok. unfold Mirror.post_results, try_catch, bind, lift, throw, ret, nanoid,
    answer. rewrite Hpost. cbn [bind_text store nanoid_source drawn].
  unfold Mirror.on_local, stInsertResult_run. cbn [store nanoid_source drawn].
  destruct (_ || _); [intros Hst; discriminate Hst|]. intros _.
  unfold Mirror.supabaseOps_insertResult.
  set (r := Results.mk _ _ _ _ _).
  assert (Hlocal : forall w' : world Mirror.stores,
             Mirror.local (store w')
             = mkDb (events (Mirror.local (store w)))
                 (results (Mirror.local (store w)) ++ [r]) ->
             answer (Mirror.get_user_results S H remote get w')
             = ok (JObj [("session_id", JStr sid);
                         ("results",
                          JArr [JObj [("id", JStr (Results.id r));
                                      ("timestamp", JStr (Results.ts r));
                                      ("result_name", JStr (Results.result_name r));
                                      ("scores", scores)]]);
                         ("total", JNum 1)])).
  { intros w' Hw'.
    unfold Mirror.get_user_results, try_catch, answer, bind, get_store, lift.
    rewrite Hget, Htruthy, Hremote. cbn [negb length Nat.eqb].
    unfold Mirror.results_of_session. cbn [bind_text ebind]. rewrite Hw'.
    cbn [results]. rewrite List.filter_app.
    assert (Hold : List.filter
                     (fun r0 => match Results.session_id r0 with
                                | Some a => String.eqb a sid
                                | None => false
                                end) (results (Mirror.local (store w))) = []).
    { clear -Hnone. induction Hnone as [|r0 l Hr0 _ IH]; [reflexivity|].
      cbn. destruct (Results.session_id r0) as [a|]; [|exact IH].
      destruct (String.eqb_spec a sid); [congruence | exact IH]. }
    rewrite Hold. cbn [app List.filter]. subst r. cbn [Results.session_id].
    rewrite String.eqb_refl. cbn [order_by_ts_desc sort_desc fold_right insert_desc].
    unfold throw, ret. cbn [emap ebind Mirror.local_item Results.score_json].
    unfold Mirror.local_item, ebind. cbn [Results.score_json].
    rewrite Hparse. reflexivity. }
  destruct S; cbn [fst snd]; apply Hlocal; reflexivity.
Qed.

(** A visitor posts a result with no scores and reads it back. *)
Lemma posted_result_witness :
  let post := Sample.request_with [("session_id", JStr "s1")] []
                (JObj [("result_name", JStr "INTJ")]) in
  let w := Sample.fresh (Mirror.mkStores (mkDb [] []) [] []) in
  status (answer (Mirror.get_user_results false Sample.utc (fun _ => None) post
                    (Mirror.post_results false no_faults Sample.t_morning post w).2))
  = 200.
Proof.
  cbv zeta.
  rewrite (posted_result_is_read_back false Sample.utc no_faults (fun _ => None)
             Sample.t_morning
             (Sample.request_with [("session_id", JStr "s1")] []
                (JObj [("result_name", JStr "INTJ")]))
             (Sample.request_with [("session_id", JStr "s1")] []
                (JObj [("result_name", JStr "INTJ")]))
             (Sample.fresh (Mirror.mkStores (mkDb [] []) [] []))
             "s1" (JObj [])); try reflexivity.
  - discriminate.
  - constructor.
Defined.

Lemma emap_throws {A B} (f : A -> exn + B) (l : list A) (x : A) e :
  In x l -> f x = inl e -> exists e', emap f l = inl e'.
Proof.
  intros Hin Hx. induction l as [|a l IH]; [destruct Hin|].
  cbn [emap]. unfold ebind. destruct (f a) as [e0|y] eqn:Ea; [eauto|].
  destruct Hin as [-> | Hin]; [congruence|].
  destruct (IH Hin) as [e' ->]. eauto.
Qed.

Lemma emap_total {A B} (f : A -> exn + B) (l : list A) :
  Forall (fun x => exists y, f x = inr y) l ->
  exists ys, emap f l = inr ys /\ length ys = length l.
Proof.
  induction 1 as [|a l [y Hy] _ (ys & IH & Hlen)]; [exists []; auto|].
  exists (y :: ys). cbn [emap]. unfold ebind. rewrite Hy, IH. cbn. auto.
Qed.

(** X15: GET /api/user-results of the mirrored program prefers Supabase
    and falls back to SQLite.  For a request with a truthy session
    cookie: when SUPABASE_URL is not set, or Supabase reports an error,
    or returns no row, or returns a row that cannot be read (null), the
    answer is the one of the program without Supabase, built from the
    SQLite rows of the session.  When Supabase returns readable rows,
    the answer lists one entry for each of them and SQLite is not
    consulted. *)
Theorem user_results_fall_back_to_sqlite S H remote (req : request)
    (w : world Mirror.stores) :
  let sid := assoc "session_id" (cookies req) in
  truthy sid = true ->
  ((S = false \/ remote sid = None \/ remote sid = Some []
    \/ exists rows, remote sid = Some rows /\ (In JNull rows \/ In JUndefined rows)) ->
   Mirror.get_user_results S H remote req w
   = Mirror.get_user_results false H remote req w)
  /\ (forall rows,
         S = true -> remote sid = Some rows -> rows <> [] -> Forall readable rows ->
         exists items,
           length items = length rows
           /\ Mirror.get_user_results S H remote req w
              = (inr (ok (JObj [("session_id", sid);
                                ("results", JArr items);
                                ("total", JNum (Z.of_nat (length rows)))])), w)).
Proof.
  cbv zeta. intros Ht. split.
  - intros Hcase.
    assert (Hnone : Mirror.from_supabase S remote (assoc "session_id" (cookies req))
                    = []).
    { unfold Mirror.from_supabase, Mirror.supabaseOps_getUserResults.
      destruct Hcase as [-> | [Hr | [Hr | (rows & Hr & Hbad)]]]; [reflexivity| | |];
        destruct S; try reflexivity; rewrite Hr; try reflexivity.
      assert (Hthrow : exists x, In x rows /\ Mirror.remote_item x = inl TypeError).
      { destruct Hbad as [Hin | Hin]; eexists; (split; [exact Hin | reflexivity]). }
      destruct Hthrow as (x & Hin & Hx).
      destruct (emap_throws _ _ _ _ Hin Hx) as [e' ->]. reflexivity. }
    unfold Mirror.get_user_results. rewrite Ht, Hnone. reflexivity.
  - intros rows -> Hr Hne Hall.
    destruct (emap_total Mirror.remote_item rows) as (items & Hitems & Hlen).
    { eapply Forall_impl; [exact Hall|]. intros x Hx. cbn beta.
      unfold Mirror.remote_item, ebind. rewrite !(LoopFacts.readable_get x _ Hx).
      eauto. }
    exists items. split; [exact Hlen|].
    unfold Mirror.get_user_results, try_catch, bind, ret. rewrite Ht. cbn [negb].
    unfold Mirror.from_supabase, Mirror.supabaseOps_getUserResults.
    rewrite Hr, Hitems.
    destruct items as [|i items]; [destruct rows; [contradiction | discriminate]|].
    cbn [length Nat.eqb]. rewrite <- Hlen. reflexivity.
Qed.

(** Supabase reports an error: the answer is that of SQLite alone. *)
Lemma user_results_fall_back_witness :
  Mirror.get_user_results true Sample.utc (fun _ => None)
    (Sample.request_with [("session_id", JStr "s1")] [] JNull)
    (Sample.fresh (Mirror.mkStores (mkDb [] []) [] []))
  = Mirror.get_user_results false Sample.utc (fun _ => None)
      (Sample.request_with [("session_id", JStr "s1")] [] JNull)
      (Sample.fresh (Mirror.mkStores (mkDb [] []) [] [])).
Proof.
  apply (user_results_fall_back_to_sqlite true Sample.utc (fun _ => None)
           (Sample.request_with [("session_id", JStr "s1")] [] JNull)
           (Sample.fresh (Mirror.mkStores (mkDb [] []) [] [])) eq_refl).
  right. left. reflexivity.
Defined.


(** X17: GET /api/dashboard of src/server.js: [topEvents] lists at most
    six event types and [pageViews] at most ten pages of page_view events,
    each with its exact, positive number of rows, largest count first; and
    no type (page) left out of the list occurs more often than one that is
    listed. *)
Theorem top_events_are_the_most_frequent (H : Host.t) (now : Z) (d : Sqlite.db) :
  let types := List.map Events.type (Sqlite.events d) in
  let pages :=
    List.map Events.page
      (List.filter (fun r => String.eqb (Events.type r) "page_view") (Sqlite.events d)) in
  let top_of (n : nat) (column : list string) (top : list (string * Z)) :=
    (length top <= n)%nat
    /\ largest_first top
    /\ (forall k c, In (k, c) top -> c = occurrences k column /\ 0 < c)
    /\ (forall k, In k column -> ~ In k (List.map fst top) ->
                  forall k' c', In (k', c') top -> occurrences k column <= c') in
  exists top views,
    get_opt (ServerA.dashboard_body H now d) "topEvents"
    = JArr (List.map (ServerA.named_count "event_name") top)
    /\ get_opt (ServerA.dashboard_body H now d) "pageViews"
       = JArr (List.map (ServerA.named_count "page") views)
    /\ top_of 6%nat types top
    /\ top_of 10%nat pages views.
Proof.
  cbv zeta.
  exists (take 6 (Sqlite.order_by_count_desc
                    (Sqlite.group_count (List.map Events.type (Sqlite.events d))))).
  exists (take 10 (Sqlite.order_by_count_desc
                     (Sqlite.group_count
                        (List.map Events.page
                           (List.filter (fun r => String.eqb (Events.type r) "page_view")
                              (Sqlite.events d)))))).
  split; [reflexivity|]. split; [reflexivity|].
  split; apply GroupFacts.top_of_ranking.
Qed.

(** X18: the counters of GET /api/dashboard and GET /api/realtime of
    src/server.js, read from one state of the store, are consistent:
    users never outnumber events, today's figures never exceed the
    all-time ones, and the figures of the last five minutes never exceed
    the all-time ones. *)
Theorem counters_are_consistent (H : Host.t) (now : Z) (d : Sqlite.db) :
  exists totalEvents totalUsers todayEvents todayUsers recentEvents onlineUsers : Z,
    let body := ServerA.dashboard_body H now d in
    let live := ServerA.realtime_body now d in
    get_opt body "totalEvents" = JArr [Sqlite.count_row totalEvents]
    /\ get_opt body "totalUsers" = JArr [Sqlite.count_row totalUsers]
    /\ get_opt body "todayEvents" = JArr [Sqlite.count_row todayEvents]
    /\ get_opt body "todayUsers" = JArr [Sqlite.count_row todayUsers]
    /\ get_opt live "recentEvents" = JArr [Sqlite.count_row recentEvents]
    /\ get_opt live "onlineUsers" = JArr [Sqlite.count_row onlineUsers]
    /\ 0 <= todayUsers <= todayEvents
    /\ todayUsers <= totalUsers <= totalEvents
    /\ todayEvents <= totalEvents
    /\ 0 <= onlineUsers <= recentEvents
    /\ onlineUsers <= totalUsers
    /\ recentEvents <= totalEvents.
Proof.
  set (today := Time.toISOString (Host.startOf_day H now)).
  exists (Z.of_nat (length (Sqlite.events d))),
         (Sqlite.count_distinct (List.map Events.session_id (Sqlite.events d))),
         (Z.of_nat (length (ServerA.since today (Sqlite.events d)))),
         (Sqlite.count_distinct
            (List.map Events.session_id (ServerA.since today (Sqlite.events d)))),
         (ServerA.recentEvents now d), (ServerA.onlineUsers now d).
  cbv zeta. do 6 (split; [reflexivity|]).
  unfold ServerA.recentEvents, ServerA.onlineUsers.
  generalize (ServerA.fiveMinutesAgo now). intros bound.
  pose proof (CountFacts.count_distinct_le_length
                (List.map Events.session_id (ServerA.since today (Sqlite.events d)))) as H1.
  pose proof (CountFacts.count_distinct_le_length
                (List.map Events.session_id (ServerA.since bound (Sqlite.events d)))) as H2.
  pose proof (CountFacts.count_distinct_le_length
                (List.map Events.session_id (Sqlite.events d))) as H3.
  pose proof (CountFacts.count_distinct_mono
                (List.map Events.session_id (ServerA.since today (Sqlite.events d)))
                (List.map Events.session_id (Sqlite.events d))
                (fun x => CountFacts.map_filter_In _ _ _ x)) as H4.
  pose proof (CountFacts.count_distinct_mono
                (List.map Events.session_id (ServerA.since bound (Sqlite.events d)))
                (List.map Events.session_id (Sqlite.events d))
                (fun x => CountFacts.map_filter_In _ _ _ x)) as H5.
  pose proof (CountFacts.filter_length_le
                (fun r => String.leb today (Events.ts r)) (Sqlite.events d)) as H6.
  pose proof (CountFacts.filter_length_le
                (fun r => String.leb bound (Events.ts r)) (Sqlite.events d)) as H7.
  rewrite !length_map in *. unfold ServerA.since in *. lia.
Qed.

(** X19: POST /api/events of the tracker program of src/unnamed/part_001.
    The table [results] is never touched.  With an array [batch] the write
    is all-or-nothing: either every item became a row, appended in order
    under fresh ids that increase and exceed every id of the table, and
    the answer is 200; or the table is as before and the answer is 500.
    Without an array [batch] nothing is written, and a body that can be
    read is answered 200 all the same: a single event sent outside a batch
    is acknowledged and dropped. *)
Theorem tracker_batch_outcome (F : Tracker.faults) (clock : nat -> Z)
    (req : request) (w : world Tracker.db) :
  let out := Tracker.post_events F clock req w in
  let before := Tracker.events (store w) in
  let after := Tracker.events (store_after out) in
  Tracker.results (store_after out) = Tracker.results (store w)
  /\ match get_opt (body req) "batch" with
     | JArr rows =>
         (answer out = ok (JObj [("ok", JBool true)])
          /\ exists new,
               after = (before ++ new)%list
               /\ length new = length rows
               /\ StronglySorted (fun a b => Tracker.id a < Tracker.id b) new
               /\ forall r, In r new ->
                    0 < Tracker.id r
                    /\ forall old, In old before -> Tracker.id old < Tracker.id r)
         \/ (answer out = error 500 "Failed to insert event" /\ after = before)
     | _ =>
         after = before
         /\ (readable (body req) -> answer out = ok (JObj [("ok", JBool true)]))
     end.
Proof.
  cbv zeta. unfold Tracker.post_events, try_catch, bind, ebind, lift, throw, ret,
    answer, store_after.
  destruct (body req) as [| | b | n | s | l | props] eqn:Eb;
    try (cbn; split; [reflexivity|]; split; [reflexivity|];
         intros [? ?]; congruence).
  cbn [get get_opt].
  destruct (assoc "batch" props) as [| | b | n | s | rows | ps];
    try (cbn; split; [reflexivity|]; split; [reflexivity|]; reflexivity).
  unfold Tracker.transaction.
  pose proof (TrackerFacts.tracker_insert_rows_run F clock (imap pair rows) w) as Hrun.
  destruct (for_of (imap pair rows) (Tracker.insert_row F clock) w) as [[e|[]] w1].
  - cbn. split; [reflexivity|]. right. split; reflexivity.
  - destruct Hrun as (new & Hst & Hlen & Hsorted & Hnew). cbn. rewrite Hst. cbn.
    split; [reflexivity|]. left. split; [reflexivity|].
    exists new. split; [reflexivity|]. split; [rewrite Hlen; apply length_imap|].
    split; [exact Hsorted|]. intros r Hr. specialize (Hnew r Hr).
    destruct (TrackerFacts.next_id_above (Tracker.events (store w))) as [Hpos Habove].
    split; [lia|]. intros old Hold. specialize (Habove old Hold). lia.
Qed.

(** X20: the list of GET /api/realtime.  In the third program of
    src/server.js it is taken from the rows of the last five minutes: it
    holds the ten newest of them (all of them when they are fewer), newest
    first, so it is never longer than the count [recentEvents] of the same
    response.  In the first program it is taken from the whole table: the
    twenty newest rows, whatever their age. *)
Theorem realtime_list_is_the_newest (now : Z) (d : Sqlite.db) :
  let newest (n : nat) (rows listed : list Events.row) :=
    length listed = Nat.min n (length rows)
    /\ newest_first Events.ts listed
    /\ (forall r, In r listed -> In r rows)
    /\ (forall r, In r rows -> ~ In r listed ->
                  forall r', In r' listed ->
                    String.leb (Events.ts r) (Events.ts r') = true) in
  (exists listed,
      get_opt (ServerC.realtime_body now d) "recentEventList"
      = JArr (List.map ServerC.recent_item listed)
      /\ get_opt (ServerC.realtime_body now d) "recentEvents"
         = JArr [Sqlite.count_row
                   (Z.of_nat (length (ServerA.since (ServerC.fiveMinAgo now)
                                        (Sqlite.events d))))]
      /\ newest 10%nat (ServerA.since (ServerC.fiveMinAgo now) (Sqlite.events d)) listed
      /\ (forall r, In r listed ->
            String.leb (ServerC.fiveMinAgo now) (Events.ts r) = true))
  /\ (exists listed,
         get_opt (ServerA.realtime_body now d) "recentEventList"
         = JArr (List.map ServerA.recent_item listed)
         /\ newest 20%nat (Sqlite.events d) listed).
Proof.
  cbv zeta. split.
  - exists (ServerC.recentEventList now d). split; [reflexivity|].
    split; [reflexivity|]. unfold ServerC.recentEventList.
    pose proof (OrderFacts.newest_rows Events.ts 10
                  (ServerA.since (ServerC.fiveMinAgo now) (Sqlite.events d))) as Hn.
    cbv zeta in Hn. split; [exact Hn|].
    intros r Hr. destruct Hn as (_ & _ & Hin & _). specialize (Hin r Hr).
    unfold ServerA.since in Hin. apply filter_In in Hin. tauto.
  - exists (take 20 (Sqlite.order_by_ts_desc Events.ts (Sqlite.events d))).
    split; [reflexivity|]. apply (OrderFacts.newest_rows Events.ts 20).
Qed.

(** X21: GET /api/dashboard of src/server.js: [hourlyEvents] has one
    entry per hour of the events since local midnight, each with the
    number of those events, hours ascending; the counts add up to the
    [todayEvents] of the same response. *)
Theorem hourly_events_add_up_to_today (H : Host.t) (now : Z) (d : Sqlite.db) :
  exists hours today,
    get_opt (ServerA.dashboard_body H now d) "hourlyEvents"
    = JArr (List.map ServerA.hour_count hours)
    /\ get_opt (ServerA.dashboard_body H now d) "todayEvents"
       = JArr [Sqlite.count_row today]
    /\ total_count hours = today
    /\ counts_of
         (List.map (fun r => Host.strftime_H H (Events.ts r))
            (ServerA.since (Time.toISOString (Host.startOf_day H now))
               (Sqlite.events d)))
         hours
    /\ keys_ascending hours.
Proof.
  set (column :=
         List.map (fun r => Host.strftime_H H (Events.ts r))
           (ServerA.since (Time.toISOString (Host.startOf_day H now))
              (Sqlite.events d))).
  exists (Sqlite.order_by_key_asc (Sqlite.group_count column)),
         (Z.of_nat (length (ServerA.since (Time.toISOString (Host.startOf_day H now))
                              (Sqlite.events d)))).
  split; [reflexivity|]. split; [reflexivity|].
  assert (Hc : counts_of column (Sqlite.order_by_key_asc (Sqlite.group_count column))).
  { eapply GroupFacts.counts_of_perm; [symmetry; apply KeyFacts.order_by_key_asc_perm|].
    apply GroupFacts.counts_group_count. }
  split; [|split; [exact Hc | apply KeyFacts.order_by_key_asc_sorted]].
  destruct Hc as (_ & _ & _ & Htot). rewrite Htot. unfold column.
  rewrite length_map. reflexivity.
Qed.

(** X22: the third program of src/server.js never writes a NULL session
    through POST /api/events and POST /api/results: every row they add
    carries a session ([''] when the request has no cookie and the item
    none), and a result is never stored under an empty name.  Its POST
    /api/track binds the cookie as it is: on a request without a session
    cookie the row it adds has a NULL session. *)
Theorem third_program_rows_carry_a_session (F : Sqlite.faults) (now : Z)
    (req : request) (w : world Sqlite.db) :
  (forall r,
      In r (Sqlite.events (store_after (ServerC.post_events F now req w))) ->
      In r (Sqlite.events (store w)) \/ Events.session_id r <> None)
  /\ (forall r,
         In r (Sqlite.results (store_after (ServerC.post_results F now req w))) ->
         In r (Sqlite.results (store w))
         \/ (Results.session_id r <> None /\ Results.result_name r <> ""))
  /\ (assoc "session_id" (cookies req) = JUndefined ->
      status (answer (ServerC.post_track F now req w)) = 200 ->
      exists r,
        Sqlite.events (store_after (ServerC.post_track F now req w))
        = (Sqlite.events (store w) ++ [r])%list
        /\ Events.session_id r = None).
Proof.
  assert (Hsid : readable (assoc "session_id" (cookies req) ||| JStr "")).
  { apply SessionFacts.js_or_readable. split; discriminate. }
  split; [|split].
  - unfold ServerC.post_events, store_after, try_catch, bind, Sqlite.transaction, lift.
    revert Hsid. generalize (assoc "session_id" (cookies req) ||| JStr "").
    generalize (Time.toISOString now). intros now_text sid Hsid.
    destruct (ServerC.iterate _) as [e|items]; cbn; [auto|].
    pose proof (LoopFacts.for_of_invariant
                  (fun d => forall r, In r (Sqlite.events d) ->
                                      In r (Sqlite.events (store w))
                                      \/ Events.session_id r <> None)
                  (ServerC.insert_item F now_text sid (ServerA.client_ip req)) items)
      as Hinv.
    assert (Hturn : forall a (w0 : world Sqlite.db),
               (forall r, In r (Sqlite.events (store w0)) ->
                          In r (Sqlite.events (store w)) \/ Events.session_id r <> None) ->
               forall r,
                 In r (Sqlite.events
                         (store (ServerC.insert_item F now_text sid
                                   (ServerA.client_ip req) a w0).2)) ->
                 In r (Sqlite.events (store w)) \/ Events.session_id r <> None).
    { intros a w0 Hw0 r.
      pose proof (SessionFacts.third_insert_item_run F now_text sid
                    (ServerA.client_ip req) a w0 Hsid) as Hrun.
      destruct (ServerC.insert_item _ _ _ _ a w0) as [[e|[]] w1]; cbn.
      - rewrite Hrun. apply Hw0.
      - destruct Hrun as (r0 & -> & Hr0). cbn. intros Hin.
        apply in_app_or in Hin as [Hin | [<- | []]]; [apply Hw0, Hin | right; exact Hr0]. }
    specialize (Hinv Hturn w (fun r Hr => or_introl Hr)).
    destruct (for_of items _ w) as [[e|[]] w1]; cbn in *; auto.
  - unfold ServerC.post_results, store_after, try_catch, bind, lift, throw, ret, nanoid.
    destruct (get (body req) "result_name") as [e|name]; cbn; [auto|].
    destruct (get (body req) "scores") as [e|scores]; cbn; [auto|].
    destruct (Sqlite.bind_text (assoc "session_id" (cookies req) ||| JStr ""))
      as [e|sid] eqn:Es; cbn; [auto|].
    apply SessionFacts.bind_text_readable in Es; [|exact Hsid].
    destruct (Sqlite.bind_text (name ||| JStr "unknown")) as [e|text] eqn:En;
      cbn; [auto|].
    apply SessionFacts.bind_text_truthy in En as (s & -> & Hs).
    2:{ unfold js_or. destruct (truthy name) eqn:E; [exact E | reflexivity]. }
    unfold Sqlite.stInsertResult_run. cbn [store nanoid_source drawn].
    destruct (_ || _); cbn; [auto|].
    intros r Hin. apply in_app_or in Hin as [Hin | [<- | []]]; [auto|].
    right. cbn. auto.
  - intros Hcookie. unfold ServerC.post_track, answer, store_after, try_catch, bind,
      lift, throw, ret, nanoid.
    rewrite Hcookie. cbn [Sqlite.bind_text].
    unfold Sqlite.stInsertEvent_run. cbn [store nanoid_source drawn].
    destruct (_ || _); cbn; [discriminate|].
    intros _. eexists. split; reflexivity.
Qed.


End Extras.
